(** * Planora (study-zen): pomodoro session controller and notification feed

    A shallow embedding of the client logic of the application:

    - [src/pages/Pomodoro.tsx]: the countdown controller ([toggleTimer],
      [completeSession], [resetTimer], the tick effect, the key handler);
    - the header component: [loadNotifications] and [removeNotification];
    - the dashboard component: the schedule part of [loadDashboardData].

    React state is modelled by records, one field per [useState] cell; the
    hosted database by the tables the code reads and writes; every awaited
    call gets its answer from an explicit environment record, so that a
    failing write or read is an input like any other. *)

From Stdlib Require Import ZArith List String Ascii Bool Lia Permutation.
From Stdlib Require Import DecimalString.
From Stdlib Require Sorted.
Import ListNotations.

#[local] Open Scope string_scope.
#[local] Open Scope list_scope.
#[local] Open Scope Z_scope.

(** ** JavaScript values used by the three components *)

Module Js.

(** Truthiness of a [string | null] value: [null] and the empty string are
    falsy. *)
Definition truthy (v : option string) : bool :=
  match v with
  | None => false
  | Some s => negb (s =? "")%string
  end.

(** [a || b] on strings where [a] may be [null]. *)
Definition or_default (a : option string) (b : string) : string :=
  match a with
  | Some s => if (s =? "")%string then b else s
  | None => b
  end.

(** [Math.floor(a / b)] for a positive divisor. *)
Definition floor_div (a b : Z) : Z := a / b.

(** [Math.ceil(a / b)] for a positive divisor, as the exact ceiling. The
    code computes the quotient in doubles; for [|a| < 2^53] and the divisor
    used here that quotient never rounds across an integer, so the two
    agree. Results about day counts carry that range as a hypothesis
    ([Header.days_exact]). *)
Definition ceil_div (a b : Z) : Z := - ((- a) / b).

(** [d] is the ceiling of [a / b]: the least integer with [a <= d * b]. *)
Definition is_ceil (a b d : Z) : Prop := (d - 1) * b < a <= d * b.

(** Template-literal rendering of an integer. *)
Definition number_to_string (z : Z) : string :=
  NilZero.string_of_int (Z.to_int z).

(** [n.toString().padStart(2, "0")] for a non-negative integer. *)
Definition pad2 (z : Z) : string :=
  let s := number_to_string z in
  if (String.length s <? 2)%nat then ("0" ++ s)%string else s.

Definition ms_per_day : Z := 1000 * 60 * 60 * 24.

(** [Array.prototype.sort] with a comparator: a stable sort, here by
    insertion; [le a b] stands for [cmp(a, b) <= 0]. *)
Section Sort.
Context {A : Type} (le : A -> A -> bool).

Fixpoint insert_sorted (x : A) (l : list A) : list A :=
  match l with
  | [] => [x]
  | y :: l' => if le x y then x :: l else y :: insert_sorted x l'
  end.

Fixpoint sort (l : list A) : list A :=
  match l with
  | [] => []
  | x :: l' => insert_sorted x (sort l')
  end.
End Sort.

(** [s.includes(sub)]. *)
Fixpoint includes (sub s : string) : bool :=
  prefix sub s ||
  match s with
  | EmptyString => false
  | String _ s' => includes sub s'
  end.

End Js.

(** ** Local time of the runtime

    [Date] methods that work on calendar fields ([setDate], [setHours],
    [getHours], ...) go through the local time of ECMAScript: an instant
    [t] has the local time [t + LocalTZA(t, true)], and a local time [l]
    is the instant [l - LocalTZA(l, false)]. The two offsets are what the
    runtime's time zone says; they change at a daylight-saving change. *)

Module LocalTime.

Record Zone := mkZone {
  offset_at : Z -> Z;          (* LocalTZA(t, true): offset in force at instant t, ms *)
  offset_at_local : Z -> Z     (* LocalTZA(l, false): offset for the local time l, ms *)
}.

(** A zone without daylight saving. *)
Definition fixed (offset : Z) : Zone :=
  {| offset_at := fun _ => offset; offset_at_local := fun _ => offset |}.

(** A zone whose offset is [before] until the instant [change], and [after]
    from then on. A local time that the change repeats (clocks set back) or
    skips (clocks set forward) is read with the offset before the change,
    as ECMAScript asks. *)
Definition changing (change before after : Z) : Zone :=
  {| offset_at := fun t => if t <? change then before else after;
     offset_at_local :=
       fun l => if l <? change + Z.max before after then before else after |}.

(** LocalTime(t) *)
Definition local (z : Zone) (t : Z) : Z := t + offset_at z t.

(** UTC(l) *)
Definition utc (z : Zone) (l : Z) : Z := l - offset_at_local z l.

(** [d.setDate(d.getDate() + n)]: the same local time of day, [n] local
    calendar days later. *)
Definition add_days (z : Zone) (n t : Z) : Z :=
  utc z (local z t + n * Js.ms_per_day).

(** [d.setHours(0, 0, 0, 0)]: the local midnight that opens the day of [t]. *)
Definition start_of_day (z : Zone) (t : Z) : Z :=
  utc z (local z t - (local z t) mod Js.ms_per_day).

End LocalTime.

(** ** The pomodoro page *)

Module Pomodoro.

(** A row of [public.pomodoro_sessions]. *)
Record SessionRow := mkSessionRow {
  id : string;
  user_id : string;
  duration : Z;              (* minutes *)
  completed : bool;
  task_id : option string;
  started_at : Z;            (* ms since the epoch *)
  completed_at : option Z
}.

(** A write request sent to the database, whether it succeeds or not. *)
Inductive Write :=
| Insert (owner : string) (minutes : Z) (done : bool)
| Update (session : string) (done : bool) (at_ms : Z).

Record Toast := mkToast {
  destructive : bool;
  title : string;
  description : string
}.

(** Everything outside the component: the table, the requests it has
    received, the notices shown, and how many times [completeSession] was
    entered. *)
Record World := mkWorld {
  pomodoro_sessions : list SessionRow;
  writes : list Write;
  toasts : list Toast;
  completeSession_calls : nat
}.

(** The answers of the environment to the awaited calls of one event. *)
Record Env := mkEnv {
  auth_user : option string;            (* supabase.auth.getUser() *)
  insert_result : string + string;      (* server-assigned id, or error.message *)
  update_error : option string;         (* error.message of the update *)
  select_ok : bool;                     (* the sessions query returned data *)
  now : Z;                              (* the clock, ms since the epoch *)
  zone : LocalTime.Zone                 (* the time zone of the runtime *)
}.

(** The [useState] cells and the interval behind [intervalRef]. *)
Record Ctl := mkCtl {
  c_duration : Z;                       (* seconds *)
  timeLeft : Z;
  isRunning : bool;
  sessionId : option string;
  sessions : list SessionRow;
  interval_live : bool
}.

Definition initial : Ctl :=
  {| c_duration := 25 * 60; timeLeft := 25 * 60; isRunning := false;
     sessionId := None; sessions := []; interval_live := false |}.

Definition setTimeLeft (v : Z) (c : Ctl) : Ctl :=
  {| c_duration := c_duration c; timeLeft := v; isRunning := isRunning c;
     sessionId := sessionId c; sessions := sessions c;
     interval_live := interval_live c |}.

Definition setIsRunning (v : bool) (c : Ctl) : Ctl :=
  {| c_duration := c_duration c; timeLeft := timeLeft c; isRunning := v;
     sessionId := sessionId c; sessions := sessions c;
     interval_live := interval_live c |}.

Definition setSessionId (v : option string) (c : Ctl) : Ctl :=
  {| c_duration := c_duration c; timeLeft := timeLeft c;
     isRunning := isRunning c; sessionId := v; sessions := sessions c;
     interval_live := interval_live c |}.

Definition setSessions (v : list SessionRow) (c : Ctl) : Ctl :=
  {| c_duration := c_duration c; timeLeft := timeLeft c;
     isRunning := isRunning c; sessionId := sessionId c; sessions := v;
     interval_live := interval_live c |}.

Definition setInterval (c : Ctl) : Ctl :=
  {| c_duration := c_duration c; timeLeft := timeLeft c;
     isRunning := isRunning c; sessionId := sessionId c;
     sessions := sessions c; interval_live := true |}.

Definition clearInterval (c : Ctl) : Ctl :=
  {| c_duration := c_duration c; timeLeft := timeLeft c;
     isRunning := isRunning c; sessionId := sessionId c;
     sessions := sessions c; interval_live := false |}.

Definition log_write (x : Write) (w : World) : World :=
  {| pomodoro_sessions := pomodoro_sessions w; writes := writes w ++ [x];
     toasts := toasts w; completeSession_calls := completeSession_calls w |}.

Definition set_rows (rows : list SessionRow) (w : World) : World :=
  {| pomodoro_sessions := rows; writes := writes w; toasts := toasts w;
     completeSession_calls := completeSession_calls w |}.

Definition toast (t : Toast) (w : World) : World :=
  {| pomodoro_sessions := pomodoro_sessions w; writes := writes w;
     toasts := toasts w ++ [t];
     completeSession_calls := completeSession_calls w |}.

Definition count_call (w : World) : World :=
  {| pomodoro_sessions := pomodoro_sessions w; writes := writes w;
     toasts := toasts w;
     completeSession_calls := S (completeSession_calls w) |}.

(** [today.setHours(0, 0, 0, 0)]: local midnight of the day of [t]. *)
Definition start_of_day (e : Env) (t : Z) : Z :=
  LocalTime.start_of_day (zone e) t.

(** The row the server stores for a successful insert. *)
Definition new_row (e : Env) (new_id owner : string) (minutes : Z) : SessionRow :=
  {| id := new_id; user_id := owner; duration := minutes; completed := false;
     task_id := None; started_at := now e; completed_at := None |}.

(** [.update({completed: true, completed_at}).eq("id", sid)], under the
    policy "Users can update own sessions". *)
Definition update_row (e : Env) (sid : string) (at_ms : Z) (r : SessionRow)
  : SessionRow :=
  if (id r =? sid)%string
     && match auth_user e with
        | Some u => (user_id r =? u)%string
        | None => false
        end
  then {| id := id r; user_id := user_id r; duration := duration r;
          completed := true; task_id := task_id r;
          started_at := started_at r; completed_at := Some at_ms |}
  else r.

Definition loadSessions (e : Env) (c : Ctl) (w : World) : Ctl :=
  match auth_user e with
  | None => c
  | Some u =>
      let today := start_of_day e (now e) in
      let data :=
        Js.sort (fun a b => started_at b <=? started_at a)
          (filter (fun r => (user_id r =? u)%string && (today <=? started_at r))
             (pomodoro_sessions w)) in
      if select_ok e then setSessions data c else c
  end.

Definition resetTimer (c : Ctl) : Ctl :=
  clearInterval (setSessionId None (setTimeLeft (c_duration c) (setIsRunning false c))).

Definition toggleTimer (e : Env) (c : Ctl) (w : World) : Ctl * World :=
  if negb (isRunning c) && negb (Js.truthy (sessionId c)) then
    match auth_user e with
    | None => (c, w)
    | Some u =>
        let minutes := Js.floor_div (c_duration c) 60 in
        let w1 := log_write (Insert u minutes false) w in
        match insert_result e with
        | inr message =>
            (c, toast (mkToast true "Error starting session" message) w1)
        | inl new_id =>
            (setIsRunning (negb (isRunning c)) (setSessionId (Some new_id) c),
             set_rows (pomodoro_sessions w1 ++ [new_row e new_id u minutes]) w1)
        end
    end
  else (setIsRunning (negb (isRunning c)) c, w).

Definition completeSession (e : Env) (c : Ctl) (w : World) : Ctl * World :=
  let w := count_call w in
  if negb (Js.truthy (sessionId c)) then (c, w)
  else
    let sid := match sessionId c with Some s => s | None => "" end in
    let w1 := log_write (Update sid true (now e)) w in
    match update_error e with
    | Some message =>
        (c, toast (mkToast true "Error completing session" message) w1)
    | None =>
        let w2 := set_rows (map (update_row e sid (now e)) (pomodoro_sessions w1)) w1 in
        let w3 := toast (mkToast false "Session completed! 🎉"
                           "Great work! Take a 5-minute break.") w2 in
        (loadSessions e (resetTimer c) w3, w3)
    end.

(** The callback of the one-second interval; it only fires while the
    interval exists. *)
Definition tick (c : Ctl) : Ctl :=
  if interval_live c then setTimeLeft (timeLeft c - 1) c else c.

(** The dependency array [[isRunning, timeLeft]] of the tick effect. *)
Definition deps_changed (prev cur : Ctl) : bool :=
  negb (Bool.eqb (isRunning prev) (isRunning cur))
  || negb (timeLeft prev =? timeLeft cur).

(** The tick effect after a render: when a dependency changed, the cleanup
    of the previous run clears the interval and the body runs again. A
    [completeSession] started by the body may set state, which renders
    again; [fuel] bounds the number of renders followed. *)
Fixpoint tickEffect (fuel : nat) (e : Env) (prev cur : Ctl) (w : World)
  : Ctl * World :=
  match fuel with
  | O => (cur, w)
  | S fuel' =>
      if deps_changed prev cur then
        let c1 := clearInterval cur in
        if isRunning c1 && (0 <? timeLeft c1) then (setInterval c1, w)
        else if (timeLeft c1 =? 0) && isRunning c1 then
          let '(c2, w2) := completeSession e c1 w in
          tickEffect fuel' e c1 c2 w2
        else (c1, w)
      else (cur, w)
  end.

Inductive Event :=
| Toggle                    (* the play/pause button *)
| Reset                     (* the reset button *)
| Tick                      (* the interval fires *)
| KeyDown (code : string).  (* the window keydown listener *)

Definition handle (e : Env) (ev : Event) (c : Ctl) (w : World) : Ctl * World :=
  match ev with
  | Toggle => toggleTimer e c w
  | Reset => (resetTimer c, w)
  | Tick => (tick c, w)
  | KeyDown code =>
      if (code =? "Space")%string then toggleTimer e c w
      else if (code =? "KeyR")%string then (resetTimer c, w)
      else (c, w)
  end.

(** Renders followed after one event; two are always enough (see
    [tickEffect_settles]). *)
Definition renders : nat := 2.

(** One event, run to quiescence: the handler, then the tick effect. *)
Definition step (e : Env) (ev : Event) (s : Ctl * World) : Ctl * World :=
  let '(c, w) := s in
  let '(c1, w1) := handle e ev c w in
  tickEffect renders e c c1 w1.

(** A run: events with the environment's answers, oldest first. *)
Fixpoint run (evs : list (Env * Event)) (s : Ctl * World) : Ctl * World :=
  match evs with
  | [] => s
  | (e, ev) :: evs' => run evs' (step e ev s)
  end.

Definition Idle (c : Ctl) : Prop :=
  isRunning c = false /\ Js.truthy (sessionId c) = false.

(** The interval only exists while the countdown runs above zero. *)
Definition interval_ok (c : Ctl) : Prop :=
  interval_live c = true -> isRunning c = true /\ 0 < timeLeft c.

End Pomodoro.

(** ** The tables read by the header and the dashboard *)

Module Exam.
(** A row of [public.exams]. *)
Record t := mk {
  id : string;
  user_id : string;
  course : string;
  title : string;
  exam_date : Z;             (* ms since the epoch *)
  location : option string;
  notes : option string
}.
End Exam.

Module Task.
(** A row of [public.tasks]. *)
Record t := mk {
  id : string;
  user_id : string;
  title : string;
  description : option string;
  course : option string;
  due_date : option Z;       (* ms since the epoch *)
  priority : option string;
  completed : bool;
  position : Z
}.
End Task.

(** ** Answers of the hosted database *)

Module Supabase.

(** The [data] of a select: the rows, or [null] when the query fails. *)
Definition answer {A} (fails : bool) (rows : list A) : option (list A) :=
  if fails then None else Some rows.

(** What a loop over [data?] goes through. *)
Definition rows_or_empty {A} (data : option (list A)) : list A :=
  match data with
  | Some rows => rows
  | None => []
  end.

End Supabase.

(** ** Reading the wall clock

    Each [new Date()] and [Date.now()] of a pass reads the clock once; the
    monad counts the readings, and the environment says what the k-th
    reading returns. *)

Module Clock.

Definition M (A : Type) : Type := nat -> A * nat.

Definition ret {A} (a : A) : M A := fun k => (a, k).

Definition bind {A B} (m : M A) (f : A -> M B) : M B :=
  fun k => let '(a, k') := m k in f a k'.

Definition read (clock : nat -> Z) : M Z := fun k => (clock k, S k).

(** [xs.forEach(x => body)] where the body pushes onto an array. *)
Fixpoint forEach {A B} (xs : list A) (body : A -> list B -> M (list B))
  (arr : list B) : M (list B) :=
  match xs with
  | [] => ret arr
  | x :: xs' => bind (body x arr) (forEach xs' body)
  end.

(** [xs.filter(x => pred)] where the predicate may read the clock. *)
Fixpoint filterM {A} (pred : A -> M bool) (xs : list A) : M (list A) :=
  match xs with
  | [] => ret []
  | x :: xs' =>
      bind (pred x) (fun keep =>
      bind (filterM pred xs') (fun rest =>
      ret (if keep then x :: rest else rest)))
  end.

(** The items a loop builds when each turn reads the clock once:
    readings [k], [k + 1], ... go to the rows in order. *)
Fixpoint stamped {A B} (clock : nat -> Z) (item : Z -> A -> B) (k : nat)
  (xs : list A) : list B :=
  match xs with
  | [] => []
  | x :: xs' => item (clock k) x :: stamped clock item (S k) xs'
  end.

End Clock.

Notation "x <- m ;; k" := (Clock.bind m (fun x => k))
  (at level 61, m at next level, right associativity).

(** ** The header: notifications *)

Module Notification.
Record t := mk {
  id : string;
  title : string;
  message : string;
  time : string;
  read : bool
}.
End Notification.

Module Header.

Record Env := mkEnv {
  auth_user : option string;           (* supabase.auth.getUser() *)
  exams : list Exam.t;                 (* table public.exams *)
  tasks : list Task.t;                 (* table public.tasks *)
  exams_fail : bool;                   (* the exams query returns no data *)
  overdue_fail : bool;                 (* the overdue query returns no data *)
  upcoming_fail : bool;                (* the upcoming query returns no data *)
  clock : nat -> Z;                    (* k-th reading of the clock, ms *)
  zone : LocalTime.Zone;               (* the time zone of the runtime *)
  toLocaleDateString : Z -> string     (* the runtime's date formatter *)
}.

Record State := mkState {
  notifications : list Notification.t;
  unreadCount : Z
}.

Definition initial : State := {| notifications := []; unreadCount := 0 |}.

Definition due (t : Task.t) : Z :=
  match Task.due_date t with Some d => d | None => 0 end.

(** [.eq("user_id", u).gte("exam_date", now).order("exam_date").limit(5)] *)
Definition exam_rows (e : Env) (u : string) (now : Z) : list Exam.t :=
  firstn 5
    (Js.sort (fun a b => Exam.exam_date a <=? Exam.exam_date b)
       (filter (fun x => (Exam.user_id x =? u)%string
                         && (now <=? Exam.exam_date x))
          (exams e))).

Definition select_exams (e : Env) (u : string) (now : Z) : option (list Exam.t) :=
  Supabase.answer (exams_fail e) (exam_rows e u now).

(** [.eq("user_id", u).eq("completed", false).lt("due_date", now).limit(5)] *)
Definition overdue_rows (e : Env) (u : string) (now : Z) : list Task.t :=
  firstn 5
    (filter (fun x => (Task.user_id x =? u)%string
                      && negb (Task.completed x)
                      && match Task.due_date x with
                         | Some d => d <? now
                         | None => false
                         end)
       (tasks e)).

Definition select_overdue (e : Env) (u : string) (now : Z) : option (list Task.t) :=
  Supabase.answer (overdue_fail e) (overdue_rows e u now).

(** [.eq("user_id", u).eq("completed", false).gte("due_date", now)
     .lte("due_date", until).order("due_date").limit(5)] *)
Definition upcoming_rows (e : Env) (u : string) (now until : Z) : list Task.t :=
  firstn 5
    (Js.sort (fun a b => due a <=? due b)
       (filter (fun x => (Task.user_id x =? u)%string
                         && negb (Task.completed x)
                         && match Task.due_date x with
                            | Some d => (now <=? d) && (d <=? until)
                            | None => false
                            end)
          (tasks e))).

Definition select_upcoming (e : Env) (u : string) (now until : Z)
  : option (list Task.t) :=
  Supabase.answer (upcoming_fail e) (upcoming_rows e u now until).

Definition daysUntil (date now : Z) : Z :=
  Js.ceil_div (date - now) Js.ms_per_day.

Definition exam_notification (e : Env) (now : Z) (exam : Exam.t) : Notification.t :=
  {| Notification.id := ("exam-" ++ Exam.id exam)%string;
     Notification.title := ("Upcoming Exam: " ++ Exam.course exam)%string;
     Notification.message :=
       (Exam.title exam ++ " in "
          ++ Js.number_to_string (daysUntil (Exam.exam_date exam) now)
          ++ " days")%string;
     Notification.time := toLocaleDateString e (Exam.exam_date exam);
     Notification.read := false |}.

Definition overdue_notification (e : Env) (task : Task.t) : Notification.t :=
  {| Notification.id := ("overdue-" ++ Task.id task)%string;
     Notification.title := "Overdue Task";
     Notification.message := Task.title task;
     Notification.time := toLocaleDateString e (due task);
     Notification.read := false |}.

Definition upcoming_notification (e : Env) (now : Z) (task : Task.t) : Notification.t :=
  {| Notification.id := ("upcoming-" ++ Task.id task)%string;
     Notification.title :=
       ("Upcoming Task: " ++ Js.or_default (Task.course task) "General")%string;
     Notification.message :=
       (Task.title task ++ " due in "
          ++ Js.number_to_string (daysUntil (due task) now)
          ++ " days")%string;
     Notification.time := toLocaleDateString e (due task);
     Notification.read := false |}.

(** [rows?.forEach(body)]: a query without data contributes nothing. *)
Definition forEach_rows {A} (rows : option (list A))
  (body : A -> list Notification.t -> Clock.M (list Notification.t))
  (notifs : list Notification.t) : Clock.M (list Notification.t) :=
  match rows with
  | None => Clock.ret notifs
  | Some xs => Clock.forEach xs body notifs
  end.

(** The three loops over the answers of the three queries. *)
Definition collect (e : Env)
  (exams : option (list Exam.t)) (overdueTasks upcomingTasks : option (list Task.t))
  : Clock.M (list Notification.t) :=
  let notifs := [] in
  notifs <- forEach_rows exams (fun exam notifs =>
              now <- Clock.read (clock e) ;;
              Clock.ret (notifs ++ [exam_notification e now exam])) notifs ;;
  notifs <- forEach_rows overdueTasks (fun task notifs =>
              Clock.ret (notifs ++ [overdue_notification e task])) notifs ;;
  notifs <- forEach_rows upcomingTasks (fun task notifs =>
              now <- Clock.read (clock e) ;;
              Clock.ret (notifs ++ [upcoming_notification e now task])) notifs ;;
  Clock.ret notifs.

(** The body of [loadNotifications] after the user check. *)
Definition aggregate (e : Env) (u : string) : Clock.M (list Notification.t) :=
  t_exams <- Clock.read (clock e) ;;
  let exams := select_exams e u t_exams in
  t_overdue <- Clock.read (clock e) ;;
  let overdueTasks := select_overdue e u t_overdue in
  t_seven <- Clock.read (clock e) ;;
  let sevenDaysFromNow := LocalTime.add_days (zone e) 7 t_seven in
  t_upcoming <- Clock.read (clock e) ;;
  let upcomingTasks := select_upcoming e u t_upcoming sevenDaysFromNow in
  collect e exams overdueTasks upcomingTasks.

(** The rows each of the three loops of a pass goes through. *)
Definition exams_seen (e : Env) (u : string) : list Exam.t :=
  Supabase.rows_or_empty (select_exams e u (clock e 0%nat)).

Definition overdue_seen (e : Env) (u : string) : list Task.t :=
  Supabase.rows_or_empty (select_overdue e u (clock e 1%nat)).

Definition upcoming_seen (e : Env) (u : string) : list Task.t :=
  Supabase.rows_or_empty
    (select_upcoming e u (clock e 3%nat)
       (LocalTime.add_days (zone e) 7 (clock e 2%nat))).

(** The instants of the tables lie within 2^53 ms of every reading of the
    clock: the range in which the day counts computed in doubles are the
    exact ones (see [Js.ceil_div]). *)
Definition days_exact (e : Env) : Prop :=
  forall k : nat,
    (forall x, In x (exams e) -> Z.abs (Exam.exam_date x - clock e k) < 2 ^ 53)
    /\ (forall t, In t (tasks e) -> Z.abs (due t - clock e k) < 2 ^ 53).

Definition loadNotifications (e : Env) (h : State) : State :=
  match auth_user e with
  | None => h
  | Some u =>
      let notifs := fst (aggregate e u 0%nat) in
      {| notifications := notifs; unreadCount := Z.of_nat (List.length notifs) |}
  end.

Definition removeNotification (id : string) (h : State) : State :=
  {| notifications :=
       filter (fun notif => negb (Notification.id notif =? id)%string)
         (notifications h);
     unreadCount := Z.max 0 (unreadCount h - 1) |}.

Inductive Op :=
| Load (e : Env)
| Remove (id : string).

Definition apply (op : Op) (h : State) : State :=
  match op with
  | Load e => loadNotifications e h
  | Remove id => removeNotification id h
  end.

Definition ids (l : list Notification.t) : list string :=
  map Notification.id l.

End Header.

(** ** The dashboard: today's schedule *)

Module ScheduleItem.
Inductive kind := task | exam.

Record t := mk {
  id : string;
  title : string;
  type : kind;
  time : string;
  course : option string;
  priority : option string;
  completed : option bool
}.
End ScheduleItem.

Module Dashboard.

Record Env := mkEnv {
  auth_user : option string;           (* supabase.auth.getUser() *)
  tasks : list Task.t;                 (* table public.tasks *)
  exams : list Exam.t;                 (* table public.exams *)
  tasks_fail : bool;                   (* the tasks query returns no data *)
  exams_fail : bool;                   (* the exams query returns no data *)
  clock : nat -> Z;                    (* k-th reading of the clock, ms *)
  zone : LocalTime.Zone                (* the time zone of the runtime *)
}.

(** date-fns [isSameDay]: the two instants open on the same local midnight. *)
Definition isSameDay (e : Env) (a b : Z) : bool :=
  LocalTime.start_of_day (zone e) a =? LocalTime.start_of_day (zone e) b.

(** date-fns [isToday] and [isTomorrow]; each asks the clock, and
    [isTomorrow] compares with [addDays(now, 1)]. *)
Definition isToday (e : Env) (d : Z) : Clock.M bool :=
  now <- Clock.read (clock e) ;;
  Clock.ret (isSameDay e d now).

Definition isTomorrow (e : Env) (d : Z) : Clock.M bool :=
  now <- Clock.read (clock e) ;;
  Clock.ret (isSameDay e d (LocalTime.add_days (zone e) 1 now)).

(** date-fns [format(d, "HH:mm")]: hours and minutes of the local time of
    [d]. *)
Definition format_HHmm (e : Env) (d : Z) : string :=
  let ms := (LocalTime.local (zone e) d) mod Js.ms_per_day in
  (Js.pad2 (ms / 3600000) ++ ":" ++ Js.pad2 ((ms / 60000) mod 60))%string.

(** [.eq("user_id", u).eq("completed", false)] *)
Definition select_tasks (e : Env) (u : string) : option (list Task.t) :=
  Supabase.answer (tasks_fail e)
    (filter (fun x => (Task.user_id x =? u)%string && negb (Task.completed x))
       (tasks e)).

(** [.eq("user_id", u).gte("exam_date", now).order("exam_date").limit(1)] *)
Definition select_exams (e : Env) (u : string) (now : Z) : option (list Exam.t) :=
  Supabase.answer (exams_fail e)
    (firstn 1
       (Js.sort (fun a b => Exam.exam_date a <=? Exam.exam_date b)
          (filter (fun x => (Exam.user_id x =? u)%string
                            && (now <=? Exam.exam_date x))
             (exams e)))).

(** The predicate of [tasks?.filter(...)]. *)
Definition due_today_or_overdue (e : Env) (task : Task.t) : Clock.M bool :=
  match Task.due_date task with
  | None => Clock.ret false
  | Some dueDate =>
      today <- isToday e dueDate ;;
      if today then Clock.ret true
      else
        now <- Clock.read (clock e) ;;
        Clock.ret ((dueDate <? now) && negb (Task.completed task))
  end.

(** The predicate of [exams?.filter(...)]. *)
Definition today_or_tomorrow (e : Env) (exam : Exam.t) : Clock.M bool :=
  today <- isToday e (Exam.exam_date exam) ;;
  if today then Clock.ret true else isTomorrow e (Exam.exam_date exam).

Definition task_item (e : Env) (task : Task.t) : ScheduleItem.t :=
  {| ScheduleItem.id := Task.id task;
     ScheduleItem.title := Task.title task;
     ScheduleItem.type := ScheduleItem.task;
     ScheduleItem.time :=
       match Task.due_date task with
       | Some d => format_HHmm e d
       | None => "No time"
       end;
     ScheduleItem.course :=
       match Task.course task with
       | Some c => if (c =? "")%string then None else Some c
       | None => None
       end;
     ScheduleItem.priority := Task.priority task;
     ScheduleItem.completed := Some (Task.completed task) |}.

Definition exam_item (e : Env) (exam : Exam.t) : ScheduleItem.t :=
  {| ScheduleItem.id := Exam.id exam;
     ScheduleItem.title := Exam.title exam;
     ScheduleItem.type := ScheduleItem.exam;
     ScheduleItem.time := format_HHmm e (Exam.exam_date exam);
     ScheduleItem.course := Some (Exam.course exam);
     ScheduleItem.priority := None;
     ScheduleItem.completed := None |}.

(** [rows?.filter(pred) || []] *)
Definition filter_rows {A} (rows : option (list A)) (pred : A -> Clock.M bool)
  : Clock.M (list A) :=
  match rows with
  | None => Clock.ret []
  | Some xs => Clock.filterM pred xs
  end.

(** The schedule part of [loadDashboardData] after the user check. The
    statistics cards are not embedded; the two clock readings made for
    them and for the exams query are kept. [localeCompare] on the
    [HH:mm] strings is taken as the comparison of their characters. *)
Definition schedule (e : Env) (u : string) : Clock.M (list ScheduleItem.t) :=
  let tasks := select_tasks e u in
  today <- Clock.read (clock e) ;;
  t_exams <- Clock.read (clock e) ;;
  let exams := select_exams e u t_exams in
  let scheduleItems := [] in
  todayTasks <- filter_rows tasks (due_today_or_overdue e) ;;
  scheduleItems <- Clock.forEach todayTasks (fun task items =>
                     Clock.ret (items ++ [task_item e task])) scheduleItems ;;
  todayExams <- filter_rows exams (today_or_tomorrow e) ;;
  scheduleItems <- Clock.forEach todayExams (fun exam items =>
                     Clock.ret (items ++ [exam_item e exam])) scheduleItems ;;
  Clock.ret (Js.sort (fun a b => String.leb (ScheduleItem.time a) (ScheduleItem.time b))
               scheduleItems).

(** [loadDashboardData] as far as the [schedule] state cell goes. *)
Definition loadDashboardData (e : Env) (current : list ScheduleItem.t)
  : list ScheduleItem.t :=
  match auth_user e with
  | None => current
  | Some u => fst (schedule e u 0%nat)
  end.

Definition ids (l : list ScheduleItem.t) : list string :=
  map ScheduleItem.id l.

End Dashboard.

(** ** Concrete tables, environments and states *)

Module Examples.

(** 2024-01-01T00:00:00Z and 2024-01-04T00:00:00Z. *)
Definition jan1 : Z := 1704067200000.
Definition jan4 : Z := 1704326400000.
Definition hour : Z := 3600000.

(** Pomodoro: a signed-in caller whose writes succeed. *)
Definition env_ok : Pomodoro.Env :=
  {| Pomodoro.auth_user := Some "u1"; Pomodoro.insert_result := inl "s1";
     Pomodoro.update_error := None; Pomodoro.select_ok := true;
     Pomodoro.now := jan1; Pomodoro.zone := LocalTime.fixed 0 |}.

(** Pomodoro: nobody is signed in. *)
Definition env_signed_out : Pomodoro.Env :=
  {| Pomodoro.auth_user := None; Pomodoro.insert_result := inl "s1";
     Pomodoro.update_error := None; Pomodoro.select_ok := true;
     Pomodoro.now := jan1; Pomodoro.zone := LocalTime.fixed 0 |}.

(** Pomodoro: the insert is rejected. *)
Definition env_insert_fails : Pomodoro.Env :=
  {| Pomodoro.auth_user := Some "u1"; Pomodoro.insert_result := inr "network error";
     Pomodoro.update_error := None; Pomodoro.select_ok := true;
     Pomodoro.now := jan1; Pomodoro.zone := LocalTime.fixed 0 |}.

Definition world0 : Pomodoro.World :=
  {| Pomodoro.pomodoro_sessions := []; Pomodoro.writes := [];
     Pomodoro.toasts := []; Pomodoro.completeSession_calls := 0 |}.

(** Pomodoro: session [s1] open, one second left, interval live. *)
Definition last_second : Pomodoro.Ctl :=
  {| Pomodoro.c_duration := 25 * 60; Pomodoro.timeLeft := 1;
     Pomodoro.isRunning := true; Pomodoro.sessionId := Some "s1";
     Pomodoro.sessions := []; Pomodoro.interval_live := true |}.

Definition world1 : Pomodoro.World :=
  {| Pomodoro.pomodoro_sessions :=
       [ {| Pomodoro.id := "s1"; Pomodoro.user_id := "u1"; Pomodoro.duration := 25;
            Pomodoro.completed := false; Pomodoro.task_id := None;
            Pomodoro.started_at := jan1; Pomodoro.completed_at := None |} ];
     Pomodoro.writes := [Pomodoro.Insert "u1" 25 false];
     Pomodoro.toasts := []; Pomodoro.completeSession_calls := 0 |}.

Definition exam (id : string) (date : Z) : Exam.t :=
  {| Exam.id := id; Exam.user_id := "u1"; Exam.course := "Algebra";
     Exam.title := "Final"; Exam.exam_date := date;
     Exam.location := None; Exam.notes := None |}.

Definition task (id : string) (due : Z) : Task.t :=
  {| Task.id := id; Task.user_id := "u1"; Task.title := "Problem set";
     Task.description := None; Task.course := None; Task.due_date := Some due;
     Task.priority := Some "medium"; Task.completed := false; Task.position := 0 |}.

(** Header: one exam on January 4, one task overdue since yesterday, one
    task due tomorrow; the pass runs at January 1, midnight UTC. *)
Definition feed : Header.Env :=
  {| Header.auth_user := Some "u1";
     Header.exams := [exam "e1" jan4];
     Header.tasks := [task "t1" (jan1 - 24 * hour); task "t2" (jan1 + 24 * hour)];
     Header.exams_fail := false; Header.overdue_fail := false;
     Header.upcoming_fail := false;
     Header.clock := fun _ => jan1;
     Header.zone := LocalTime.fixed 0;
     Header.toLocaleDateString := fun _ => "" |}.

(** Header: the same, but the overdue query fails. *)
Definition feed_overdue_down : Header.Env :=
  {| Header.auth_user := Some "u1";
     Header.exams := [exam "e1" jan4];
     Header.tasks := [task "t1" (jan1 - 24 * hour); task "t2" (jan1 + 24 * hour)];
     Header.exams_fail := false; Header.overdue_fail := true;
     Header.upcoming_fail := false;
     Header.clock := fun _ => jan1;
     Header.zone := LocalTime.fixed 0;
     Header.toLocaleDateString := fun _ => "" |}.

(** Header: six exams ahead, one a day from January 2 on. *)
Definition six_exams : Header.Env :=
  {| Header.auth_user := Some "u1";
     Header.exams :=
       [exam "e1" (jan1 + 24 * hour); exam "e2" (jan1 + 48 * hour);
        exam "e3" (jan1 + 72 * hour); exam "e4" (jan1 + 96 * hour);
        exam "e5" (jan1 + 120 * hour); exam "e6" (jan1 + 144 * hour)];
     Header.tasks := [];
     Header.exams_fail := false; Header.overdue_fail := false;
     Header.upcoming_fail := false;
     Header.clock := fun _ => jan1;
     Header.zone := LocalTime.fixed 0;
     Header.toLocaleDateString := fun _ => "" |}.

(** Dashboard: a task due today at 10:00 and an exam today at 09:00 whose
    ids, drawn in two different tables, are the same. *)
Definition same_id_day : Dashboard.Env :=
  {| Dashboard.auth_user := Some "u1";
     Dashboard.tasks := [task "7" (jan1 + 10 * hour)];
     Dashboard.exams := [exam "7" (jan1 + 9 * hour)];
     Dashboard.tasks_fail := false; Dashboard.exams_fail := false;
     Dashboard.clock := fun _ => jan1;
     Dashboard.zone := LocalTime.fixed 0 |}.

End Examples.

(** ** The pomodoro page: what it shows, and what its states have in common *)

Module PomodoroView.

(** [formatTime]: minutes and seconds, each padded to two characters. *)
Definition formatTime (seconds : Z) : string :=
  let mins := Js.floor_div seconds 60 in
  let secs := Z.rem seconds 60 in
  (Js.pad2 mins ++ ":" ++ Js.pad2 secs)%string.

(** The "Total Focus Time" card:
    [sessions.filter(s => s.completed).reduce((sum, s) => sum + s.duration, 0)]. *)
Definition totalFocus (sessions : list Pomodoro.SessionRow) : Z :=
  fold_left (fun sum s => sum + Pomodoro.duration s)
    (filter Pomodoro.completed sessions) 0.

(** What the [useState] cells other than the interval satisfy together. *)
Definition core (c : Pomodoro.Ctl) : Prop :=
  Pomodoro.c_duration c = 25 * 60
  /\ 0 <= Pomodoro.timeLeft c <= Pomodoro.c_duration c
  /\ (Pomodoro.sessionId c = None ->
      Pomodoro.isRunning c = false /\ Pomodoro.timeLeft c = Pomodoro.c_duration c).

(** A later table keeps every row of an earlier one at its place, with its
    id, owner, length and start, and still completed if it was. *)
Definition kept (rows rows' : list Pomodoro.SessionRow) : Prop :=
  forall i r, nth_error rows i = Some r ->
    exists r', nth_error rows' i = Some r'
      /\ Pomodoro.id r' = Pomodoro.id r
      /\ Pomodoro.user_id r' = Pomodoro.user_id r
      /\ Pomodoro.duration r' = Pomodoro.duration r
      /\ Pomodoro.started_at r' = Pomodoro.started_at r
      /\ (Pomodoro.completed r = true -> Pomodoro.completed r' = true).

(** [n] firings of the interval, all answered by [e]. *)
Definition ticks (e : Pomodoro.Env) (n : nat) : list (Pomodoro.Env * Pomodoro.Event) :=
  repeat (e, Pomodoro.Tick) n.

End PomodoroView.

(** ** The dashboard: the four statistics cards *)

Module DashboardStats.

Record Env := mkEnv {
  auth_user : option string;           (* supabase.auth.getUser() *)
  tasks : list Task.t;                 (* table public.tasks *)
  updated_at : Task.t -> Z;            (* its column updated_at, ms *)
  exams : list Exam.t;                 (* table public.exams *)
  sessions : list Pomodoro.SessionRow; (* table public.pomodoro_sessions *)
  tasks_fail : bool;                   (* each query may return no data *)
  completed_fail : bool;
  exams_fail : bool;
  sessions_fail : bool;
  clock : nat -> Z;                    (* k-th reading of the clock, ms *)
  zone : LocalTime.Zone                (* the time zone of the runtime *)
}.

Record Stats := mkStats {
  totalTasks : Z;
  completedToday : Z;
  nextExam : option Exam.t;
  focusMinutes : Z
}.

Definition initial : Stats :=
  {| totalTasks := 0; completedToday := 0; nextExam := None; focusMinutes := 0 |}.

(** [today.setHours(0, 0, 0, 0)] on the first reading of the clock. *)
Definition start_of_today (e : Env) : Z :=
  LocalTime.start_of_day (zone e) (clock e 0%nat).

(** [.eq("user_id", u).eq("completed", false)] *)
Definition select_tasks (e : Env) (u : string) : option (list Task.t) :=
  Supabase.answer (tasks_fail e)
    (filter (fun x => (Task.user_id x =? u)%string && negb (Task.completed x))
       (tasks e)).

(** [.eq("user_id", u).eq("completed", true).gte("updated_at", today)] *)
Definition select_completed (e : Env) (u : string) (today : Z)
  : option (list Task.t) :=
  Supabase.answer (completed_fail e)
    (filter (fun x => (Task.user_id x =? u)%string && Task.completed x
                      && (today <=? updated_at e x))
       (tasks e)).

(** [.eq("user_id", u).gte("exam_date", now).order("exam_date").limit(1)] *)
Definition select_exams (e : Env) (u : string) (now : Z) : option (list Exam.t) :=
  Supabase.answer (exams_fail e)
    (firstn 1
       (Js.sort (fun a b => Exam.exam_date a <=? Exam.exam_date b)
          (filter (fun x => (Exam.user_id x =? u)%string
                            && (now <=? Exam.exam_date x))
             (exams e)))).

(** [.select("duration").eq("user_id", u).eq("completed", true)
     .gte("started_at", today)] *)
Definition select_sessions (e : Env) (u : string) (today : Z) : option (list Z) :=
  Supabase.answer (sessions_fail e)
    (map Pomodoro.duration
       (filter (fun r => (Pomodoro.user_id r =? u)%string && Pomodoro.completed r
                         && (today <=? Pomodoro.started_at r))
          (sessions e))).

(** [rows?.length || 0] *)
Definition length_or_zero {A} (rows : option (list A)) : Z :=
  match rows with
  | Some l => Z.of_nat (List.length l)
  | None => 0
  end.

(** [sessions?.reduce((sum, s) => sum + s.duration, 0) || 0] *)
Definition totalMinutes (sessions : option (list Z)) : Z :=
  match sessions with
  | Some l => fold_left (fun sum duration => sum + duration) l 0
  | None => 0
  end.

(** [exams?.[0] || null] *)
Definition first_or_null {A} (rows : option (list A)) : option A :=
  match rows with
  | Some l => hd_error l
  | None => None
  end.

(** The statistics part of [loadDashboardData]. *)
Definition loadStats (e : Env) (current : Stats) : Stats :=
  match auth_user e with
  | None => current
  | Some u =>
      let tasks := select_tasks e u in
      let today := start_of_today e in
      let completedTasks := select_completed e u today in
      let exams := select_exams e u (clock e 1%nat) in
      let sessions := select_sessions e u today in
      {| totalTasks := length_or_zero tasks;
         completedToday := length_or_zero completedTasks;
         nextExam := first_or_null exams;
         focusMinutes := totalMinutes sessions |}
  end.

(** The "sessions completed" line: [Math.floor(stats.focusMinutes / 25)]. *)
Definition sessionsCompleted (st : Stats) : Z :=
  Js.floor_div (focusMinutes st) 25.

End DashboardStats.

(** ** The header: light and dark theme *)

Module Theme.

(** The [theme] cell, the entry ["theme"] of [localStorage], and whether the
    document element carries the class [dark]. *)
Record State := mkState {
  theme : string;
  stored : option string;
  dark_class : bool
}.

(** The part of the mount effect that restores the theme:
    [localStorage.getItem("theme") || "light"]. *)
Definition mount (s : State) : State :=
  let savedTheme := Js.or_default (stored s) "light" in
  {| theme := savedTheme; stored := stored s;
     dark_class := (savedTheme =? "dark")%string |}.

Definition toggleTheme (s : State) : State :=
  let newTheme := if (theme s =? "light")%string then "dark" else "light" in
  {| theme := newTheme; stored := Some newTheme;
     dark_class := (newTheme =? "dark")%string |}.

End Theme.

(** ** Reading the dashboard schedule *)

Module ScheduleView.

(** The minute of the local day an instant falls in, 0 to 1439. *)
Definition minute_of_day (e : Dashboard.Env) (d : Z) : Z :=
  ((LocalTime.local (Dashboard.zone e) d) mod Js.ms_per_day) / 60000.

(** [HH:mm] of a minute of the day. *)
Definition clock_text (minute : Z) : string :=
  (Js.pad2 (minute / 60) ++ ":" ++ Js.pad2 (minute mod 60))%string.

Definition is_exam (item : ScheduleItem.t) : bool :=
  match ScheduleItem.type item with
  | ScheduleItem.exam => true
  | ScheduleItem.task => false
  end.

(** The order the comparator of the schedule sort asks for. *)
Definition time_le (a b : ScheduleItem.t) : Prop :=
  String.leb (ScheduleItem.time a) (ScheduleItem.time b) = true.

End ScheduleView.

(** ** The notes page: the tags field of the form

    The field is a JavaScript string, here the list of its UTF-16 code
    units, so that [trim] sees the white space the language defines. *)

Module NoteForm.

Definition text : Type := list N.

Definition comma : N := 44.

(** WhiteSpace and LineTerminator of ECMAScript, as code units. *)
Definition is_white_space (u : N) : bool :=
  ((9 <=? u) && (u <=? 13) || (u =? 32) || (u =? 160) || (u =? 5760)
   || (8192 <=? u) && (u <=? 8202) || (u =? 8232) || (u =? 8233)
   || (u =? 8239) || (u =? 8287) || (u =? 12288) || (u =? 65279))%N.

(** [s.split(sep)] for a separator of one code unit. *)
Fixpoint split (sep : N) (s : text) : list text :=
  match s with
  | [] => [[]]
  | u :: s' =>
      if (u =? sep)%N then [] :: split sep s'
      else match split sep s' with
           | piece :: rest => (u :: piece) :: rest
           | [] => [[u]]
           end
  end.

Fixpoint trimStart (s : text) : text :=
  match s with
  | [] => []
  | u :: s' => if is_white_space u then trimStart s' else s
  end.

Definition trimEnd (s : text) : text := rev (trimStart (rev s)).

Definition trim (s : text) : text := trimEnd (trimStart s).

(** [formData.tags.split(",").map(tag => tag.trim()).filter(tag => tag.length > 0)]
    and then [tags.length > 0 ? tags : null]. *)
Definition parseTags (input : text) : option (list text) :=
  let tags :=
    filter (fun tag => (0 <? List.length tag)%nat) (map trim (split comma input)) in
  if (0 <? List.length tags)%nat then Some tags else None.

End NoteForm.

(** ** More concrete inputs *)

Module MoreExamples.

(** Pomodoro: the update is rejected. *)
Definition env_update_fails : Pomodoro.Env :=
  {| Pomodoro.auth_user := Some "u1"; Pomodoro.insert_result := inl "s1";
     Pomodoro.update_error := Some "offline"; Pomodoro.select_ok := true;
     Pomodoro.now := Examples.jan1; Pomodoro.zone := LocalTime.fixed 0 |}.

(** Pomodoro: session [s1] open, fifteen minutes left, interval live. *)
Definition running_mid : Pomodoro.Ctl :=
  {| Pomodoro.c_duration := 25 * 60; Pomodoro.timeLeft := 900;
     Pomodoro.isRunning := true; Pomodoro.sessionId := Some "s1";
     Pomodoro.sessions := []; Pomodoro.interval_live := true |}.

Definition start_then_reset : list (Pomodoro.Env * Pomodoro.Event) :=
  [(Examples.env_ok, Pomodoro.Toggle); (Examples.env_ok, Pomodoro.Reset)].

Definition start_only : list (Pomodoro.Env * Pomodoro.Event) :=
  [(Examples.env_ok, Pomodoro.Toggle)].

(** Dashboard cards over the table left by one start, on January 1. *)
Definition cards : DashboardStats.Env :=
  {| DashboardStats.auth_user := Some "u1";
     DashboardStats.tasks := [Examples.task "t1" (Examples.jan1 + Examples.hour)];
     DashboardStats.updated_at := fun _ => Examples.jan1;
     DashboardStats.exams :=
       [Examples.exam "e1" Examples.jan4;
        Examples.exam "e2" (Examples.jan1 + 24 * Examples.hour)];
     DashboardStats.sessions :=
       Pomodoro.pomodoro_sessions
         (snd (Pomodoro.run start_only (Pomodoro.initial, Examples.world0)));
     DashboardStats.tasks_fail := false; DashboardStats.completed_fail := false;
     DashboardStats.exams_fail := false; DashboardStats.sessions_fail := false;
     DashboardStats.clock := fun _ => Examples.jan1;
     DashboardStats.zone := LocalTime.fixed 0 |}.

(** Pomodoro: the table once session [s1] is completed. *)
Definition world_done : Pomodoro.World :=
  {| Pomodoro.pomodoro_sessions :=
       [ {| Pomodoro.id := "s1"; Pomodoro.user_id := "u1"; Pomodoro.duration := 25;
            Pomodoro.completed := true; Pomodoro.task_id := None;
            Pomodoro.started_at := Examples.jan1;
            Pomodoro.completed_at := Some (Examples.jan1 + Examples.hour) |} ];
     Pomodoro.writes := [Pomodoro.Insert "u1" 25 false;
                         Pomodoro.Update "s1" true (Examples.jan1 + Examples.hour)];
     Pomodoro.toasts := []; Pomodoro.completeSession_calls := 1 |}.

(** Dashboard cards over the table of [world_done]. *)
Definition cards1 : DashboardStats.Env :=
  {| DashboardStats.auth_user := Some "u1";
     DashboardStats.tasks := [];
     DashboardStats.updated_at := fun _ => Examples.jan1;
     DashboardStats.exams := [];
     DashboardStats.sessions := Pomodoro.pomodoro_sessions world_done;
     DashboardStats.tasks_fail := false; DashboardStats.completed_fail := false;
     DashboardStats.exams_fail := false; DashboardStats.sessions_fail := false;
     DashboardStats.clock := fun _ => Examples.jan1;
     DashboardStats.zone := LocalTime.fixed 0 |}.

(** A task already completed, due an hour before January 1. *)
Definition done_task : Task.t :=
  {| Task.id := "t3"; Task.user_id := "u1"; Task.title := "Essay";
     Task.description := None; Task.course := None;
     Task.due_date := Some (Examples.jan1 - Examples.hour);
     Task.priority := Some "high"; Task.completed := true; Task.position := 1 |}.

(** Header: the feed of [Examples.feed] with the completed task added. *)
Definition feed_with_done : Header.Env :=
  {| Header.auth_user := Some "u1";
     Header.exams := [Examples.exam "e1" Examples.jan4];
     Header.tasks :=
       [Examples.task "t1" (Examples.jan1 - 24 * Examples.hour);
        Examples.task "t2" (Examples.jan1 + 24 * Examples.hour); done_task];
     Header.exams_fail := false; Header.overdue_fail := false;
     Header.upcoming_fail := false;
     Header.clock := fun _ => Examples.jan1;
     Header.zone := LocalTime.fixed 0;
     Header.toLocaleDateString := fun _ => "" |}.

End MoreExamples.

(** ** A week with a daylight-saving change *)

Module ZoneExamples.

(** 2024-11-03T06:00:00Z, when clocks in New York go back from 02:00 (UTC-4)
    to 01:00 (UTC-5). *)
Definition fall_back : Z := 1730613600000.

Definition new_york : LocalTime.Zone :=
  LocalTime.changing fall_back (-4 * Examples.hour) (-5 * Examples.hour).

(** Three days before the change, 02:00 local time. *)
Definition oct31 : Z := fall_back - 72 * Examples.hour.

(** Header, New York, October 31: an exam and an overdue task whose ids are
    the same, a task due seven days and thirty minutes from now (seven
    local calendar days are an hour longer this week), and a task due seven
    days and two hours from now. *)
Definition feed_autumn : Header.Env :=
  {| Header.auth_user := Some "u1";
     Header.exams := [Examples.exam "7" (oct31 + 48 * Examples.hour)];
     Header.tasks :=
       [Examples.task "7" (oct31 - 24 * Examples.hour);
        Examples.task "8" (oct31 + 168 * Examples.hour + 1800000);
        Examples.task "9" (oct31 + 170 * Examples.hour)];
     Header.exams_fail := false; Header.overdue_fail := false;
     Header.upcoming_fail := false;
     Header.clock := fun _ => oct31;
     Header.zone := new_york;
     Header.toLocaleDateString := fun _ => "" |}.

(** The same, with the overdue query failing. *)
Definition feed_autumn_overdue_down : Header.Env :=
  {| Header.auth_user := Some "u1";
     Header.exams := [Examples.exam "7" (oct31 + 48 * Examples.hour)];
     Header.tasks :=
       [Examples.task "7" (oct31 - 24 * Examples.hour);
        Examples.task "8" (oct31 + 168 * Examples.hour + 1800000);
        Examples.task "9" (oct31 + 170 * Examples.hour)];
     Header.exams_fail := false; Header.overdue_fail := true;
     Header.upcoming_fail := false;
     Header.clock := fun _ => oct31;
     Header.zone := new_york;
     Header.toLocaleDateString := fun _ => "" |}.

(** Dashboard, New York, November 3 at 11:00 local time (after the change):
    a task overdue since the day before at 10:00 local time (before the
    change), a task due today at 09:30, and an exam tomorrow at 10:15. *)
Definition day_of_change : Dashboard.Env :=
  {| Dashboard.auth_user := Some "u1";
     Dashboard.tasks :=
       [Examples.task "t1" (fall_back - 16 * Examples.hour);
        Examples.task "t2" (fall_back + 8 * Examples.hour + 1800000)];
     Dashboard.exams := [Examples.exam "e1" (fall_back + 33 * Examples.hour + 900000)];
     Dashboard.tasks_fail := false; Dashboard.exams_fail := false;
     Dashboard.clock := fun _ => fall_back + 10 * Examples.hour;
     Dashboard.zone := new_york |}.

End ZoneExamples.

(** * Properties of the pomodoro controller *)

Section PomodoroFacts.
Import Pomodoro.

Lemma truthy_Some (s : string) : s <> "" -> Js.truthy (Some s) = true.
Proof.
  intros H. unfold Js.truthy.
  destruct (String.eqb_spec s ""); [contradiction | reflexivity].
Qed.

Lemma deps_changed_refl (c : Ctl) : deps_changed c c = false.
Proof.
  unfold deps_changed. rewrite Bool.eqb_reflx, Z.eqb_refl. reflexivity.
Qed.

(** [completeSession] either leaves the controller as it was or leaves it
    stopped. *)
Lemma completeSession_ctl (e : Env) (c : Ctl) (w : World) :
  fst (completeSession e c w) = c \/ isRunning (fst (completeSession e c w)) = false.
Proof.
  unfold completeSession.
  destruct (negb (Js.truthy (sessionId c))); [left; reflexivity |].
  destruct (update_error e); [left; reflexivity |].
  right. cbn. unfold loadSessions.
  destruct (auth_user e); [destruct (select_ok e) |]; reflexivity.
Qed.

(** [completeSession] counts itself exactly once. *)
Lemma completeSession_counts (e : Env) (c : Ctl) (w : World) :
  completeSession_calls (snd (completeSession e c w)) = S (completeSession_calls w).
Proof.
  unfold completeSession.
  destruct (negb (Js.truthy (sessionId c))); [reflexivity |].
  destruct (update_error e); reflexivity.
Qed.

(** After a [completeSession] the effect has nothing left to start: one
    more render is the last. *)
Lemma tickEffect_after_complete (n : nat) (e : Env) (c1 c2 : Ctl) (w : World) :
  c2 = c1 \/ isRunning c2 = false ->
  tickEffect n e c1 c2 w = (match n with
                            | O => c2
                            | S _ => if deps_changed c1 c2 then clearInterval c2 else c2
                            end, w).
Proof.
  intros H. destruct n as [|n]; [reflexivity |]. cbn [tickEffect].
  destruct H as [-> | Hstop].
  - rewrite deps_changed_refl. reflexivity.
  - destruct (deps_changed c1 c2); [| reflexivity].
    cbn. rewrite Hstop. cbn. rewrite andb_false_r. reflexivity.
Qed.

Lemma tickEffect_S (n : nat) (e : Env) (prev cur : Ctl) (w : World) :
  tickEffect (S n) e prev cur w =
  if deps_changed prev cur then
    let c1 := clearInterval cur in
    if isRunning c1 && (0 <? timeLeft c1) then (setInterval c1, w)
    else if (timeLeft c1 =? 0) && isRunning c1 then
      tickEffect n e c1 (fst (completeSession e c1 w)) (snd (completeSession e c1 w))
    else (c1, w)
  else (cur, w).
Proof.
  cbn [tickEffect]. destruct (completeSession e (clearInterval cur) w). reflexivity.
Qed.

(** Two renders are enough: more fuel does not change the outcome. *)
Lemma tickEffect_settles (n : nat) (e : Env) (prev cur : Ctl) (w : World) :
  (2 <= n)%nat -> tickEffect n e prev cur w = tickEffect renders e prev cur w.
Proof.
  intros Hn. destruct n as [|[|n]]; try lia. unfold renders.
  rewrite !(tickEffect_S (S _)). cbv zeta.
  destruct (deps_changed prev cur); [| reflexivity].
  destruct (isRunning (clearInterval cur) && (0 <? timeLeft (clearInterval cur)));
    [reflexivity |].
  destruct ((timeLeft (clearInterval cur) =? 0) && isRunning (clearInterval cur));
    [| reflexivity].
  pose proof (completeSession_ctl e (clearInterval cur) w) as Hc.
  rewrite (tickEffect_after_complete (S n)), (tickEffect_after_complete 1) by exact Hc.
  reflexivity.
Qed.

(** A reset needs no second render and touches nothing outside. *)
Lemma step_Reset (e : Env) (c : Ctl) (w : World) :
  step e Reset (c, w) = (resetTimer c, w).
Proof.
  unfold step, handle, renders. rewrite tickEffect_S. cbv zeta.
  destruct (deps_changed c (resetTimer c)); [| reflexivity].
  cbn. rewrite andb_false_r. reflexivity.
Qed.

(** While a session id is held, [toggleTimer] only flips the running
    flag. *)
Lemma toggleTimer_open (e : Env) (c : Ctl) (w : World) :
  Js.truthy (sessionId c) = true ->
  toggleTimer e c w = (setIsRunning (negb (isRunning c)) c, w).
Proof.
  intros H. unfold toggleTimer. rewrite H, andb_false_r. reflexivity.
Qed.

Lemma completeSession_interval (e : Env) (c : Ctl) (w : World) :
  interval_live c = false -> interval_live (fst (completeSession e c w)) = false.
Proof.
  intros H. unfold completeSession.
  destruct (negb (Js.truthy (sessionId c))); [exact H |].
  destruct (update_error e); [exact H |].
  cbn. unfold loadSessions.
  destruct (auth_user e); [destruct (select_ok e) |]; reflexivity.
Qed.

Lemma tickEffect_interval_ok (n : nat) (e : Env) (prev cur : Ctl) (w : World) :
  (deps_changed prev cur = false -> interval_ok cur) ->
  interval_ok (fst (tickEffect (S n) e prev cur w)).
Proof.
  intros H. rewrite tickEffect_S. cbv zeta.
  destruct (deps_changed prev cur) eqn:Hd; [| exact (H eq_refl)].
  destruct (isRunning (clearInterval cur) && (0 <? timeLeft (clearInterval cur))) eqn:Hrun.
  - apply andb_prop in Hrun. destruct Hrun as [Hr Ht]. cbn in *.
    apply Z.ltb_lt in Ht. intros _. split; [exact Hr | exact Ht].
  - destruct ((timeLeft (clearInterval cur) =? 0) && isRunning (clearInterval cur)).
    + pose proof (completeSession_ctl e (clearInterval cur) w) as Hc.
      pose proof (completeSession_interval e (clearInterval cur) w eq_refl) as Hi.
      rewrite tickEffect_after_complete by exact Hc. cbn [fst].
      intros Hl. exfalso.
      destruct n; [| destruct (deps_changed (clearInterval cur) _)];
        cbn in Hl; congruence.
    + intros Hl. discriminate Hl.
Qed.

Lemma toggleTimer_interval_ok (e : Env) (c : Ctl) (w : World) :
  interval_ok c ->
  deps_changed c (fst (toggleTimer e c w)) = false ->
  interval_ok (fst (toggleTimer e c w)).
Proof.
  intros Hok. unfold toggleTimer.
  destruct (negb (isRunning c) && negb (Js.truthy (sessionId c))).
  - destruct (auth_user e); [| intros _; exact Hok].
    destruct (insert_result e); [| intros _; exact Hok].
    unfold deps_changed. cbn. destruct (isRunning c); discriminate.
  - unfold deps_changed. cbn. destruct (isRunning c); discriminate.
Qed.

Lemma handle_interval_ok (e : Env) (ev : Event) (c : Ctl) (w : World) :
  interval_ok c ->
  deps_changed c (fst (handle e ev c w)) = false ->
  interval_ok (fst (handle e ev c w)).
Proof.
  intros Hok. destruct ev as [| | |code]; cbn [handle].
  - apply toggleTimer_interval_ok, Hok.
  - intros _ Hl. discriminate Hl.
  - unfold tick. destruct (interval_live c); [| intros _; exact Hok].
    unfold deps_changed. cbn. intros Hd. apply orb_false_elim in Hd.
    destruct Hd as [_ Hd]. apply negb_false_iff, Z.eqb_eq in Hd. lia.
  - destruct (code =? "Space")%string; [apply toggleTimer_interval_ok, Hok |].
    destruct (code =? "KeyR")%string; [intros _ Hl; discriminate Hl |].
    intros _. exact Hok.
Qed.

Lemma step_interval_ok (e : Env) (ev : Event) (s : Ctl * World) :
  interval_ok (fst s) -> interval_ok (fst (step e ev s)).
Proof.
  destruct s as [c w]. cbn [fst]. intros Hok. unfold step.
  pose proof (handle_interval_ok e ev c w Hok) as Hh.
  destruct (handle e ev c w) as [c1 w1]. cbn [fst] in Hh.
  apply tickEffect_interval_ok. exact Hh.
Qed.

(** In every state reached from the initial one the interval is live only
    while the countdown runs above zero. *)
Lemma run_interval_ok (evs : list (Env * Event)) (s : Ctl * World) :
  interval_ok (fst s) -> interval_ok (fst (run evs s)).
Proof.
  revert s. induction evs as [|[e ev] evs IH]; intros s Hok; cbn [run].
  - exact Hok.
  - apply IH, step_interval_ok, Hok.
Qed.

(** C1 (as amended): [toggleTimer] in [Idle]. With nobody signed in it
    returns at the user check: no write, no row, same controller state,
    for the handler and for the whole event. With a signed-in caller and a
    creating write that succeeds it appends exactly one row (not
    completed, lasting the configured whole minutes, owned by the caller),
    issues exactly one insert, keeps the returned id and sets the running
    flag; with time left the event ends with the countdown ticking. In any
    later state that still holds this id, [toggleTimer] only flips the
    running flag: the world, and so the table, is untouched and the id is
    kept. *)
Theorem start_creates_one_session_row (e : Env) (c : Ctl) (w : World) :
  Idle c ->
  (auth_user e = None ->
     toggleTimer e c w = (c, w) /\ step e Toggle (c, w) = (c, w))
  /\ (forall u new_id : string,
        auth_user e = Some u ->
        insert_result e = inl new_id ->
        new_id <> "" ->
        let c1 := fst (toggleTimer e c w) in
        let w1 := snd (toggleTimer e c w) in
        (exists row,
            pomodoro_sessions w1 = pomodoro_sessions w ++ [row]
            /\ id row = new_id /\ user_id row = u
            /\ completed row = false /\ completed_at row = None
            /\ duration row = Js.floor_div (c_duration c) 60)
        /\ writes w1 = writes w ++ [Insert u (Js.floor_div (c_duration c) 60) false]
        /\ isRunning c1 = true
        /\ sessionId c1 = Some new_id
        /\ (0 < timeLeft c ->
            step e Toggle (c, w) = (setInterval (clearInterval c1), w1))
        /\ (forall (e' : Env) (c' : Ctl) (w' : World),
              sessionId c' = Some new_id ->
              toggleTimer e' c' w' = (setIsRunning (negb (isRunning c')) c', w')
              /\ sessionId (fst (toggleTimer e' c' w')) = Some new_id
              /\ List.length (pomodoro_sessions (snd (step e' Toggle (c', w'))))
                 = List.length (pomodoro_sessions w'))).
Proof.
  intros [Hrun Hsid]. split.
  - intros Hnone.
    assert (Htog : toggleTimer e c w = (c, w))
      by (unfold toggleTimer; rewrite Hrun, Hsid, Hnone; reflexivity).
    split; [exact Htog |].
    unfold step, handle, renders. rewrite Htog, tickEffect_S, deps_changed_refl.
    reflexivity.
  - intros u new_id Hauth Hins Hne c1 w1.
    assert (Htog : toggleTimer e c w =
                   (setIsRunning true (setSessionId (Some new_id) c),
                    set_rows (pomodoro_sessions w
                                ++ [new_row e new_id u (Js.floor_div (c_duration c) 60)])
                      (log_write (Insert u (Js.floor_div (c_duration c) 60) false) w))).
    { unfold toggleTimer. rewrite Hrun, Hsid, Hauth, Hins. reflexivity. }
    subst c1 w1. rewrite Htog. cbn [fst snd].
    split; [eexists; repeat split; reflexivity |].
    split; [reflexivity |]. split; [reflexivity |]. split; [reflexivity |].
    split.
    + intros Hpos. unfold step, handle, renders. rewrite Htog, tickEffect_S. cbv zeta.
      unfold deps_changed. cbn. rewrite Hrun. cbn.
      apply Z.ltb_lt in Hpos. rewrite Hpos. reflexivity.
    + intros e' c' w' Hc'.
      assert (Hopen : Js.truthy (sessionId c') = true)
        by (rewrite Hc'; apply truthy_Some, Hne).
      rewrite (toggleTimer_open e' c' w' Hopen). cbn [fst snd].
      split; [reflexivity |]. split; [exact Hc' |].
      unfold step, handle, renders. rewrite (toggleTimer_open e' c' w' Hopen).
      rewrite tickEffect_S. cbv zeta.
      destruct (deps_changed _ _); [| reflexivity].
      destruct (_ && _); [reflexivity |].
      destruct (_ && _); [| reflexivity].
      rewrite tickEffect_after_complete by apply completeSession_ctl.
      cbn [snd]. unfold completeSession.
      destruct (negb _); [reflexivity |].
      destruct (update_error e'); [reflexivity |].
      cbn. apply length_map.
Qed.

(** C2: a tick with one second left and the interval live brings the
    remaining time to zero, and the event enters [completeSession] exactly
    once, however many renders are followed; the interval is gone
    afterwards. *)
Theorem tick_at_one_completes_once (e : Env) (c : Ctl) (w : World) :
  timeLeft c = 1 ->
  isRunning c = true ->
  interval_live c = true ->
  timeLeft (tick c) = 0
  /\ (forall n, (2 <= n)%nat ->
        completeSession_calls (snd (tickEffect n e c (tick c) w))
        = S (completeSession_calls w))
  /\ completeSession_calls (snd (step e Tick (c, w))) = S (completeSession_calls w)
  /\ interval_live (fst (step e Tick (c, w))) = false.
Proof.
  intros Ht Hrun Hlive.
  assert (Htick : tick c = setTimeLeft 0 c)
    by (unfold tick; rewrite Hlive, Ht; reflexivity).
  assert (Hstep : tickEffect renders e c (tick c) w =
                  tickEffect 1 e (clearInterval (tick c))
                    (fst (completeSession e (clearInterval (tick c)) w))
                    (snd (completeSession e (clearInterval (tick c)) w))).
  { unfold renders. rewrite tickEffect_S, Htick. cbv zeta.
    unfold deps_changed. cbn. rewrite Ht, Hrun. reflexivity. }
  split; [rewrite Htick; reflexivity |].
  split; [| split].
  - intros n Hn. rewrite tickEffect_settles by exact Hn. rewrite Hstep.
    rewrite tickEffect_after_complete by apply completeSession_ctl.
    apply completeSession_counts.
  - unfold step, handle. rewrite Hstep.
    rewrite tickEffect_after_complete by apply completeSession_ctl.
    apply completeSession_counts.
  - unfold step, handle. rewrite Hstep.
    rewrite tickEffect_after_complete by apply completeSession_ctl.
    cbn [fst].
    pose proof (completeSession_interval e (clearInterval (tick c)) w eq_refl) as Hi.
    destruct (deps_changed _ _); [reflexivity | exact Hi].
Qed.

(** C4: from any state, the reset (button or key R) stops the countdown,
    removes the interval, puts the full configured duration back, forgets
    the session id, and leaves the world as it was: no write is sent and no
    row changes, so an open row stays not completed. *)
Theorem reset_restores_without_write (e : Env) (c : Ctl) (w : World) :
  let s' := step e Reset (c, w) in
  isRunning (fst s') = false
  /\ interval_live (fst s') = false
  /\ timeLeft (fst s') = c_duration c
  /\ c_duration (fst s') = c_duration c
  /\ sessionId (fst s') = None
  /\ snd s' = w
  /\ writes (snd s') = writes w
  /\ pomodoro_sessions (snd s') = pomodoro_sessions w
  /\ step e (KeyDown "KeyR") (c, w) = s'.
Proof.
  cbv zeta. rewrite step_Reset. cbn [fst snd].
  repeat split; try reflexivity.
  unfold step. cbn [handle String.eqb Ascii.eqb Bool.eqb].
  exact (step_Reset e c w).
Qed.

(** C5: when the insert sent by a start fails, the error is shown as a
    destructive notice and nothing else happens: the controller state is
    the one before (still idle, no session id, same time left, no
    interval), and the table is unchanged. *)
Theorem failed_start_keeps_idle
  (e : Env) (c : Ctl) (w : World) (u message : string) :
  Idle c ->
  auth_user e = Some u ->
  insert_result e = inr message ->
  let s' := step e Toggle (c, w) in
  fst s' = c
  /\ Idle (fst s')
  /\ timeLeft (fst s') = timeLeft c
  /\ interval_live (fst s') = interval_live c
  /\ (interval_ok c -> tick (fst s') = fst s')
  /\ pomodoro_sessions (snd s') = pomodoro_sessions w
  /\ toasts (snd s') = toasts w ++ [mkToast true "Error starting session" message]
  /\ completeSession_calls (snd s') = completeSession_calls w.
Proof.
  intros Hidle Hauth Hins. cbv zeta.
  assert (Hstep : step e Toggle (c, w) =
                  (c, toast (mkToast true "Error starting session" message)
                        (log_write (Insert u (Js.floor_div (c_duration c) 60) false) w))).
  { unfold step, handle, toggleTimer, renders.
    destruct Hidle as [Hrun Hsid]. rewrite Hrun, Hsid, Hauth, Hins. cbn [negb andb].
    rewrite tickEffect_S, deps_changed_refl. reflexivity. }
  rewrite Hstep. cbn [fst snd].
  repeat split; try reflexivity; try apply Hidle.
  intros Hok. unfold tick. destruct (interval_live c) eqn:Hl; [| reflexivity].
  destruct (Hok Hl) as [Hr _]. destruct Hidle as [Hrun _]. congruence.
Qed.

(** C9: without an open session id, [completeSession] returns at once:
    same controller state, no write sent, no row changed, no notice
    shown. This is the state left by [resetTimer]. *)
Theorem completeSession_without_session_is_noop (e : Env) (c : Ctl) (w : World) :
  Js.truthy (sessionId c) = false ->
  fst (completeSession e c w) = c
  /\ writes (snd (completeSession e c w)) = writes w
  /\ pomodoro_sessions (snd (completeSession e c w)) = pomodoro_sessions w
  /\ toasts (snd (completeSession e c w)) = toasts w
  /\ (forall c0 : Ctl,
        completeSession e (resetTimer c0) w = (resetTimer c0, count_call w)).
Proof.
  intros H. unfold completeSession. rewrite H. cbn.
  repeat split; reflexivity.
Qed.

End PomodoroFacts.

(** * Properties of the notification feed *)

Section ListFacts.
Context {Row Key : Type}.

Lemma insert_sorted_perm (le : Row -> Row -> bool) (r : Row) (rows : list Row) :
  Permutation (Js.insert_sorted le r rows) (r :: rows).
Proof.
  induction rows as [|r' rows IH]; cbn.
  - apply Permutation_refl.
  - destruct (le r r').
    + apply Permutation_refl.
    + eapply perm_trans; [apply perm_skip, IH | apply perm_swap].
Qed.

Lemma sort_perm (le : Row -> Row -> bool) (rows : list Row) :
  Permutation (Js.sort le rows) rows.
Proof.
  induction rows as [|r rows IH]; cbn.
  - apply perm_nil.
  - eapply perm_trans; [apply insert_sorted_perm | apply perm_skip, IH].
Qed.

(** A key that is unique in a table stays unique in what a select keeps of
    it: after a filter, an ordering, a limit. *)
Lemma unique_key_filter (key : Row -> Key) (keep : Row -> bool) (rows : list Row)
  (Hkey : NoDup (map key rows)) : NoDup (map key (filter keep rows)).
Proof.
  induction rows as [|r rows IH]; cbn in *; [exact Hkey |].
  apply NoDup_cons_iff in Hkey. destruct Hkey as [Hfresh Hrest].
  destruct (keep r); cbn; [| exact (IH Hrest)].
  apply NoDup_cons_iff. split; [| exact (IH Hrest)].
  rewrite in_map_iff. intros [r' [Hsame Hkept]].
  apply filter_In in Hkept. apply Hfresh, in_map_iff.
  exists r'. tauto.
Qed.

Lemma unique_key_limit (key : Row -> Key) (limit : nat) (rows : list Row)
  (Hkey : NoDup (map key rows)) : NoDup (map key (firstn limit rows)).
Proof.
  rewrite <- (firstn_skipn limit rows), map_app in Hkey.
  exact (NoDup_app_remove_r _ _ Hkey).
Qed.

Lemma unique_key_order (key : Row -> Key) (le : Row -> Row -> bool) (rows : list Row)
  (Hkey : NoDup (map key rows)) : NoDup (map key (Js.sort le rows)).
Proof.
  eapply Permutation_NoDup; [| exact Hkey].
  apply Permutation_map, Permutation_sym, sort_perm.
Qed.

(** Two rows of a table with the same unique key are the same row. *)
Lemma unique_key_row (key : Row -> Key) (rows : list Row) (r1 r2 : Row)
  (Hkey : NoDup (map key rows)) (H1 : In r1 rows) (H2 : In r2 rows)
  (Hsame : key r1 = key r2) : r1 = r2.
Proof.
  induction rows as [|r rows IH]; cbn in *; [contradiction |].
  apply NoDup_cons_iff in Hkey. destruct Hkey as [Hfresh Hrest].
  destruct H1 as [-> | H1], H2 as [-> | H2].
  - reflexivity.
  - exfalso. apply Hfresh. rewrite Hsame. apply in_map, H2.
  - exfalso. apply Hfresh. rewrite <- Hsame. apply in_map, H1.
  - apply IH; assumption.
Qed.

Lemma In_firstn (limit : nat) (rows : list Row) (r : Row) :
  In r (firstn limit rows) -> In r rows.
Proof.
  intros H. rewrite <- (firstn_skipn limit rows). apply in_or_app. left. exact H.
Qed.

End ListFacts.

Section ClockFacts.
Context {A B : Type} (clock : nat -> Z).

Lemma forEach_read (item : Z -> A -> B) (xs : list A) (arr : list B) (k : nat) :
  Clock.forEach xs
    (fun x arr => now <- Clock.read clock ;; Clock.ret (arr ++ [item now x])) arr k
  = (arr ++ Clock.stamped clock item k xs, (k + List.length xs)%nat).
Proof.
  revert arr k. induction xs as [|x xs IH]; intros arr k; cbn.
  - rewrite app_nil_r, Nat.add_0_r. reflexivity.
  - unfold Clock.bind at 1. cbn. rewrite IH, <- app_assoc.
    cbn. f_equal. lia.
Qed.

Lemma forEach_pure (item : A -> B) (xs : list A) (arr : list B) (k : nat) :
  Clock.forEach xs (fun x arr => Clock.ret (arr ++ [item x])) arr k
  = (arr ++ map item xs, k).
Proof.
  revert arr. induction xs as [|x xs IH]; intros arr; cbn.
  - rewrite app_nil_r. reflexivity.
  - unfold Clock.bind. cbn. rewrite IH, <- app_assoc. reflexivity.
Qed.

Lemma stamped_length (item : Z -> A -> B) (k : nat) (xs : list A) :
  List.length (Clock.stamped clock item k xs) = List.length xs.
Proof.
  revert k. induction xs as [|x xs IH]; intros k; cbn; [| rewrite IH]; reflexivity.
Qed.

Lemma stamped_In (item : Z -> A -> B) (k : nat) (xs : list A) (b : B) :
  In b (Clock.stamped clock item k xs) ->
  exists now x, In x xs /\ b = item now x.
Proof.
  revert k. induction xs as [|y xs IH]; intros k; cbn; [contradiction |].
  intros [<- | Hin].
  - exists (clock k), y. split; [left |]; reflexivity.
  - destruct (IH (S k) Hin) as [now [x [Hx ->]]].
    exists now, x. split; [right; exact Hx | reflexivity].
Qed.

Lemma stamped_nth (item : Z -> A -> B) (k i : nat) (xs : list A) (x : A) :
  nth_error xs i = Some x ->
  nth_error (Clock.stamped clock item k xs) i = Some (item (clock (k + i)%nat) x).
Proof.
  revert k i. induction xs as [|y xs IH]; intros k [|i] H; cbn in *; try discriminate.
  - injection H as ->. rewrite Nat.add_0_r. reflexivity.
  - rewrite (IH (S k) i H). do 3 f_equal. lia.
Qed.

(** What is read from the clock does not matter for a projection that
    ignores the reading. *)
Lemma stamped_map {C} (item : Z -> A -> B) (proj : B -> C) (g : A -> C)
  (k : nat) (xs : list A) :
  (forall t x, proj (item t x) = g x) ->
  map proj (Clock.stamped clock item k xs) = map g xs.
Proof.
  intros H. revert k. induction xs as [|x xs IH]; intros k; cbn.
  - reflexivity.
  - rewrite H, IH. reflexivity.
Qed.

End ClockFacts.

Lemma filterM_incl {A} (pred : A -> Clock.M bool) (xs : list A) (k : nat) (x : A) :
  In x (fst (Clock.filterM pred xs k)) -> In x xs.
Proof.
  revert k. induction xs as [|y xs IH]; intros k; cbn; [tauto |].
  unfold Clock.bind. destruct (pred y k) as [keep k1].
  specialize (IH k1). destruct (Clock.filterM pred xs k1) as [rest k2].
  cbn in *. destruct keep; cbn; tauto.
Qed.

Section HeaderFacts.
Import Header.

Lemma bind_run {A B} (m : Clock.M A) (f : A -> Clock.M B) (k : nat) :
  Clock.bind m f k = f (fst (m k)) (snd (m k)).
Proof. unfold Clock.bind. destruct (m k). reflexivity. Qed.

Lemma forEach_rows_read {A} (item : Z -> A -> Notification.t)
  (rows : option (list A)) (notifs : list Notification.t) (e : Env) (k : nat) :
  forEach_rows rows
    (fun x notifs => now <- Clock.read (clock e) ;; Clock.ret (notifs ++ [item now x]))
    notifs k
  = (notifs ++ Clock.stamped (clock e) item k (Supabase.rows_or_empty rows),
     (k + List.length (Supabase.rows_or_empty rows))%nat).
Proof.
  destruct rows as [xs|]; cbn.
  - apply forEach_read.
  - rewrite app_nil_r, Nat.add_0_r. reflexivity.
Qed.

Lemma forEach_rows_pure {A} (item : A -> Notification.t)
  (rows : option (list A)) (notifs : list Notification.t) (k : nat) :
  forEach_rows rows (fun x notifs => Clock.ret (notifs ++ [item x])) notifs k
  = (notifs ++ map item (Supabase.rows_or_empty rows), k).
Proof.
  destruct rows as [xs|]; cbn.
  - apply forEach_pure.
  - rewrite app_nil_r. reflexivity.
Qed.

Lemma collect_spec (e : Env) (exams : option (list Exam.t))
  (overdueTasks upcomingTasks : option (list Task.t)) (k : nat) :
  collect e exams overdueTasks upcomingTasks k =
  (Clock.stamped (clock e) (exam_notification e) k (Supabase.rows_or_empty exams)
     ++ map (overdue_notification e) (Supabase.rows_or_empty overdueTasks)
     ++ Clock.stamped (clock e) (upcoming_notification e)
          (k + List.length (Supabase.rows_or_empty exams))
          (Supabase.rows_or_empty upcomingTasks),
   (k + List.length (Supabase.rows_or_empty exams)
      + List.length (Supabase.rows_or_empty upcomingTasks))%nat).
Proof.
  unfold collect.
  rewrite bind_run, forEach_rows_read. cbn [fst snd].
  rewrite bind_run, forEach_rows_pure. cbn [fst snd].
  rewrite bind_run, forEach_rows_read. cbn [fst snd].
  unfold Clock.ret. rewrite <- app_assoc. reflexivity.
Qed.

(** The list a pass stores: exams first, then overdue tasks, then upcoming
    tasks, each exam and upcoming task with its own clock reading. *)
Lemma loadNotifications_shape (e : Env) (h : State) (u : string) :
  auth_user e = Some u ->
  notifications (loadNotifications e h) =
  Clock.stamped (clock e) (exam_notification e) 4 (exams_seen e u)
    ++ map (overdue_notification e) (overdue_seen e u)
    ++ Clock.stamped (clock e) (upcoming_notification e)
         (4 + List.length (exams_seen e u)) (upcoming_seen e u).
Proof.
  intros Hauth. unfold loadNotifications. rewrite Hauth. cbn [notifications].
  unfold aggregate, Clock.bind, Clock.read. rewrite collect_spec. reflexivity.
Qed.

Lemma loadNotifications_ids (e : Env) (h : State) (u : string) :
  auth_user e = Some u ->
  ids (notifications (loadNotifications e h)) =
  map (String.append "exam-") (map Exam.id (exams_seen e u))
    ++ map (String.append "overdue-") (map Task.id (overdue_seen e u))
    ++ map (String.append "upcoming-") (map Task.id (upcoming_seen e u)).
Proof.
  intros Hauth. rewrite (loadNotifications_shape e h u Hauth).
  unfold ids. rewrite !map_app, !map_map.
  rewrite (stamped_map _ _ _ (fun x => ("exam-" ++ Exam.id x)%string))
    by reflexivity.
  rewrite (stamped_map _ _ _ (fun x => ("upcoming-" ++ Task.id x)%string))
    by reflexivity.
  reflexivity.
Qed.

Lemma append_inj (p a b : string) : (p ++ a = p ++ b)%string -> a = b.
Proof.
  induction p as [|ch p IH]; cbn; intros H; [exact H |].
  injection H as H. apply IH, H.
Qed.

Lemma NoDup_prefixed (p : string) (l : list string) :
  NoDup l -> NoDup (map (String.append p) l).
Proof.
  induction 1 as [|a l Hnotin Hnd IH]; cbn; constructor; [| exact IH].
  intros Hin. apply in_map_iff in Hin. destruct Hin as [b [Hb Hin]].
  apply append_inj in Hb. subst b. contradiction.
Qed.

Lemma exams_seen_incl (e : Env) (u : string) (x : Exam.t) :
  In x (exams_seen e u) ->
  exams_fail e = false /\ In x (exams e)
  /\ Exam.user_id x = u /\ clock e 0%nat <= Exam.exam_date x.
Proof.
  unfold exams_seen, select_exams, Supabase.answer, exam_rows.
  destruct (exams_fail e); cbn [Supabase.rows_or_empty]; [contradiction |].
  intros H. apply In_firstn in H.
  apply (Permutation_in _ (sort_perm _ _)) in H.
  apply filter_In in H. destruct H as [Hin Hp].
  apply andb_prop in Hp. destruct Hp as [Hu Hd].
  apply String.eqb_eq in Hu. apply Z.leb_le in Hd. tauto.
Qed.

Lemma exams_seen_NoDup (e : Env) (u : string) :
  NoDup (map Exam.id (exams e)) -> NoDup (map Exam.id (exams_seen e u)).
Proof.
  intros H. unfold exams_seen, select_exams, Supabase.answer, exam_rows.
  destruct (exams_fail e); cbn [Supabase.rows_or_empty map]; [constructor |].
  apply unique_key_limit, unique_key_order, unique_key_filter, H.
Qed.

Lemma overdue_seen_NoDup (e : Env) (u : string) :
  NoDup (map Task.id (tasks e)) -> NoDup (map Task.id (overdue_seen e u)).
Proof.
  intros H. unfold overdue_seen, select_overdue, Supabase.answer, overdue_rows.
  destruct (overdue_fail e); cbn [Supabase.rows_or_empty map]; [constructor |].
  apply unique_key_limit, unique_key_filter, H.
Qed.

Lemma upcoming_seen_NoDup (e : Env) (u : string) :
  NoDup (map Task.id (tasks e)) -> NoDup (map Task.id (upcoming_seen e u)).
Proof.
  intros H. unfold upcoming_seen, select_upcoming, Supabase.answer, upcoming_rows.
  destruct (upcoming_fail e); cbn [Supabase.rows_or_empty map]; [constructor |].
  apply unique_key_limit, unique_key_order, unique_key_filter, H.
Qed.

Ltac clash :=
  let H := fresh in
  intros H; apply in_map_iff in H; destruct H as [? [H _]]; discriminate H.

(** With ids unique inside each table, the ids of a stored list are
    pairwise distinct, whatever the two tables share. *)
Lemma loadNotifications_NoDup (e : Env) (h : State) (u : string) :
  auth_user e = Some u ->
  NoDup (map Exam.id (exams e)) ->
  NoDup (map Task.id (tasks e)) ->
  NoDup (ids (notifications (loadNotifications e h))).
Proof.
  intros Hauth He Ht. rewrite (loadNotifications_ids e h u Hauth).
  apply NoDup_app; [apply NoDup_prefixed, exams_seen_NoDup, He | |].
  - apply NoDup_app;
      [apply NoDup_prefixed, overdue_seen_NoDup, Ht
      |apply NoDup_prefixed, upcoming_seen_NoDup, Ht |].
    intros a Ha. apply in_map_iff in Ha. destruct Ha as [x [<- _]]. clash.
  - intros a Ha. apply in_map_iff in Ha. destruct Ha as [x [<- _]].
    intros Hin. apply in_app_or in Hin. destruct Hin as [Hin | Hin]; revert Hin; clash.
Qed.

Lemma overdue_seen_spec (e : Env) (u : string) (t : Task.t) :
  In t (overdue_seen e u) ->
  In t (tasks e) /\ Task.user_id t = u /\ Task.completed t = false
  /\ exists d, Task.due_date t = Some d /\ d < clock e 1%nat.
Proof.
  unfold overdue_seen, select_overdue, Supabase.answer, overdue_rows.
  destruct (overdue_fail e); cbn [Supabase.rows_or_empty]; [contradiction |].
  intros H. apply In_firstn in H. apply filter_In in H. destruct H as [Hin Hp].
  apply andb_prop in Hp. destruct Hp as [Hp Hd].
  apply andb_prop in Hp. destruct Hp as [Hu Hc].
  apply String.eqb_eq in Hu. apply negb_true_iff in Hc.
  destruct (Task.due_date t) as [d|]; [| discriminate Hd].
  apply Z.ltb_lt in Hd. repeat split; try assumption. exists d. tauto.
Qed.

Lemma upcoming_seen_spec (e : Env) (u : string) (t : Task.t) :
  In t (upcoming_seen e u) ->
  In t (tasks e) /\ Task.user_id t = u /\ Task.completed t = false
  /\ exists d, Task.due_date t = Some d
               /\ clock e 3%nat <= d <= LocalTime.add_days (zone e) 7 (clock e 2%nat).
Proof.
  unfold upcoming_seen, select_upcoming, Supabase.answer, upcoming_rows.
  destruct (upcoming_fail e); cbn [Supabase.rows_or_empty]; [contradiction |].
  intros H. apply In_firstn in H.
  apply (Permutation_in _ (sort_perm _ _)) in H.
  apply filter_In in H. destruct H as [Hin Hp].
  apply andb_prop in Hp. destruct Hp as [Hp Hd].
  apply andb_prop in Hp. destruct Hp as [Hu Hc].
  apply String.eqb_eq in Hu. apply negb_true_iff in Hc.
  destruct (Task.due_date t) as [d|]; [| discriminate Hd].
  apply andb_prop in Hd. destruct Hd as [Hd1 Hd2].
  apply Z.leb_le in Hd1. apply Z.leb_le in Hd2.
  repeat split; try assumption. exists d. tauto.
Qed.

Lemma ceil_div_is_ceil (a b : Z) : 0 < b -> Js.is_ceil a b (Js.ceil_div a b).
Proof.
  intros Hb. unfold Js.is_ceil, Js.ceil_div.
  pose proof (Z.div_mod (- a) b ltac:(lia)) as Hdm.
  pose proof (Z.mod_pos_bound (- a) b Hb) as Hmod.
  nia.
Qed.

Lemma includes_append (sub a b : string) :
  Js.includes sub b = true -> Js.includes sub (a ++ b) = true.
Proof.
  intros H. induction a as [|ch a IH]; cbn [String.append]; [exact H |].
  cbn [Js.includes]. rewrite IH. apply orb_true_r.
Qed.

Lemma exam_ids_not_shadowed (p : string) (l : list string) (a : string) :
  (forall b, p ++ b <> "exam-" ++ a)%string ->
  count_occ string_dec (map (String.append p) l) ("exam-" ++ a)%string = 0%nat.
Proof.
  intros Hp. apply count_occ_not_In. intros Hin.
  apply in_map_iff in Hin. destruct Hin as [b [Hb _]]. exact (Hp b Hb).
Qed.

Lemma exam_id_once (e : Env) (h : State) (u : string) (x : Exam.t) :
  auth_user e = Some u ->
  NoDup (map Exam.id (exams e)) ->
  In x (exams_seen e u) ->
  count_occ string_dec (ids (notifications (loadNotifications e h)))
    ("exam-" ++ Exam.id x)%string = 1%nat.
Proof.
  intros Hauth Hnd Hin. rewrite (loadNotifications_ids e h u Hauth).
  rewrite !count_occ_app.
  rewrite (exam_ids_not_shadowed "overdue-") by (intros b Hb; discriminate Hb).
  rewrite (exam_ids_not_shadowed "upcoming-") by (intros b Hb; discriminate Hb).
  rewrite !Nat.add_0_r.
  apply NoDup_count_occ'.
  - apply NoDup_prefixed, exams_seen_NoDup, Hnd.
  - apply in_map, in_map, Hin.
Qed.

Lemma exam_id_absent (e : Env) (h : State) (u : string) (x : Exam.t) :
  auth_user e = Some u ->
  NoDup (map Exam.id (exams e)) ->
  In x (exams e) ->
  ~ (Exam.user_id x = u /\ clock e 0%nat <= Exam.exam_date x) ->
  ~ In ("exam-" ++ Exam.id x)%string (ids (notifications (loadNotifications e h))).
Proof.
  intros Hauth Hnd Hx Hout. rewrite (loadNotifications_ids e h u Hauth).
  intros Hin. apply in_app_or in Hin. destruct Hin as [Hin | Hin].
  - apply in_map_iff in Hin. destruct Hin as [i [Hi Hin]].
    apply append_inj in Hi. subst i.
    apply in_map_iff in Hin. destruct Hin as [y [Hy Hin]].
    apply exams_seen_incl in Hin. destruct Hin as [_ [Hyin [Hu Hd]]].
    assert (y = x) by (eapply unique_key_row; eassumption). subst y.
    apply Hout. split; assumption.
  - apply in_app_or in Hin. destruct Hin as [Hin | Hin];
      apply in_map_iff in Hin; destruct Hin as [b [Hb _]]; discriminate Hb.
Qed.

(** C3 (as amended): with ids unique in the exams table, every row the
    exams query answers with -- the caller's rows dated at or after the
    reading of the clock, earliest first, five at most -- has exactly one
    notification with id [exam-<id>]; when the query succeeds and at most
    five rows qualify, that is every qualifying row. A row dated before
    the reading, or owned by somebody else, has no notification. *)
Theorem exam_rows_notified_once (e : Env) (h : State) (u : string) :
  auth_user e = Some u ->
  NoDup (map Exam.id (exams e)) ->
  let out := ids (notifications (loadNotifications e h)) in
  let qualifies x :=
    (Exam.user_id x =? u)%string && (clock e 0%nat <=? Exam.exam_date x) in
  (forall x, In x (exams_seen e u) ->
     count_occ string_dec out ("exam-" ++ Exam.id x)%string = 1%nat)
  /\ (exams_fail e = false ->
      (List.length (filter qualifies (exams e)) <= 5)%nat ->
      forall x, In x (exams e) ->
        Exam.user_id x = u -> clock e 0%nat <= Exam.exam_date x ->
        count_occ string_dec out ("exam-" ++ Exam.id x)%string = 1%nat)
  /\ (forall x, In x (exams e) -> Exam.exam_date x < clock e 0%nat ->
        ~ In ("exam-" ++ Exam.id x)%string out)
  /\ (forall x, In x (exams e) -> Exam.user_id x <> u ->
        ~ In ("exam-" ++ Exam.id x)%string out).
Proof.
  intros Hauth Hnd out qualifies. subst out.
  split; [| split; [| split]].
  - intros x Hx. apply (exam_id_once e h u x Hauth Hnd Hx).
  - intros Hok Hfew x Hx Hu Hd. apply (exam_id_once e h u x Hauth Hnd).
    unfold exams_seen, select_exams, Supabase.answer, exam_rows.
    rewrite Hok. cbn [Supabase.rows_or_empty].
    rewrite firstn_all2.
    + apply (Permutation_in _ (Permutation_sym (sort_perm _ _))).
      apply filter_In. split; [exact Hx |].
      apply andb_true_intro. split; [apply String.eqb_eq, Hu | apply Z.leb_le, Hd].
    + rewrite (Permutation_length (sort_perm _ _)). exact Hfew.
  - intros x Hx Hd. apply (exam_id_absent e h u x Hauth Hnd Hx). lia.
  - intros x Hx Hu. apply (exam_id_absent e h u x Hauth Hnd Hx). tauto.
Qed.

End HeaderFacts.

(** * Properties of the dashboard schedule *)

Section DashboardFacts.
Import Dashboard.

Lemma filter_rows_incl {A} (rows : option (list A)) (pred : A -> Clock.M bool)
  (k : nat) (x : A) :
  In x (fst (filter_rows rows pred k)) -> In x (Supabase.rows_or_empty rows).
Proof.
  destruct rows as [xs|]; cbn [filter_rows Supabase.rows_or_empty].
  - apply filterM_incl.
  - intros H. exact H.
Qed.

Lemma select_tasks_incl (e : Env) (u : string) (t : Task.t) :
  In t (Supabase.rows_or_empty (select_tasks e u)) -> In t (tasks e).
Proof.
  unfold select_tasks, Supabase.answer.
  destruct (tasks_fail e); cbn [Supabase.rows_or_empty]; [contradiction |].
  intros H. apply filter_In in H. tauto.
Qed.

Lemma select_exams_incl (e : Env) (u : string) (now : Z) (x : Exam.t) :
  In x (Supabase.rows_or_empty (select_exams e u now)) -> In x (exams e).
Proof.
  unfold select_exams, Supabase.answer.
  destruct (exams_fail e); cbn [Supabase.rows_or_empty]; [contradiction |].
  intros H. apply In_firstn in H.
  apply (Permutation_in _ (sort_perm _ _)) in H.
  apply filter_In in H. tauto.
Qed.

(** Every item of the schedule is built from a row of one of the two
    tables and carries that row's id as it is. *)
Lemma schedule_items (e : Env) (u : string) (k : nat) (item : ScheduleItem.t) :
  In item (fst (schedule e u k)) ->
  (exists t, In t (tasks e) /\ item = task_item e t)
  \/ (exists x, In x (exams e) /\ item = exam_item e x).
Proof.
  unfold schedule. rewrite !bind_run. cbn [Clock.read fst snd].
  rewrite !forEach_pure. unfold Clock.ret. cbn [fst snd app].
  intros H. apply (Permutation_in _ (sort_perm _ _)) in H.
  apply in_app_or in H. destruct H as [H | H];
    apply in_map_iff in H; destruct H as [y [<- Hy]];
    apply filter_rows_incl in Hy.
  - left. exists y. split; [exact (select_tasks_incl _ _ _ Hy) | reflexivity].
  - right. exists y. split; [exact (select_exams_incl _ _ _ _ Hy) | reflexivity].
Qed.

End DashboardFacts.

(** * The claims about the notification feed *)

Section FeedClaims.
Import Header.

Lemma filter_other_ids (id : string) (l : list Notification.t) :
  ~ In id (ids l) ->
  filter (fun notif => negb (Notification.id notif =? id)%string) l = l.
Proof.
  induction l as [|x l IH]; cbn; intros H; [reflexivity |].
  destruct (String.eqb_spec (Notification.id x) id) as [Heq | Hne]; cbn.
  - exfalso. apply H. left. exact Heq.
  - rewrite IH; [reflexivity |]. intros Hin. apply H. right. exact Hin.
Qed.

Lemma filter_drops_the_one (id : string) (l : list Notification.t) :
  NoDup (ids l) -> In id (ids l) ->
  exists l1 n l2,
    l = l1 ++ n :: l2 /\ Notification.id n = id
    /\ filter (fun notif => negb (Notification.id notif =? id)%string) l = l1 ++ l2.
Proof.
  induction l as [|x l IH]; cbn; intros Hnd Hin; [contradiction |].
  inversion Hnd as [|? ? Hnotin Hnd']; subst.
  destruct (String.eqb_spec (Notification.id x) id) as [Heq | Hne]; cbn.
  - exists [], x, l. cbn. repeat split; [exact Heq |].
    apply filter_other_ids. rewrite <- Heq. exact Hnotin.
  - destruct Hin as [Hin | Hin]; [contradiction |].
    destruct (IH Hnd' Hin) as [l1 [n [l2 [Hl [Hn Hf]]]]].
    exists (x :: l1), n, l2. cbn. rewrite Hf, Hl at 1. repeat split. exact Hn.
Qed.

Lemma apply_nonneg (op : Op) (h : State) :
  0 <= unreadCount h -> 0 <= unreadCount (apply op h).
Proof.
  intros H. destruct op as [e | id]; cbn [apply].
  - unfold loadNotifications. destruct (auth_user e); cbn; [lia | exact H].
  - cbn. lia.
Qed.

(** C7: with the instants of the tables within 2^53 ms of the clock (the
    range where the day count in doubles is exact), the i-th exam of a pass
    is shown with the ceiling, in days, of its date minus the clock reading
    taken for it, and so is every upcoming task with its due date; an exam
    on 2024-01-04T00:00:00Z built at 2024-01-01T00:00:00Z reads
    "... in 3 days". *)
Theorem day_count_is_ceiling (e : Env) (h : State) (u : string) :
  auth_user e = Some u ->
  days_exact e ->
  let out := notifications (loadNotifications e h) in
  (forall i x, nth_error (exams_seen e u) i = Some x ->
     exists n d,
       nth_error out i = Some n
       /\ Z.abs (Exam.exam_date x - clock e (4 + i)%nat) < 2 ^ 53
       /\ Js.is_ceil (Exam.exam_date x - clock e (4 + i)%nat) Js.ms_per_day d
       /\ Notification.message n
          = (Exam.title x ++ " in " ++ Js.number_to_string d ++ " days")%string)
  /\ (forall j t, nth_error (upcoming_seen e u) j = Some t ->
       exists n d,
         nth_error out
           (List.length (exams_seen e u) + List.length (overdue_seen e u) + j)%nat
         = Some n
         /\ Z.abs (due t - clock e (4 + List.length (exams_seen e u) + j)%nat)
            < 2 ^ 53
         /\ Js.is_ceil
              (due t - clock e (4 + List.length (exams_seen e u) + j)%nat)
              Js.ms_per_day d
         /\ Notification.message n
            = (Task.title t ++ " due in " ++ Js.number_to_string d ++ " days")%string)
  /\ (forall x, Exam.exam_date x = 1704326400000 ->
       Notification.message (exam_notification e 1704067200000 x)
       = (Exam.title x ++ " in 3 days")%string
       /\ Js.includes "3 days"
            (Notification.message (exam_notification e 1704067200000 x)) = true).
Proof.
  intros Hauth Hexact out. subst out. rewrite (loadNotifications_shape e h u Hauth).
  split; [| split].
  - intros i x Hx.
    exists (exam_notification e (clock e (4 + i)%nat) x),
           (daysUntil (Exam.exam_date x) (clock e (4 + i)%nat)).
    split; [| split; [| split]].
    + rewrite nth_error_app1
        by (rewrite stamped_length; apply nth_error_Some; congruence).
      apply stamped_nth, Hx.
    + apply (proj1 (Hexact (4 + i)%nat)).
      apply (exams_seen_incl e u x). eapply nth_error_In, Hx.
    + apply ceil_div_is_ceil. reflexivity.
    + reflexivity.
  - intros j t Ht.
    exists (upcoming_notification e
              (clock e (4 + List.length (exams_seen e u) + j)%nat) t),
           (daysUntil (due t) (clock e (4 + List.length (exams_seen e u) + j)%nat)).
    split; [| split; [| split]].
    + rewrite nth_error_app2 by (rewrite stamped_length; lia).
      rewrite stamped_length.
      rewrite nth_error_app2 by (rewrite length_map; lia).
      rewrite length_map.
      replace (_ + _ + j - _ - _)%nat with j by lia.
      apply stamped_nth, Ht.
    + apply (proj2 (Hexact (4 + List.length (exams_seen e u) + j)%nat)).
      apply (upcoming_seen_spec e u t). eapply nth_error_In, Ht.
    + apply ceil_div_is_ceil. reflexivity.
    + reflexivity.
  - intros x Hx.
    assert (Hm : Notification.message (exam_notification e 1704067200000 x)
                 = (Exam.title x ++ " in 3 days")%string).
    { cbn [exam_notification Notification.message]. rewrite Hx. reflexivity. }
    split; [exact Hm |]. rewrite Hm. apply includes_append. reflexivity.
Qed.

(** C8: whichever of the three queries fail, the pass stores a list: the
    items of the queries that answered, in the usual order, and nothing
    for the others; the upcoming query looks seven local calendar days
    ahead. The list is stated for instants within 2^53 ms of the clock
    (its messages carry day counts); the count needs no such range. A
    query without data weighs exactly as one that answers with no rows. *)
Theorem failed_queries_contribute_nothing (e : Env) (h : State) (u : string) :
  auth_user e = Some u ->
  let exs := if exams_fail e then [] else exam_rows e u (clock e 0%nat) in
  let ovs := if overdue_fail e then [] else overdue_rows e u (clock e 1%nat) in
  let ups := if upcoming_fail e then []
             else upcoming_rows e u (clock e 3%nat)
                    (LocalTime.add_days (zone e) 7 (clock e 2%nat)) in
  (days_exact e ->
   notifications (loadNotifications e h)
   = Clock.stamped (clock e) (exam_notification e) 4 exs
       ++ map (overdue_notification e) ovs
       ++ Clock.stamped (clock e) (upcoming_notification e) (4 + List.length exs) ups)
  /\ unreadCount (loadNotifications e h)
     = Z.of_nat (List.length exs + List.length ovs + List.length ups)
  /\ (forall (exams : option (list Exam.t))
         (overdueTasks upcomingTasks : option (list Task.t)) (k : nat),
        collect e exams overdueTasks upcomingTasks k
        = collect e (Some (Supabase.rows_or_empty exams))
            (Some (Supabase.rows_or_empty overdueTasks))
            (Some (Supabase.rows_or_empty upcomingTasks)) k).
Proof.
  intros Hauth exs ovs ups.
  assert (Hshape : notifications (loadNotifications e h)
                   = Clock.stamped (clock e) (exam_notification e) 4 exs
                       ++ map (overdue_notification e) ovs
                       ++ Clock.stamped (clock e) (upcoming_notification e)
                            (4 + List.length exs) ups).
  { rewrite (loadNotifications_shape e h u Hauth).
    unfold exams_seen, overdue_seen, upcoming_seen, select_exams, select_overdue,
      select_upcoming, Supabase.answer. subst exs ovs ups.
    destruct (exams_fail e), (overdue_fail e), (upcoming_fail e); reflexivity. }
  split; [intros _; exact Hshape |]. split.
  - assert (Hc : unreadCount (loadNotifications e h)
                 = Z.of_nat (List.length (notifications (loadNotifications e h)))).
    { unfold loadNotifications. rewrite Hauth. reflexivity. }
    rewrite Hc, Hshape, !length_app, !stamped_length, length_map. f_equal. lia.
  - intros exams overdueTasks upcomingTasks k. rewrite !collect_spec. reflexivity.
Qed.

(** C10: starting from the empty header the unread count never goes below
    zero. A pass of a signed-in caller sets it to the length of the stored
    list (a signed-out pass changes nothing), and after the pass made on
    mount it is the length of the list in either case. A dismissal lowers it by one,
    stopping at zero, keeps every item with another id in place, and, ids
    being distinct, takes out exactly the one item with the given id. *)
Theorem unread_count_never_negative :
  (forall ops : list Op,
      0 <= unreadCount (fold_left (fun h op => apply op h) ops initial))
  /\ (forall e h,
        match auth_user e with
        | Some _ =>
            unreadCount (loadNotifications e h)
            = Z.of_nat (List.length (notifications (loadNotifications e h)))
        | None => loadNotifications e h = h
        end)
  /\ (forall e,
        unreadCount (loadNotifications e initial)
        = Z.of_nat (List.length (notifications (loadNotifications e initial))))
  /\ (forall id h,
        0 <= unreadCount (removeNotification id h)
        /\ (1 <= unreadCount h ->
            unreadCount (removeNotification id h) = unreadCount h - 1)
        /\ (unreadCount h <= 0 -> unreadCount (removeNotification id h) = 0))
  /\ (forall id h n,
        In n (notifications (removeNotification id h))
        <-> In n (notifications h) /\ Notification.id n <> id)
  /\ (forall id h,
        NoDup (ids (notifications h)) -> In id (ids (notifications h)) ->
        exists l1 n l2,
          notifications h = l1 ++ n :: l2 /\ Notification.id n = id
          /\ notifications (removeNotification id h) = l1 ++ l2).
Proof.
  split; [| split; [| split; [| split; [| split]]]].
  - intros ops.
    assert (H : forall h, 0 <= unreadCount h ->
                0 <= unreadCount (fold_left (fun h op => apply op h) ops h)).
    { induction ops as [|op ops IH]; intros h Hh; cbn [fold_left].
      - exact Hh.
      - apply IH, apply_nonneg, Hh. }
    apply H. cbn. lia.
  - intros e h. unfold loadNotifications. destruct (auth_user e); reflexivity.
  - intros e. unfold loadNotifications. destruct (auth_user e); reflexivity.
  - intros id h. cbn [removeNotification unreadCount]. lia.
  - intros id h n. cbn [removeNotification notifications].
    rewrite filter_In. apply and_iff_compat_l.
    destruct (String.eqb_spec (Notification.id n) id); cbn; split; congruence.
  - intros id h Hnd Hin. cbn [removeNotification notifications].
    apply filter_drops_the_one; assumption.
Qed.

End FeedClaims.

(** * Identities across the two feeds *)

Lemma overdue_seen_incl (e : Header.Env) (u : string) (t : Task.t) :
  In t (Header.overdue_seen e u) -> In t (Header.tasks e).
Proof.
  unfold Header.overdue_seen, Header.select_overdue, Supabase.answer, Header.overdue_rows.
  destruct (Header.overdue_fail e); cbn [Supabase.rows_or_empty]; [contradiction |].
  intros H. apply In_firstn in H. apply filter_In in H. tauto.
Qed.

Lemma upcoming_seen_incl (e : Header.Env) (u : string) (t : Task.t) :
  In t (Header.upcoming_seen e u) -> In t (Header.tasks e).
Proof.
  unfold Header.upcoming_seen, Header.select_upcoming, Supabase.answer,
    Header.upcoming_rows.
  destruct (Header.upcoming_fail e); cbn [Supabase.rows_or_empty]; [contradiction |].
  intros H. apply In_firstn in H.
  apply (Permutation_in _ (sort_perm _ _)) in H.
  apply filter_In in H. tauto.
Qed.

(** C6 (as amended): every notification of the header carries the id of its
    row behind the name of its source: the ids of a stored list are, in
    order, [exam-<id>] for the rows the exams query returned (the caller's
    exams dated at or after the reading), [overdue-<id>] for the rows of the
    overdue query (the caller's uncompleted tasks due before the reading)
    and [upcoming-<id>] for the rows of the upcoming query (the caller's
    uncompleted tasks due from the reading to seven local calendar days
    later). With ids unique inside each table these ids are pairwise
    distinct, even when an exam and a task share an id. The items of the
    dashboard schedule carry the bare id of their task or exam row. *)
Theorem notification_ids_namespaced
  (e : Header.Env) (h : Header.State) (u : string) :
  Header.auth_user e = Some u ->
  NoDup (map Exam.id (Header.exams e)) ->
  NoDup (map Task.id (Header.tasks e)) ->
  let out := Header.notifications (Header.loadNotifications e h) in
  Header.ids out
  = map (fun x => ("exam-" ++ Exam.id x)%string) (Header.exams_seen e u)
      ++ map (fun t => ("overdue-" ++ Task.id t)%string) (Header.overdue_seen e u)
      ++ map (fun t => ("upcoming-" ++ Task.id t)%string) (Header.upcoming_seen e u)
  /\ (forall x, In x (Header.exams_seen e u) ->
        In x (Header.exams e) /\ Exam.user_id x = u
        /\ Header.clock e 0%nat <= Exam.exam_date x)
  /\ (forall t, In t (Header.overdue_seen e u) ->
        In t (Header.tasks e) /\ Task.user_id t = u /\ Task.completed t = false
        /\ exists d, Task.due_date t = Some d /\ d < Header.clock e 1%nat)
  /\ (forall t, In t (Header.upcoming_seen e u) ->
        In t (Header.tasks e) /\ Task.user_id t = u /\ Task.completed t = false
        /\ exists d, Task.due_date t = Some d
             /\ Header.clock e 3%nat <= d
                <= LocalTime.add_days (Header.zone e) 7 (Header.clock e 2%nat))
  /\ (forall n, In n out ->
       (exists x, In x (Header.exams_seen e u)
                  /\ Notification.id n = ("exam-" ++ Exam.id x)%string
                  /\ Notification.title n
                     = ("Upcoming Exam: " ++ Exam.course x)%string)
       \/ (exists t, In t (Header.overdue_seen e u)
                     /\ n = Header.overdue_notification e t
                     /\ Notification.id n = ("overdue-" ++ Task.id t)%string)
       \/ (exists t, In t (Header.upcoming_seen e u)
                     /\ Notification.id n = ("upcoming-" ++ Task.id t)%string
                     /\ Notification.title n
                        = ("Upcoming Task: "
                             ++ Js.or_default (Task.course t) "General")%string))
  /\ NoDup (Header.ids out)
  /\ (forall (d : Dashboard.Env) (current : list ScheduleItem.t) (v : string)
         (item : ScheduleItem.t),
        Dashboard.auth_user d = Some v ->
        In item (Dashboard.loadDashboardData d current) ->
        (exists t, In t (Dashboard.tasks d)
                   /\ ScheduleItem.type item = ScheduleItem.task
                   /\ ScheduleItem.id item = Task.id t)
        \/ (exists x, In x (Dashboard.exams d)
                      /\ ScheduleItem.type item = ScheduleItem.exam
                      /\ ScheduleItem.id item = Exam.id x)).
Proof.
  intros Hauth He Ht out. subst out.
  split; [| split; [| split; [| split; [| split; [| split]]]]].
  - rewrite (loadNotifications_ids e h u Hauth), !map_map. reflexivity.
  - intros x Hx. apply (exams_seen_incl e u x Hx).
  - intros t Hin. apply (overdue_seen_spec e u t Hin).
  - intros t Hin. apply (upcoming_seen_spec e u t Hin).
  - intros n Hn. rewrite (loadNotifications_shape e h u Hauth) in Hn.
    apply in_app_or in Hn. destruct Hn as [Hn | Hn];
      [| apply in_app_or in Hn; destruct Hn as [Hn | Hn]].
    + left. apply stamped_In in Hn. destruct Hn as [now [x [Hx ->]]].
      exists x. repeat split; [exact Hx].
    + right. left. apply in_map_iff in Hn. destruct Hn as [t [<- Hin]].
      exists t. repeat split; [exact Hin].
    + right. right. apply stamped_In in Hn. destruct Hn as [now [t [Hin ->]]].
      exists t. repeat split; [exact Hin].
  - apply (loadNotifications_NoDup e h u Hauth He Ht).
  - intros d current v item Hd Hitem. unfold Dashboard.loadDashboardData in Hitem.
    rewrite Hd in Hitem. apply schedule_items in Hitem.
    destruct Hitem as [[t [Hin ->]] | [x [Hin ->]]].
    + left. exists t. repeat split. exact Hin.
    + right. exists x. repeat split. exact Hin.
Qed.

(** * The claims at concrete inputs *)

Ltac distinct_ids := repeat constructor; cbn; intuition discriminate.

Ltac within_range :=
  intros ?; split; intros ? Hin; cbn in Hin;
  repeat (destruct Hin as [<- | Hin]); try contradiction;
  vm_compute; reflexivity.

(** C1, as first stated, fails: with nobody signed in, a start from the
    initial idle state returns at the user check; no row is created and the
    timer does not run. *)
Lemma start_signed_out_creates_no_row :
  Pomodoro.Idle Pomodoro.initial
  /\ Pomodoro.toggleTimer Examples.env_signed_out Pomodoro.initial Examples.world0
     = (Pomodoro.initial, Examples.world0)
  /\ Pomodoro.step Examples.env_signed_out Pomodoro.Toggle
       (Pomodoro.initial, Examples.world0)
     = (Pomodoro.initial, Examples.world0)
  /\ ~ (forall (e : Pomodoro.Env) (c : Pomodoro.Ctl) (w : Pomodoro.World),
          Pomodoro.Idle c ->
          (exists row,
              Pomodoro.pomodoro_sessions (snd (Pomodoro.toggleTimer e c w))
              = Pomodoro.pomodoro_sessions w ++ [row])
          /\ Pomodoro.isRunning (fst (Pomodoro.toggleTimer e c w)) = true).
Proof.
  assert (Hidle : Pomodoro.Idle Pomodoro.initial) by (split; reflexivity).
  split; [exact Hidle |]. split; [reflexivity |]. split; [reflexivity |].
  intros H.
  destruct (H Examples.env_signed_out Pomodoro.initial Examples.world0 Hidle)
    as [_ Hrun].
  discriminate Hrun.
Qed.

Lemma start_creates_one_session_row_witness :
  Pomodoro.Idle Pomodoro.initial
  /\ Pomodoro.auth_user Examples.env_signed_out = None
  /\ Pomodoro.step Examples.env_signed_out Pomodoro.Toggle
       (Pomodoro.initial, Examples.world0)
     = (Pomodoro.initial, Examples.world0)
  /\ Pomodoro.auth_user Examples.env_ok = Some "u1"
  /\ Pomodoro.insert_result Examples.env_ok = inl "s1"
  /\ Pomodoro.isRunning
       (fst (Pomodoro.toggleTimer Examples.env_ok Pomodoro.initial Examples.world0))
     = true
  /\ Pomodoro.sessionId
       (fst (Pomodoro.toggleTimer Examples.env_ok Pomodoro.initial Examples.world0))
     = Some "s1"
  /\ 0 < Pomodoro.timeLeft Pomodoro.initial
  /\ Pomodoro.interval_live
       (fst (Pomodoro.step Examples.env_ok Pomodoro.Toggle
               (Pomodoro.initial, Examples.world0)))
     = true
  /\ Pomodoro.sessionId Examples.last_second = Some "s1"
  /\ List.length
       (Pomodoro.pomodoro_sessions
          (snd (Pomodoro.step Examples.env_ok Pomodoro.Toggle
                  (Examples.last_second, Examples.world1))))
     = 1%nat.
Proof.
  assert (Hidle : Pomodoro.Idle Pomodoro.initial) by (split; reflexivity).
  assert (Hne : "s1" <> "") by discriminate.
  assert (Hleft : 0 < Pomodoro.timeLeft Pomodoro.initial) by reflexivity.
  destruct (proj2 (start_creates_one_session_row Examples.env_ok Pomodoro.initial
                     Examples.world0 Hidle) "u1" "s1" eq_refl eq_refl Hne)
    as [_ [_ [Hrun [Hsid [Hstep Hlater]]]]].
  destruct (proj1 (start_creates_one_session_row Examples.env_signed_out
                     Pomodoro.initial Examples.world0 Hidle) eq_refl)
    as [_ Hout].
  destruct (Hlater Examples.env_ok Examples.last_second Examples.world1 eq_refl)
    as [_ [_ Hrows]].
  split; [exact Hidle |]. split; [reflexivity |]. split; [exact Hout |].
  split; [reflexivity |]. split; [reflexivity |].
  split; [exact Hrun |]. split; [exact Hsid |]. split; [exact Hleft |].
  split; [rewrite (Hstep Hleft); reflexivity |].
  split; [reflexivity | exact Hrows].
Defined.

Lemma tick_at_one_completes_once_witness :
  Pomodoro.timeLeft Examples.last_second = 1
  /\ Pomodoro.completeSession_calls
       (snd (Pomodoro.step Examples.env_ok Pomodoro.Tick
               (Examples.last_second, Examples.world1)))
     = 1%nat.
Proof.
  split; [reflexivity |].
  exact (proj1 (proj2 (proj2
    (tick_at_one_completes_once Examples.env_ok Examples.last_second Examples.world1
       eq_refl eq_refl eq_refl)))).
Defined.

Lemma failed_start_keeps_idle_witness :
  Pomodoro.insert_result Examples.env_insert_fails = inr "network error"
  /\ fst (Pomodoro.step Examples.env_insert_fails Pomodoro.Toggle
            (Pomodoro.initial, Examples.world0))
     = Pomodoro.initial.
Proof.
  split; [reflexivity |].
  exact (proj1
    (failed_start_keeps_idle Examples.env_insert_fails Pomodoro.initial Examples.world0
       "u1" "network error" (conj eq_refl eq_refl) eq_refl eq_refl)).
Defined.

Lemma completeSession_without_session_is_noop_witness :
  Js.truthy (Pomodoro.sessionId Pomodoro.initial) = false
  /\ Pomodoro.writes
       (snd (Pomodoro.completeSession Examples.env_ok Pomodoro.initial Examples.world1))
     = Pomodoro.writes Examples.world1.
Proof.
  split; [reflexivity |].
  exact (proj1 (proj2
    (completeSession_without_session_is_noop Examples.env_ok Pomodoro.initial
       Examples.world1 eq_refl))).
Defined.

(** C3, as first stated, fails: of six exams ahead the sixth is beyond the
    limit of the query and has no notification. *)
Lemma sixth_exam_not_notified :
  let e := Examples.six_exams in
  let x := Examples.exam "e6" (Examples.jan1 + 144 * Examples.hour) in
  Header.auth_user e = Some "u1"
  /\ Header.exams_fail e = false
  /\ In x (Header.exams e)
  /\ Exam.user_id x = "u1"
  /\ Header.clock e 0%nat <= Exam.exam_date x
  /\ Header.ids (Header.notifications (Header.loadNotifications e Header.initial))
     = ["exam-e1"; "exam-e2"; "exam-e3"; "exam-e4"; "exam-e5"]
  /\ count_occ string_dec
       (Header.ids (Header.notifications (Header.loadNotifications e Header.initial)))
       ("exam-" ++ Exam.id x)%string
     = 0%nat.
Proof.
  cbv zeta. split; [reflexivity |]. split; [reflexivity |].
  split; [cbn; tauto |]. split; [reflexivity |].
  split; [vm_compute; discriminate |]. split; vm_compute; reflexivity.
Qed.

Lemma exam_rows_notified_once_witness :
  Header.auth_user Examples.feed = Some "u1"
  /\ NoDup (map Exam.id (Header.exams Examples.feed))
  /\ count_occ string_dec
       (Header.ids (Header.notifications
          (Header.loadNotifications Examples.feed Header.initial)))
       "exam-e1"
     = 1%nat.
Proof.
  assert (Hnd : NoDup (map Exam.id (Header.exams Examples.feed))) by distinct_ids.
  split; [reflexivity |]. split; [exact Hnd |].
  apply (proj1 (exam_rows_notified_once Examples.feed Header.initial "u1" eq_refl Hnd)
           (Examples.exam "e1" Examples.jan4)).
  vm_compute. left. reflexivity.
Defined.

(** C6, as first stated, fails on the dashboard: a task and an exam with the
    same id give two schedule items with that same bare id. *)
Lemma dashboard_ids_collide :
  Dashboard.ids (Dashboard.loadDashboardData Examples.same_id_day []) = ["7"; "7"]
  /\ map ScheduleItem.type (Dashboard.loadDashboardData Examples.same_id_day [])
     = [ScheduleItem.exam; ScheduleItem.task]
  /\ ~ NoDup (Dashboard.ids (Dashboard.loadDashboardData Examples.same_id_day [])).
Proof.
  assert (H : Dashboard.ids (Dashboard.loadDashboardData Examples.same_id_day [])
              = ["7"; "7"]) by (vm_compute; reflexivity).
  split; [exact H |]. split; [vm_compute; reflexivity |].
  rewrite H. intros Hnd. inversion Hnd as [|? ? Hnotin _]; subst.
  apply Hnotin. left. reflexivity.
Qed.

Lemma notification_ids_namespaced_witness :
  Header.auth_user ZoneExamples.feed_autumn = Some "u1"
  /\ map Exam.id (Header.exams ZoneExamples.feed_autumn) = ["7"]
  /\ map Task.id (Header.tasks ZoneExamples.feed_autumn) = ["7"; "8"; "9"]
  /\ Header.ids (Header.notifications
                   (Header.loadNotifications ZoneExamples.feed_autumn Header.initial))
     = ["exam-7"; "overdue-7"; "upcoming-8"]
  /\ NoDup (Header.ids (Header.notifications
              (Header.loadNotifications ZoneExamples.feed_autumn Header.initial))).
Proof.
  assert (He : NoDup (map Exam.id (Header.exams ZoneExamples.feed_autumn)))
    by distinct_ids.
  assert (Ht : NoDup (map Task.id (Header.tasks ZoneExamples.feed_autumn)))
    by distinct_ids.
  destruct (notification_ids_namespaced ZoneExamples.feed_autumn Header.initial
              "u1" eq_refl He Ht) as [Hids [_ [_ [_ [_ [Hnd _]]]]]].
  split; [reflexivity |]. split; [reflexivity |]. split; [reflexivity |].
  split; [| exact Hnd].
  rewrite Hids. vm_compute. reflexivity.
Defined.

Lemma day_count_is_ceiling_witness :
  Header.auth_user Examples.feed = Some "u1"
  /\ Header.days_exact Examples.feed
  /\ (exists n d,
        nth_error (Header.notifications
                     (Header.loadNotifications Examples.feed Header.initial)) 0
        = Some n
        /\ Z.abs (Examples.jan4 - Examples.jan1) < 2 ^ 53
        /\ Js.is_ceil (Examples.jan4 - Examples.jan1) Js.ms_per_day d
        /\ Notification.message n
           = ("Final" ++ " in " ++ Js.number_to_string d ++ " days")%string)
  /\ Header.auth_user ZoneExamples.feed_autumn = Some "u1"
  /\ Header.days_exact ZoneExamples.feed_autumn
  /\ (exists n d,
        nth_error (Header.notifications
                     (Header.loadNotifications ZoneExamples.feed_autumn
                        Header.initial)) 2
        = Some n
        /\ Z.abs (168 * Examples.hour + 1800000) < 2 ^ 53
        /\ Js.is_ceil (168 * Examples.hour + 1800000) Js.ms_per_day d
        /\ Notification.message n
           = ("Problem set" ++ " due in " ++ Js.number_to_string d ++ " days")%string).
Proof.
  assert (Hfeed : Header.days_exact Examples.feed) by within_range.
  assert (Hautumn : Header.days_exact ZoneExamples.feed_autumn) by within_range.
  split; [reflexivity |]. split; [exact Hfeed |]. split.
  - exact (proj1 (day_count_is_ceiling Examples.feed Header.initial "u1"
                    eq_refl Hfeed)
             0%nat (Examples.exam "e1" Examples.jan4) eq_refl).
  - split; [reflexivity |]. split; [exact Hautumn |].
    exact (proj1 (proj2 (day_count_is_ceiling ZoneExamples.feed_autumn
                           Header.initial "u1" eq_refl Hautumn))
             0%nat
             (Examples.task "8" (ZoneExamples.oct31 + 168 * Examples.hour + 1800000))
             eq_refl).
Defined.

Lemma failed_queries_contribute_nothing_witness :
  Header.auth_user Examples.feed_overdue_down = Some "u1"
  /\ Header.unreadCount
       (Header.loadNotifications Examples.feed_overdue_down Header.initial)
     = 2
  /\ Header.auth_user ZoneExamples.feed_autumn_overdue_down = Some "u1"
  /\ Header.days_exact ZoneExamples.feed_autumn_overdue_down
  /\ Header.ids (Header.notifications
                   (Header.loadNotifications ZoneExamples.feed_autumn_overdue_down
                      Header.initial))
     = ["exam-7"; "upcoming-8"].
Proof.
  assert (Hautumn : Header.days_exact ZoneExamples.feed_autumn_overdue_down)
    by within_range.
  split; [reflexivity |]. split.
  - exact (proj1 (proj2
      (failed_queries_contribute_nothing Examples.feed_overdue_down Header.initial
         "u1" eq_refl))).
  - split; [reflexivity |]. split; [exact Hautumn |].
    rewrite (proj1 (failed_queries_contribute_nothing
                      ZoneExamples.feed_autumn_overdue_down Header.initial
                      "u1" eq_refl) Hautumn).
    vm_compute. reflexivity.
Defined.

Lemma unread_count_never_negative_witness :
  0 <= Header.unreadCount
         (fold_left (fun h op => Header.apply op h)
            [Header.Load Examples.feed; Header.Remove "exam-e1";
             Header.Remove "exam-e1"; Header.Remove "overdue-t1";
             Header.Remove "upcoming-t2"; Header.Remove "upcoming-t2"]
            Header.initial).
Proof.
  exact (proj1 unread_count_never_negative _).
Defined.

(** * More on the pomodoro controller *)

Section TimerFacts.
Import Pomodoro PomodoroView.

Lemma completeSession_core (e : Env) (c : Ctl) (w : World) :
  core c -> core (fst (completeSession e c w)).
Proof.
  intros Hc. unfold completeSession.
  destruct (negb (Js.truthy (sessionId c))); [exact Hc |].
  destruct (update_error e); [exact Hc |].
  destruct Hc as [Hd [Ht _]]. cbn [fst]. unfold loadSessions.
  destruct (auth_user e); [destruct (select_ok e) |];
    (split; [exact Hd | split; [cbn; lia | intros _; split; reflexivity]]).
Qed.

Lemma tickEffect_core (n : nat) (e : Env) (prev cur : Ctl) (w : World) :
  core cur -> core (fst (tickEffect n e prev cur w)).
Proof.
  revert prev cur w. induction n as [|n IH]; intros prev cur w Hc; [exact Hc |].
  rewrite tickEffect_S. cbv zeta.
  destruct (deps_changed prev cur); [| exact Hc].
  destruct (isRunning (clearInterval cur) && (0 <? timeLeft (clearInterval cur)));
    [exact Hc |].
  destruct ((timeLeft (clearInterval cur) =? 0) && isRunning (clearInterval cur));
    [| exact Hc].
  apply IH. apply completeSession_core. exact Hc.
Qed.

Lemma toggleTimer_core (e : Env) (c : Ctl) (w : World) :
  core c -> core (fst (toggleTimer e c w)).
Proof.
  intros Hc. unfold toggleTimer.
  destruct (negb (isRunning c) && negb (Js.truthy (sessionId c))) eqn:Hidle.
  - destruct (auth_user e); [| exact Hc].
    destruct (insert_result e); [| exact Hc].
    destruct Hc as [Hd [Ht _]]. cbn [fst].
    split; [exact Hd | split; [exact Ht | intros Hs; discriminate Hs]].
  - destruct Hc as [Hd [Ht Hs]]. cbn [fst].
    split; [exact Hd | split; [exact Ht |]].
    cbn. intros Hnone. destruct (Hs Hnone) as [Hr _].
    rewrite Hr, Hnone in Hidle. discriminate Hidle.
Qed.

Lemma handle_core (e : Env) (ev : Event) (c : Ctl) (w : World) :
  core c -> interval_ok c -> core (fst (handle e ev c w)).
Proof.
  intros Hc Hok.
  assert (Hreset : core (resetTimer c)).
  { destruct Hc as [Hd [Ht _]].
    split; [exact Hd | split; [cbn; lia | intros _; split; reflexivity]]. }
  destruct ev as [| | |code]; cbn [handle fst].
  - apply toggleTimer_core, Hc.
  - exact Hreset.
  - unfold tick. destruct (interval_live c) eqn:Hl; [| exact Hc].
    destruct (Hok Hl) as [Hr Hpos]. destruct Hc as [Hd [Ht Hs]].
    split; [exact Hd | split; [cbn; lia |]].
    cbn. intros Hnone. destruct (Hs Hnone) as [Hr' _]. congruence.
  - destruct (code =? "Space")%string; [apply toggleTimer_core, Hc |].
    destruct (code =? "KeyR")%string; [exact Hreset | exact Hc].
Qed.

Lemma step_core (e : Env) (ev : Event) (s : Ctl * World) :
  core (fst s) -> interval_ok (fst s) -> core (fst (step e ev s)).
Proof.
  destruct s as [c w]. cbn [fst]. intros Hc Hok. unfold step.
  pose proof (handle_core e ev c w Hc Hok) as Hh.
  destruct (handle e ev c w) as [c1 w1]. apply tickEffect_core, Hh.
Qed.

Lemma run_core (evs : list (Env * Event)) (s : Ctl * World) :
  core (fst s) -> interval_ok (fst s) ->
  core (fst (run evs s)) /\ interval_ok (fst (run evs s)).
Proof.
  revert s. induction evs as [|[e ev] evs IH]; intros s Hc Hok; cbn [run].
  - split; assumption.
  - apply IH; [apply step_core | apply step_interval_ok]; assumption.
Qed.

Lemma initial_core : core initial /\ interval_ok initial.
Proof.
  split.
  - split; [reflexivity | split; [cbn; lia | intros _; split; reflexivity]].
  - intros H. discriminate H.
Qed.

(** X1: whatever events and answers follow the mount, the configured
    duration stays 25 minutes, the remaining time stays between zero and
    that duration, and the interval is live only while the timer runs with
    time left. *)
Theorem countdown_stays_in_range (evs : list (Env * Event)) (w : World) :
  let c := fst (run evs (initial, w)) in
  c_duration c = 1500
  /\ 0 <= timeLeft c <= 1500
  /\ (interval_live c = true -> isRunning c = true /\ 0 < timeLeft c).
Proof.
  destruct (run_core evs (initial, w) (proj1 initial_core) (proj2 initial_core))
    as [[Hd [Ht _]] Hok].
  cbv zeta. rewrite Hd in Ht. split; [exact Hd | split; [exact Ht | exact Hok]].
Qed.

(** X2: in every state reached after the mount, a controller without a
    session id is stopped, shows the full duration and has no interval. *)
Theorem no_session_means_stopped_and_full (evs : list (Env * Event)) (w : World) :
  let c := fst (run evs (initial, w)) in
  sessionId c = None ->
  isRunning c = false /\ timeLeft c = c_duration c /\ interval_live c = false.
Proof.
  destruct (run_core evs (initial, w) (proj1 initial_core) (proj2 initial_core))
    as [[_ [_ Hs]] Hok].
  cbv zeta. intros Hnone. destruct (Hs Hnone) as [Hr Ht].
  split; [exact Hr | split; [exact Ht |]].
  destruct (interval_live _) eqn:Hl; [| reflexivity].
  destruct (Hok Hl) as [Hr' _]. congruence.
Qed.

Lemma run_app (evs evs' : list (Env * Event)) (s : Ctl * World) :
  run (evs ++ evs') s = run evs' (run evs s).
Proof.
  revert s. induction evs as [|[e ev] evs IH]; intros s; cbn [run app].
  - reflexivity.
  - apply IH.
Qed.

(** A tick above the last second only lowers the remaining time. *)
Lemma step_Tick_running (e : Env) (c : Ctl) (w : World) :
  isRunning c = true -> interval_live c = true -> 1 < timeLeft c ->
  step e Tick (c, w) = (setTimeLeft (timeLeft c - 1) c, w).
Proof.
  intros Hr Hl Ht. unfold step, handle, tick, renders. rewrite Hl, tickEffect_S.
  cbv zeta. unfold deps_changed. cbn.
  replace (timeLeft c =? timeLeft c - 1) with false by (symmetry; apply Z.eqb_neq; lia).
  rewrite Hr, orb_true_r. cbn.
  replace (0 <? timeLeft c - 1) with true by (symmetry; apply Z.ltb_lt; lia).
  destruct c; cbn in *; subst; reflexivity.
Qed.

(** The tick at the last second hands over to [completeSession]. *)
Lemma step_Tick_last (e : Env) (c : Ctl) (w : World) :
  timeLeft c = 1 -> isRunning c = true -> interval_live c = true ->
  step e Tick (c, w)
  = tickEffect 1 e (clearInterval (setTimeLeft 0 c))
      (fst (completeSession e (clearInterval (setTimeLeft 0 c)) w))
      (snd (completeSession e (clearInterval (setTimeLeft 0 c)) w)).
Proof.
  intros Ht Hr Hl. unfold step, handle, tick, renders. rewrite Hl, Ht, tickEffect_S.
  cbv zeta. unfold deps_changed. cbn. rewrite Ht, Hr. reflexivity.
Qed.

Lemma ticks_above_last (e : Env) (n : nat) (c : Ctl) (w : World) :
  isRunning c = true -> interval_live c = true -> timeLeft c = Z.of_nat n + 1 ->
  run (ticks e n) (c, w) = (setTimeLeft 1 c, w).
Proof.
  revert c. induction n as [|n IH]; intros c Hr Hl Ht.
  - cbn. destruct c; cbn in *; subst; reflexivity.
  - cbn [ticks repeat run]. rewrite step_Tick_running by (assumption || lia).
    fold (ticks e n). rewrite IH by (cbn; assumption || lia). reflexivity.
Qed.

(** A successful completion, spelled out. *)
Lemma completeSession_done (e : Env) (c : Ctl) (w : World) (sid : string) :
  sessionId c = Some sid -> sid <> "" -> update_error e = None ->
  completeSession e c w
  = (loadSessions e (resetTimer c)
       (toast (mkToast false "Session completed! 🎉" "Great work! Take a 5-minute break.")
          (set_rows (map (update_row e sid (now e)) (pomodoro_sessions w))
             (log_write (Update sid true (now e)) (count_call w)))),
     toast (mkToast false "Session completed! 🎉" "Great work! Take a 5-minute break.")
       (set_rows (map (update_row e sid (now e)) (pomodoro_sessions w))
          (log_write (Update sid true (now e)) (count_call w)))).
Proof.
  intros Hs Hne Hu. unfold completeSession.
  rewrite Hs, (truthy_Some sid Hne), Hu. reflexivity.
Qed.

Lemma loadSessions_fields (e : Env) (c : Ctl) (w : World) :
  isRunning (loadSessions e c w) = isRunning c
  /\ timeLeft (loadSessions e c w) = timeLeft c
  /\ sessionId (loadSessions e c w) = sessionId c
  /\ interval_live (loadSessions e c w) = interval_live c
  /\ c_duration (loadSessions e c w) = c_duration c.
Proof.
  unfold loadSessions. destruct (auth_user e); [destruct (select_ok e) |];
    repeat split; reflexivity.
Qed.

(** X4: when the tick at the last second is followed by a successful
    update, the controller is back to stopped, full duration, no session id
    and no interval; one update was sent; every row of the caller with the
    session's id is completed at the time of the call, and rows with
    another id are as they were. *)
Theorem last_tick_closes_the_session
  (e : Env) (c : Ctl) (w : World) (sid : string) :
  timeLeft c = 1 -> isRunning c = true -> interval_live c = true ->
  sessionId c = Some sid -> sid <> "" -> update_error e = None ->
  let s' := step e Tick (c, w) in
  isRunning (fst s') = false
  /\ timeLeft (fst s') = c_duration c
  /\ sessionId (fst s') = None
  /\ interval_live (fst s') = false
  /\ writes (snd s') = writes w ++ [Update sid true (now e)]
  /\ List.length (pomodoro_sessions (snd s')) = List.length (pomodoro_sessions w)
  /\ (forall r, In r (pomodoro_sessions w) -> id r = sid ->
        auth_user e = Some (user_id r) ->
        exists r', In r' (pomodoro_sessions (snd s'))
                   /\ id r' = sid /\ duration r' = duration r
                   /\ completed r' = true /\ completed_at r' = Some (now e))
  /\ (forall r, In r (pomodoro_sessions w) -> id r <> sid ->
        In r (pomodoro_sessions (snd s'))).
Proof.
  intros Ht Hr Hl Hs Hne Hu. cbv zeta.
  rewrite (step_Tick_last e c w Ht Hr Hl).
  set (c0 := clearInterval (setTimeLeft 0 c)).
  rewrite (completeSession_done e c0 w sid Hs Hne Hu). cbn [fst snd].
  set (w' := toast _ _).
  destruct (loadSessions_fields e (resetTimer c0) w') as [Hlr [Hlt [Hls [Hli _]]]].
  rewrite tickEffect_after_complete by (right; exact Hlr).
  cbn [fst snd].
  assert (Hfields :
            isRunning (if deps_changed c0 (loadSessions e (resetTimer c0) w')
                       then clearInterval (loadSessions e (resetTimer c0) w')
                       else loadSessions e (resetTimer c0) w') = false
            /\ timeLeft (if deps_changed c0 (loadSessions e (resetTimer c0) w')
                         then clearInterval (loadSessions e (resetTimer c0) w')
                         else loadSessions e (resetTimer c0) w') = c_duration c
            /\ sessionId (if deps_changed c0 (loadSessions e (resetTimer c0) w')
                          then clearInterval (loadSessions e (resetTimer c0) w')
                          else loadSessions e (resetTimer c0) w') = None
            /\ interval_live (if deps_changed c0 (loadSessions e (resetTimer c0) w')
                              then clearInterval (loadSessions e (resetTimer c0) w')
                              else loadSessions e (resetTimer c0) w') = false).
  { destruct (deps_changed _ _);
      cbn [isRunning timeLeft sessionId interval_live clearInterval];
      rewrite ?Hlr, ?Hlt, ?Hls, ?Hli; repeat split; reflexivity. }
  destruct Hfields as [H1 [H2 [H3 H4]]].
  split; [exact H1 |]. split; [exact H2 |]. split; [exact H3 |]. split; [exact H4 |].
  subst w'.
  cbn. split; [reflexivity |]. split; [apply length_map |]. split.
  - intros r Hin Hid Hown. exists (update_row e sid (now e) r).
    split; [apply in_map, Hin |].
    unfold update_row. rewrite Hown, Hid, !String.eqb_refl. cbn.
    repeat split; reflexivity.
  - intros r Hin Hid. apply in_map_iff. exists r. split; [| exact Hin].
    unfold update_row. destruct (String.eqb_spec (id r) sid); [contradiction |].
    reflexivity.
Qed.

Lemma step_pause (e : Env) (c : Ctl) (w : World) (sid : string) :
  isRunning c = true -> sessionId c = Some sid -> sid <> "" ->
  step e Toggle (c, w) = (clearInterval (setIsRunning false c), w).
Proof.
  intros Hr Hs Hne. unfold step, handle, renders.
  rewrite toggleTimer_open by (rewrite Hs; apply truthy_Some, Hne).
  rewrite tickEffect_S, Hr. cbv zeta. unfold deps_changed. cbn.
  rewrite Hr. cbn. rewrite andb_false_r. reflexivity.
Qed.

Lemma step_resume (e : Env) (c : Ctl) (w : World) (sid : string) :
  isRunning c = false -> sessionId c = Some sid -> sid <> "" -> 0 < timeLeft c ->
  step e Toggle (c, w) = (setInterval (setIsRunning true c), w).
Proof.
  intros Hr Hs Hne Ht. unfold step, handle, renders.
  rewrite toggleTimer_open by (rewrite Hs; apply truthy_Some, Hne).
  rewrite tickEffect_S, Hr. cbv zeta. unfold deps_changed. cbn.
  rewrite Hr. cbn. apply Z.ltb_lt in Ht. rewrite Ht. reflexivity.
Qed.

Lemma step_resume_at_zero (e : Env) (c : Ctl) (w : World) (sid : string) :
  isRunning c = false -> sessionId c = Some sid -> sid <> "" -> timeLeft c = 0 ->
  step e Toggle (c, w)
  = tickEffect 1 e (clearInterval (setIsRunning true c))
      (fst (completeSession e (clearInterval (setIsRunning true c)) w))
      (snd (completeSession e (clearInterval (setIsRunning true c)) w)).
Proof.
  intros Hr Hs Hne Ht. unfold step, handle, renders.
  rewrite toggleTimer_open by (rewrite Hs; apply truthy_Some, Hne).
  rewrite tickEffect_S, Hr. cbv zeta. unfold deps_changed. cbn.
  rewrite Hr, Ht. reflexivity.
Qed.

Lemma step_Tick_idle (e : Env) (c : Ctl) (w : World) :
  interval_live c = false -> step e Tick (c, w) = (c, w).
Proof.
  intros Hl. unfold step, handle, tick, renders.
  rewrite Hl, tickEffect_S, deps_changed_refl. reflexivity.
Qed.

Lemma ticks_idle (e : Env) (n : nat) (c : Ctl) (w : World) :
  interval_live c = false -> run (ticks e n) (c, w) = (c, w).
Proof.
  intros Hl. induction n as [|n IH]; cbn [ticks repeat run]; [reflexivity |].
  rewrite step_Tick_idle by exact Hl. exact IH.
Qed.

(** X7: pausing a running timer sends nothing to the database and keeps
    the remaining time and the session id; while paused, interval firings
    change nothing; resuming sends nothing either and goes on from the same
    remaining time with the same session id. *)
Theorem pause_holds_the_countdown
  (e1 e2 : Env) (c : Ctl) (w : World) (sid : string) :
  isRunning c = true -> sessionId c = Some sid -> sid <> "" -> 0 < timeLeft c ->
  let p := step e1 Toggle (c, w) in
  let q := step e2 Toggle p in
  snd p = w
  /\ isRunning (fst p) = false /\ interval_live (fst p) = false
  /\ timeLeft (fst p) = timeLeft c /\ sessionId (fst p) = Some sid
  /\ (forall e n, run (ticks e n) p = p)
  /\ snd q = w
  /\ isRunning (fst q) = true /\ interval_live (fst q) = true
  /\ timeLeft (fst q) = timeLeft c /\ sessionId (fst q) = Some sid.
Proof.
  intros Hr Hs Hne Ht. cbv zeta.
  rewrite (step_pause e1 c w sid Hr Hs Hne).
  rewrite (step_resume e2 (clearInterval (setIsRunning false c)) w sid eq_refl Hs Hne Ht).
  cbn [fst snd].
  repeat split; try reflexivity; try assumption.
  intros e n. apply ticks_idle. reflexivity.
Qed.

(** X5: when the update after the last tick fails, the error is shown and
    the timer stays at zero, running, with its session id and without
    interval; no row changes. Interval firings then do nothing. Pausing and
    resuming enters [completeSession] again, and with a successful update
    the controller returns to stopped, full duration, no session id. *)
Theorem failed_completion_waits_for_retry
  (e e1 e2 : Env) (c : Ctl) (w : World) (sid message : string) :
  timeLeft c = 1 -> isRunning c = true -> interval_live c = true ->
  sessionId c = Some sid -> sid <> "" ->
  update_error e = Some message -> update_error e2 = None ->
  let s' := step e Tick (c, w) in
  let r := run [(e1, Toggle); (e2, Toggle)] s' in
  isRunning (fst s') = true /\ timeLeft (fst s') = 0
  /\ sessionId (fst s') = Some sid /\ interval_live (fst s') = false
  /\ pomodoro_sessions (snd s') = pomodoro_sessions w
  /\ toasts (snd s') = toasts w ++ [mkToast true "Error completing session" message]
  /\ (forall e', step e' Tick s' = s')
  /\ isRunning (fst r) = false /\ timeLeft (fst r) = c_duration c
  /\ sessionId (fst r) = None
  /\ completeSession_calls (snd r) = S (S (completeSession_calls w))
  /\ writes (snd r) = writes w ++ [Update sid true (now e); Update sid true (now e2)].
Proof.
  intros Ht Hr Hl Hs Hne Hu Hu2. cbv zeta.
  set (c0 := clearInterval (setTimeLeft 0 c)).
  assert (Hfail : step e Tick (c, w)
                  = (c0, toast (mkToast true "Error completing session" message)
                           (log_write (Update sid true (now e)) (count_call w)))).
  { rewrite (step_Tick_last e c w Ht Hr Hl). fold c0.
    assert (Hc : completeSession e c0 w
                 = (c0, toast (mkToast true "Error completing session" message)
                          (log_write (Update sid true (now e)) (count_call w)))).
    { unfold completeSession.
      replace (sessionId c0) with (Some sid) by (symmetry; exact Hs).
      rewrite (truthy_Some sid Hne), Hu. reflexivity. }
    rewrite Hc. cbn [fst snd].
    rewrite tickEffect_after_complete by (left; reflexivity).
    rewrite deps_changed_refl. reflexivity. }
  rewrite Hfail. set (w0 := toast _ _). cbn [fst snd].
  split; [exact Hr |]. split; [reflexivity |]. split; [exact Hs |].
  split; [reflexivity |]. split; [reflexivity |]. split; [reflexivity |].
  split; [intros e'; apply step_Tick_idle; reflexivity |].
  cbn [run].
  rewrite (step_pause e1 c0 w0 sid Hr Hs Hne).
  set (c1 := clearInterval (setIsRunning false c0)).
  rewrite (step_resume_at_zero e2 c1 w0 sid eq_refl Hs Hne eq_refl).
  set (c2 := clearInterval (setIsRunning true c1)).
  rewrite (completeSession_done e2 c2 w0 sid Hs Hne Hu2). cbn [fst snd].
  set (w2 := toast _ _).
  destruct (loadSessions_fields e2 (resetTimer c2) w2) as [Hlr [Hlt [Hls _]]].
  rewrite tickEffect_after_complete by (right; exact Hlr). cbn [fst snd].
  assert (Hfields :
            isRunning (if deps_changed c2 (loadSessions e2 (resetTimer c2) w2)
                       then clearInterval (loadSessions e2 (resetTimer c2) w2)
                       else loadSessions e2 (resetTimer c2) w2) = false
            /\ timeLeft (if deps_changed c2 (loadSessions e2 (resetTimer c2) w2)
                         then clearInterval (loadSessions e2 (resetTimer c2) w2)
                         else loadSessions e2 (resetTimer c2) w2) = c_duration c
            /\ sessionId (if deps_changed c2 (loadSessions e2 (resetTimer c2) w2)
                          then clearInterval (loadSessions e2 (resetTimer c2) w2)
                          else loadSessions e2 (resetTimer c2) w2) = None).
  { destruct (deps_changed _ _); cbn [isRunning timeLeft sessionId clearInterval];
      rewrite ?Hlr, ?Hlt, ?Hls; repeat split; reflexivity. }
  destruct Hfields as [H1 [H2 H3]].
  split; [exact H1 |]. split; [exact H2 |]. split; [exact H3 |].
  subst w2 w0. cbn. split; [reflexivity |]. rewrite <- app_assoc. reflexivity.
Qed.

Lemma ticks_running (e : Env) (n : nat) (c : Ctl) (w : World) :
  isRunning c = true -> interval_live c = true -> Z.of_nat n < timeLeft c ->
  run (ticks e n) (c, w) = (setTimeLeft (timeLeft c - Z.of_nat n) c, w).
Proof.
  revert c. induction n as [|n IH]; intros c Hr Hl Ht.
  - cbn. rewrite Z.sub_0_r. destruct c; reflexivity.
  - cbn [ticks repeat run]. rewrite step_Tick_running by (assumption || lia).
    fold (ticks e n). rewrite IH by (cbn; assumption || lia).
    f_equal. unfold setTimeLeft. cbn. f_equal. lia.
Qed.

Lemma step_start (e : Env) (c : Ctl) (w : World) (u sid : string) :
  Idle c -> auth_user e = Some u -> insert_result e = inl sid -> 0 < timeLeft c ->
  step e Toggle (c, w)
  = (setInterval (setIsRunning true (setSessionId (Some sid) c)),
     set_rows (pomodoro_sessions w
                 ++ [new_row e sid u (Js.floor_div (c_duration c) 60)])
       (log_write (Insert u (Js.floor_div (c_duration c) 60) false) w)).
Proof.
  intros [Hr Hs] Ha Hi Ht. unfold step, handle, toggleTimer, renders.
  rewrite Hr, Hs, Ha, Hi. cbn [negb andb]. rewrite tickEffect_S. cbv zeta.
  unfold deps_changed. cbn. rewrite Hr. cbn.
  apply Z.ltb_lt in Ht. rewrite Ht. reflexivity.
Qed.

Lemma step_Tick_last_done (e : Env) (c : Ctl) (w : World) (sid : string) :
  timeLeft c = 1 -> isRunning c = true -> interval_live c = true ->
  sessionId c = Some sid -> sid <> "" -> update_error e = None ->
  exists c',
    step e Tick (c, w)
    = (c', toast (mkToast false "Session completed! 🎉"
                    "Great work! Take a 5-minute break.")
             (set_rows (map (update_row e sid (now e)) (pomodoro_sessions w))
                (log_write (Update sid true (now e)) (count_call w))))
    /\ isRunning c' = false /\ timeLeft c' = c_duration c
    /\ sessionId c' = None /\ interval_live c' = false.
Proof.
  intros Ht Hr Hl Hs Hne Hu.
  rewrite (step_Tick_last e c w Ht Hr Hl).
  set (c0 := clearInterval (setTimeLeft 0 c)).
  rewrite (completeSession_done e c0 w sid Hs Hne Hu). cbn [fst snd].
  set (w' := toast _ _).
  destruct (loadSessions_fields e (resetTimer c0) w') as [Hlr [Hlt [Hls [Hli _]]]].
  rewrite tickEffect_after_complete by (right; exact Hlr).
  eexists. split; [reflexivity |].
  destruct (deps_changed _ _);
    cbn [isRunning timeLeft sessionId interval_live clearInterval];
    rewrite ?Hlr, ?Hlt, ?Hls, ?Hli; repeat split; reflexivity.
Qed.

(** X6: a start from the idle state with full time, followed by as many
    interval firings as the duration has seconds, all answered without
    error, ends stopped with full time and no session id; [completeSession]
    was entered once, one insert and one update were sent, and the new row
    is the last of the table, completed. With fewer firings the timer is
    still running on that session and [completeSession] was not entered. *)
Theorem full_countdown_completes_once
  (e : Env) (c : Ctl) (w : World) (u sid : string) :
  Idle c -> timeLeft c = c_duration c -> 0 < c_duration c ->
  auth_user e = Some u -> insert_result e = inl sid -> sid <> "" ->
  update_error e = None ->
  let minutes := Js.floor_div (c_duration c) 60 in
  let s' := run ((e, Toggle) :: ticks e (Z.to_nat (c_duration c))) (c, w) in
  isRunning (fst s') = false /\ timeLeft (fst s') = c_duration c
  /\ sessionId (fst s') = None /\ interval_live (fst s') = false
  /\ completeSession_calls (snd s') = S (completeSession_calls w)
  /\ writes (snd s')
     = writes w ++ [Insert u minutes false; Update sid true (now e)]
  /\ pomodoro_sessions (snd s')
     = map (update_row e sid (now e)) (pomodoro_sessions w)
         ++ [ {| id := sid; user_id := u; duration := minutes; completed := true;
                 task_id := None; started_at := now e;
                 completed_at := Some (now e) |} ]
  /\ (forall n, (n < Z.to_nat (c_duration c))%nat ->
        let s := run ((e, Toggle) :: ticks e n) (c, w) in
        isRunning (fst s) = true /\ sessionId (fst s) = Some sid
        /\ timeLeft (fst s) = c_duration c - Z.of_nat n
        /\ completeSession_calls (snd s) = completeSession_calls w).
Proof.
  intros Hidle Hfull Hpos Ha Hi Hne Hu minutes. cbv zeta.
  assert (Ht : 0 < timeLeft c) by lia.
  cbn [run]. rewrite (step_start e c w u sid Hidle Ha Hi Ht). fold minutes.
  set (c1 := setInterval (setIsRunning true (setSessionId (Some sid) c))).
  set (w1 := set_rows _ _).
  assert (Hbefore : forall n, (n < Z.to_nat (c_duration c))%nat ->
            run (ticks e n) (c1, w1) = (setTimeLeft (c_duration c - Z.of_nat n) c1, w1)).
  { intros n Hn. rewrite ticks_running by (cbn; reflexivity || lia).
    cbn [timeLeft c1 setInterval setIsRunning setSessionId]. rewrite Hfull. reflexivity. }
  assert (Hlast : exists k, Z.to_nat (c_duration c) = S k) by (exists (Z.to_nat (c_duration c) - 1)%nat; lia).
  destruct Hlast as [k Hk]. rewrite Hk.
  replace (ticks e (S k)) with (ticks e k ++ [(e, Tick)])
    by (unfold ticks; symmetry; apply repeat_cons).
  rewrite run_app, Hbefore by lia. cbn [run].
  destruct (step_Tick_last_done e (setTimeLeft (c_duration c - Z.of_nat k) c1) w1 sid)
    as [c' [Hstep [H1 [H2 [H3 H4]]]]];
    try (cbn; reflexivity || assumption || lia).
  rewrite Hstep. cbn [fst snd].
  split; [exact H1 |]. split; [exact H2 |]. split; [exact H3 |]. split; [exact H4 |].
  subst w1. cbn. split; [reflexivity |]. split; [rewrite <- app_assoc; reflexivity |].
  split.
  - rewrite map_app. cbn. f_equal. unfold update_row, new_row. cbn.
    rewrite Ha, !String.eqb_refl. reflexivity.
  - intros n Hn. rewrite (Hbefore n) by lia. cbn.
    repeat split; reflexivity.
Qed.

Lemma kept_refl (rows : list SessionRow) : kept rows rows.
Proof.
  intros i r H. exists r. repeat split; [exact H | tauto].
Qed.

Lemma kept_trans (rows1 rows2 rows3 : list SessionRow) :
  kept rows1 rows2 -> kept rows2 rows3 -> kept rows1 rows3.
Proof.
  intros H12 H23 i r H.
  destruct (H12 i r H) as [r2 [Hn2 [Hi2 [Hu2 [Hd2 [Hs2 Hc2]]]]]].
  destruct (H23 i r2 Hn2) as [r3 [Hn3 [Hi3 [Hu3 [Hd3 [Hs3 Hc3]]]]]].
  exists r3. repeat split; try congruence. intros Hc. apply Hc3, Hc2, Hc.
Qed.

Lemma kept_length (rows rows' : list SessionRow) :
  kept rows rows' -> (List.length rows <= List.length rows')%nat.
Proof.
  intros H. destruct (Nat.le_gt_cases (List.length rows) (List.length rows'))
    as [Hle | Hgt]; [exact Hle | exfalso].
  destruct (nth_error rows (List.length rows')) as [r|] eqn:Hn.
  - destruct (H _ r Hn) as [r' [Hn' _]].
    assert (Hlt : (List.length rows' < List.length rows')%nat)
      by (apply nth_error_Some; congruence).
    lia.
  - apply nth_error_None in Hn. lia.
Qed.

Lemma kept_app (rows extra : list SessionRow) : kept rows (rows ++ extra).
Proof.
  intros i r H. exists r. split; [| repeat split; tauto].
  rewrite nth_error_app1; [exact H |]. apply nth_error_Some. congruence.
Qed.

Lemma kept_update (e : Env) (sid : string) (at_ms : Z) (rows : list SessionRow) :
  kept rows (map (update_row e sid at_ms) rows).
Proof.
  intros i r H. exists (update_row e sid at_ms r).
  split; [apply map_nth_error, H |].
  unfold update_row. destruct (_ && _); cbn; repeat split; tauto.
Qed.

Lemma completeSession_rows (e : Env) (c : Ctl) (w : World) :
  kept (pomodoro_sessions w) (pomodoro_sessions (snd (completeSession e c w)))
  /\ List.length (pomodoro_sessions (snd (completeSession e c w)))
     = List.length (pomodoro_sessions w).
Proof.
  unfold completeSession.
  destruct (negb (Js.truthy (sessionId c))); [split; [apply kept_refl | reflexivity] |].
  destruct (update_error e); cbn; [split; [apply kept_refl | reflexivity] |].
  split; [apply kept_update | apply length_map].
Qed.

Lemma tickEffect_rows (n : nat) (e : Env) (prev cur : Ctl) (w : World) :
  kept (pomodoro_sessions w) (pomodoro_sessions (snd (tickEffect n e prev cur w)))
  /\ List.length (pomodoro_sessions (snd (tickEffect n e prev cur w)))
     = List.length (pomodoro_sessions w).
Proof.
  revert prev cur w. induction n as [|n IH]; intros prev cur w;
    [split; [apply kept_refl | reflexivity] |].
  rewrite tickEffect_S. cbv zeta.
  destruct (deps_changed prev cur); [| split; [apply kept_refl | reflexivity]].
  destruct (_ && _); [split; [apply kept_refl | reflexivity] |].
  destruct (_ && _); [| split; [apply kept_refl | reflexivity]].
  destruct (completeSession_rows e (clearInterval cur) w) as [Hk Hl].
  destruct (IH (clearInterval cur) (fst (completeSession e (clearInterval cur) w))
              (snd (completeSession e (clearInterval cur) w))) as [Hk' Hl'].
  split; [eapply kept_trans; eassumption | congruence].
Qed.

Lemma handle_rows (e : Env) (ev : Event) (c : Ctl) (w : World) :
  kept (pomodoro_sessions w) (pomodoro_sessions (snd (handle e ev c w)))
  /\ (List.length (pomodoro_sessions (snd (handle e ev c w)))
      <= List.length (pomodoro_sessions w) + 1)%nat.
Proof.
  assert (Hsame : kept (pomodoro_sessions w) (pomodoro_sessions w)
                  /\ (List.length (pomodoro_sessions w)
                      <= List.length (pomodoro_sessions w) + 1)%nat)
    by (split; [apply kept_refl | lia]).
  assert (Htoggle :
            kept (pomodoro_sessions w) (pomodoro_sessions (snd (toggleTimer e c w)))
            /\ (List.length (pomodoro_sessions (snd (toggleTimer e c w)))
                <= List.length (pomodoro_sessions w) + 1)%nat).
  { unfold toggleTimer. destruct (_ && _); [| exact Hsame].
    destruct (auth_user e); [| exact Hsame].
    destruct (insert_result e); [| exact Hsame].
    cbn. split; [apply kept_app | rewrite length_app; cbn; lia]. }
  destruct ev as [| | |code]; cbn [handle snd]; try assumption.
  destruct (code =? "Space")%string; [exact Htoggle |].
  destruct (code =? "KeyR")%string; exact Hsame.
Qed.

Lemma step_rows (e : Env) (ev : Event) (s : Ctl * World) :
  kept (pomodoro_sessions (snd s)) (pomodoro_sessions (snd (step e ev s)))
  /\ (List.length (pomodoro_sessions (snd (step e ev s)))
      <= List.length (pomodoro_sessions (snd s)) + 1)%nat.
Proof.
  destruct s as [c w]. cbn [snd]. unfold step.
  destruct (handle_rows e ev c w) as [Hk Hl].
  destruct (handle e ev c w) as [c1 w1]. cbn [snd] in *.
  destruct (tickEffect_rows renders e c c1 w1) as [Hk' Hl'].
  split; [eapply kept_trans; eassumption | lia].
Qed.

(** X3: whatever events and answers come, the controller never removes a
    session row and never changes the id, owner, length or start of one; a
    completed row stays completed; and at most one row is added per event. *)
Theorem session_rows_are_never_lost (evs : list (Env * Event)) (s : Ctl * World) :
  kept (pomodoro_sessions (snd s)) (pomodoro_sessions (snd (run evs s)))
  /\ (List.length (pomodoro_sessions (snd s))
      <= List.length (pomodoro_sessions (snd (run evs s)))
      <= List.length (pomodoro_sessions (snd s)) + List.length evs)%nat.
Proof.
  revert s. induction evs as [|[e ev] evs IH]; intros s; cbn [run List.length].
  - split; [apply kept_refl | lia].
  - destruct (step_rows e ev s) as [Hk Hl]. destruct (IH (step e ev s)) as [Hk' Hl'].
    split; [eapply kept_trans; eassumption |].
    split; [| lia].
    apply kept_length. eapply kept_trans; eassumption.
Qed.

End TimerFacts.

(** * What the pomodoro page and the dashboard cards show *)

Section DisplayFacts.
Import Pomodoro PomodoroView.

Lemma pad2_below_100 (z : Z) :
  0 <= z < 100 -> String.length (Js.pad2 z) = 2%nat.
Proof.
  intros Hz.
  assert (Hall : forallb (fun n => (String.length (Js.pad2 (Z.of_nat n)) =? 2)%nat)
                   (seq 0 100) = true) by (vm_compute; reflexivity).
  rewrite forallb_forall in Hall.
  specialize (Hall (Z.to_nat z)). rewrite Z2Nat.id in Hall by lia.
  apply Nat.eqb_eq, Hall, in_seq. lia.
Qed.

Lemma pad2_inj_below_100 (a b : Z) :
  0 <= a < 100 -> 0 <= b < 100 -> Js.pad2 a = Js.pad2 b -> a = b.
Proof.
  intros Ha Hb Heq.
  assert (Hall : forallb (fun n =>
                   forallb (fun m =>
                     implb (Js.pad2 (Z.of_nat n) =? Js.pad2 (Z.of_nat m))%string
                           (n =? m)%nat) (seq 0 100)) (seq 0 100) = true)
    by (vm_compute; reflexivity).
  rewrite forallb_forall in Hall.
  specialize (Hall (Z.to_nat a) ltac:(apply in_seq; lia)).
  rewrite forallb_forall in Hall.
  specialize (Hall (Z.to_nat b) ltac:(apply in_seq; lia)).
  rewrite !Z2Nat.id in Hall by lia. rewrite Heq, String.eqb_refl in Hall.
  cbn in Hall. apply Nat.eqb_eq in Hall. lia.
Qed.

Lemma append_same_length_inj (a b c d : string) :
  String.length a = String.length b -> (a ++ c = b ++ d)%string -> a = b /\ c = d.
Proof.
  revert b. induction a as [|x a IH]; intros [|y b] Hlen Heq; cbn in *;
    try discriminate.
  - split; [reflexivity | exact Heq].
  - injection Heq as -> Heq. injection Hlen as Hlen.
    destruct (IH b Hlen Heq) as [-> ->]. split; reflexivity.
Qed.

Lemma length_append (a b : string) :
  String.length (a ++ b) = (String.length a + String.length b)%nat.
Proof.
  induction a as [|x a IH]; cbn; [reflexivity | rewrite IH; reflexivity].
Qed.

(** X8: for a remaining time below one hundred minutes the display has
    five characters with the colon in the middle, and two different
    remaining times are never displayed alike. *)
Theorem formatTime_is_MM_SS (a b : Z) :
  0 <= a < 6000 -> 0 <= b < 6000 ->
  String.length (formatTime a) = 5%nat
  /\ String.get 2 (formatTime a) = Some ":"%char
  /\ (formatTime a = formatTime b -> a = b).
Proof.
  intros Ha Hb. unfold formatTime, Js.floor_div. cbv zeta.
  rewrite !Z.rem_mod_nonneg by lia.
  assert (Hma : 0 <= a / 60 < 100)
    by (split; [apply Z.div_pos; lia | apply Z.div_lt_upper_bound; lia]).
  assert (Hmb : 0 <= b / 60 < 100)
    by (split; [apply Z.div_pos; lia | apply Z.div_lt_upper_bound; lia]).
  assert (Hsa : 0 <= a mod 60 < 100) by (pose proof (Z.mod_pos_bound a 60); lia).
  assert (Hsb : 0 <= b mod 60 < 100) by (pose proof (Z.mod_pos_bound b 60); lia).
  pose proof (pad2_below_100 _ Hma) as Hla.
  pose proof (pad2_below_100 _ Hsa) as Hlsa.
  pose proof (pad2_below_100 _ Hmb) as Hlb.
  split; [| split].
  - rewrite !length_append, Hla, Hlsa. reflexivity.
  - destruct (Js.pad2 (a / 60)) as [|x [|y [|z rest]]]; cbn in Hla; try discriminate.
    reflexivity.
  - intros Heq.
    assert (Hlen : String.length (Js.pad2 (a / 60)) = String.length (Js.pad2 (b / 60)))
      by (rewrite Hla, Hlb; reflexivity).
    destruct (append_same_length_inj _ _ _ _ Hlen Heq) as [Hm Hrest].
    cbn in Hrest. injection Hrest as Hs.
    apply pad2_inj_below_100 in Hm; [| assumption | assumption].
    apply pad2_inj_below_100 in Hs; [| assumption | assumption].
    rewrite (Z.div_mod a 60), (Z.div_mod b 60) by lia. congruence.
Qed.

Lemma sum_of_map {A} (f : A -> Z) (l : list A) (init : Z) :
  fold_left (fun sum d => sum + d) (map f l) init
  = fold_left (fun sum x => sum + f x) l init.
Proof.
  revert init. induction l as [|x l IH]; intros init; cbn; [reflexivity | apply IH].
Qed.

Lemma sum_shift {A} (f : A -> Z) (l : list A) (init : Z) :
  fold_left (fun sum x => sum + f x) l init
  = init + fold_left (fun sum x => sum + f x) l 0.
Proof.
  revert init. induction l as [|x l IH]; intros init; cbn; [lia |].
  rewrite (IH (init + f x)), (IH (f x)). lia.
Qed.

Lemma sum_reordered {A} (f : A -> Z) (l l' : list A) :
  Permutation l l' ->
  fold_left (fun sum x => sum + f x) l 0 = fold_left (fun sum x => sum + f x) l' 0.
Proof.
  induction 1 as [|x l l' _ IH|x y l|l l' l'' _ IH1 _ IH2]; cbn.
  - reflexivity.
  - rewrite (sum_shift f l (f x)), (sum_shift f l' (f x)), IH. reflexivity.
  - rewrite (sum_shift f l (f y + f x)), (sum_shift f l (f x + f y)). lia.
  - congruence.
Qed.

Lemma filter_reordered {A} (keep : A -> bool) (l l' : list A) :
  Permutation l l' -> Permutation (filter keep l) (filter keep l').
Proof.
  induction 1 as [|x l l' _ IH|x y l|l l' l'' _ IH1 _ IH2]; cbn.
  - apply perm_nil.
  - destruct (keep x); [apply perm_skip |]; exact IH.
  - destruct (keep x), (keep y); try apply Permutation_refl. apply perm_swap.
  - eapply perm_trans; eassumption.
Qed.

Lemma filter_twice {A} (p q : A -> bool) (l : list A) :
  filter p (filter q l) = filter (fun x => q x && p x) l.
Proof.
  induction l as [|x l IH]; cbn; [reflexivity |].
  destruct (q x); cbn; [destruct (p x) |]; rewrite IH; reflexivity.
Qed.

(** X9: opened by the same caller on the same local day over the same
    table, the "Total Focus Time" of the pomodoro page and the focus
    minutes of the dashboard are the same number. *)
Theorem focus_totals_agree
  (pe : Pomodoro.Env) (c : Ctl) (w : World)
  (de : DashboardStats.Env) (st : DashboardStats.Stats) (u : string) :
  Pomodoro.auth_user pe = Some u ->
  DashboardStats.auth_user de = Some u ->
  select_ok pe = true ->
  DashboardStats.sessions_fail de = false ->
  DashboardStats.sessions de = pomodoro_sessions w ->
  DashboardStats.start_of_today de = start_of_day pe (now pe) ->
  DashboardStats.focusMinutes (DashboardStats.loadStats de st)
  = totalFocus (sessions (loadSessions pe c w)).
Proof.
  intros Hpu Hdu Hok Hfail Htable Hday.
  unfold DashboardStats.loadStats, loadSessions. rewrite Hpu, Hdu, Hok.
  cbn [DashboardStats.focusMinutes sessions setSessions].
  unfold DashboardStats.select_sessions, Supabase.answer. rewrite Hfail, Htable, Hday.
  cbn [DashboardStats.totalMinutes]. unfold totalFocus.
  rewrite sum_of_map.
  rewrite (sum_reordered duration _ _
             (filter_reordered completed _ _ (sort_perm _ _))).
  rewrite filter_twice. f_equal. apply filter_ext. intros r.
  destruct (user_id r =? u)%string, (completed r),
    (start_of_day pe (now pe) <=? started_at r); reflexivity.
Qed.

Lemma completeSession_lengths (e : Env) (c : Ctl) (w : World) (minutes : Z) :
  Forall (fun r => duration r = minutes) (pomodoro_sessions w) ->
  Forall (fun r => duration r = minutes)
    (pomodoro_sessions (snd (completeSession e c w))).
Proof.
  intros H. unfold completeSession.
  destruct (negb (Js.truthy (sessionId c))); [exact H |].
  destruct (update_error e); [exact H |]. cbn.
  apply Forall_map. eapply Forall_impl; [| exact H].
  intros r Hr. unfold update_row. destruct (_ && _); exact Hr.
Qed.

Lemma tickEffect_lengths (n : nat) (e : Env) (prev cur : Ctl) (w : World)
  (minutes : Z) :
  Forall (fun r => duration r = minutes) (pomodoro_sessions w) ->
  Forall (fun r => duration r = minutes)
    (pomodoro_sessions (snd (tickEffect n e prev cur w))).
Proof.
  revert prev cur w. induction n as [|n IH]; intros prev cur w H; [exact H |].
  rewrite tickEffect_S. cbv zeta.
  destruct (deps_changed prev cur); [| exact H].
  destruct (_ && _); [exact H |].
  destruct (_ && _); [| exact H].
  apply IH, completeSession_lengths, H.
Qed.

Lemma step_lengths (e : Env) (ev : Event) (s : Ctl * World) :
  core (fst s) ->
  Forall (fun r => duration r = 25) (pomodoro_sessions (snd s)) ->
  Forall (fun r => duration r = 25) (pomodoro_sessions (snd (step e ev s))).
Proof.
  destruct s as [c w]. cbn [fst snd]. intros [Hd _] H. unfold step.
  assert (Htoggle : Forall (fun r => duration r = 25)
                      (pomodoro_sessions (snd (toggleTimer e c w)))).
  { unfold toggleTimer. destruct (_ && _); [| exact H].
    destruct (auth_user e); [| exact H].
    destruct (insert_result e); [| exact H].
    cbn. apply Forall_app. split; [exact H |].
    constructor; [| constructor]. cbn. rewrite Hd. reflexivity. }
  assert (Hh : Forall (fun r => duration r = 25)
                 (pomodoro_sessions (snd (handle e ev c w)))).
  { destruct ev as [| | |code]; cbn [handle snd]; try assumption.
    destruct (code =? "Space")%string; [exact Htoggle |].
    destruct (code =? "KeyR")%string; exact H. }
  destruct (handle e ev c w) as [c1 w1]. apply tickEffect_lengths, Hh.
Qed.

Lemma run_lengths (evs : list (Env * Event)) (s : Ctl * World) :
  core (fst s) -> interval_ok (fst s) ->
  Forall (fun r => duration r = 25) (pomodoro_sessions (snd s)) ->
  Forall (fun r => duration r = 25) (pomodoro_sessions (snd (run evs s))).
Proof.
  revert s. induction evs as [|[e ev] evs IH]; intros s Hc Hok H; cbn [run].
  - exact H.
  - apply IH; [apply step_core | apply step_interval_ok | apply step_lengths];
      assumption.
Qed.

Lemma sum_of_equal {A} (f : A -> Z) (l : list A) (v : Z) :
  Forall (fun x => f x = v) l ->
  fold_left (fun sum x => sum + f x) l 0 = v * Z.of_nat (List.length l).
Proof.
  induction 1 as [|x l Hx _ IH]; cbn [fold_left List.length]; [lia |].
  rewrite sum_shift, IH, Hx. lia.
Qed.

(** X10: every row the page inserts lasts 25 minutes, so over a table
    filled by the page alone the dashboard's "sessions completed" is the
    number of the caller's sessions completed today, and its focus minutes
    are 25 times that number. *)
Theorem sessions_completed_counts_sessions
  (evs : list (Env * Event)) (w : World)
  (de : DashboardStats.Env) (st : DashboardStats.Stats) (u : string) :
  pomodoro_sessions w = [] ->
  DashboardStats.sessions de = pomodoro_sessions (snd (run evs (initial, w))) ->
  DashboardStats.auth_user de = Some u ->
  DashboardStats.sessions_fail de = false ->
  let today_done :=
    filter (fun r => (user_id r =? u)%string && completed r
                     && (DashboardStats.start_of_today de <=? started_at r))
      (DashboardStats.sessions de) in
  Forall (fun r => duration r = 25) (DashboardStats.sessions de)
  /\ DashboardStats.focusMinutes (DashboardStats.loadStats de st)
     = 25 * Z.of_nat (List.length today_done)
  /\ DashboardStats.sessionsCompleted (DashboardStats.loadStats de st)
     = Z.of_nat (List.length today_done).
Proof.
  intros Hempty Htable Hu Hfail today_done.
  assert (Hall : Forall (fun r => duration r = 25) (DashboardStats.sessions de)).
  { rewrite Htable.
    apply run_lengths; [apply initial_core | apply initial_core |].
    cbn [snd]. rewrite Hempty. constructor. }
  assert (Hfocus : DashboardStats.focusMinutes (DashboardStats.loadStats de st)
                   = 25 * Z.of_nat (List.length today_done)).
  { unfold DashboardStats.loadStats. rewrite Hu. cbn [DashboardStats.focusMinutes].
    unfold DashboardStats.select_sessions, Supabase.answer. rewrite Hfail.
    cbn [DashboardStats.totalMinutes]. rewrite sum_of_map.
    apply sum_of_equal. apply Forall_forall. intros r Hr.
    apply filter_In in Hr. rewrite Forall_forall in Hall. apply Hall, Hr. }
  split; [exact Hall |]. split; [exact Hfocus |].
  unfold DashboardStats.sessionsCompleted, Js.floor_div. rewrite Hfocus.
  rewrite Z.mul_comm. apply Z.div_mul. lia.
Qed.

Lemma sort_head_least {A} (key : A -> Z) (l : list A) (y : A) (rest : list A) :
  Js.sort (fun a b => key a <=? key b) l = y :: rest ->
  forall x, In x l -> key y <= key x.
Proof.
  revert y rest. induction l as [|a l IH]; intros y rest Hs x Hx; [contradiction |].
  cbn [Js.sort] in Hs.
  destruct (Js.sort (fun a b => key a <=? key b) l) as [|y' rest'] eqn:Hl.
  - assert (l = []) by (apply Permutation_nil; rewrite <- Hl at 1;
                          apply sort_perm).
    subst l. cbn in Hs. injection Hs as <- _. destruct Hx as [<- | []]. lia.
  - cbn [Js.insert_sorted] in Hs.
    pose proof (IH y' rest' eq_refl) as Hmin.
    destruct (Z.leb_spec (key a) (key y')) as [Hle | Hgt]; injection Hs as <- _.
    + destruct Hx as [<- | Hx]; [lia | specialize (Hmin x Hx); lia].
    + destruct Hx as [<- | Hx]; [lia | exact (Hmin x Hx)].
Qed.

(** X11: when the exams query answers, the "Next Exam" card holds an exam
    of the caller dated at or after the reading of the clock and no later
    than any other such exam; it is empty exactly when the caller has no
    such exam. *)
Theorem nextExam_is_the_earliest
  (e : DashboardStats.Env) (st : DashboardStats.Stats) (u : string) :
  DashboardStats.auth_user e = Some u ->
  DashboardStats.exams_fail e = false ->
  match DashboardStats.nextExam (DashboardStats.loadStats e st) with
  | Some y =>
      In y (DashboardStats.exams e) /\ Exam.user_id y = u
      /\ DashboardStats.clock e 1%nat <= Exam.exam_date y
      /\ (forall x, In x (DashboardStats.exams e) -> Exam.user_id x = u ->
            DashboardStats.clock e 1%nat <= Exam.exam_date x ->
            Exam.exam_date y <= Exam.exam_date x)
  | None =>
      forall x, In x (DashboardStats.exams e) -> Exam.user_id x = u ->
        Exam.exam_date x < DashboardStats.clock e 1%nat
  end.
Proof.
  intros Hu Hfail. unfold DashboardStats.loadStats. rewrite Hu.
  cbn [DashboardStats.nextExam].
  unfold DashboardStats.select_exams, Supabase.answer. rewrite Hfail.
  cbn [DashboardStats.first_or_null].
  set (upcoming := filter _ (DashboardStats.exams e)).
  assert (Hin : forall x, In x upcoming <->
                  In x (DashboardStats.exams e) /\ Exam.user_id x = u
                  /\ DashboardStats.clock e 1%nat <= Exam.exam_date x).
  { intros x. unfold upcoming. rewrite filter_In, andb_true_iff, String.eqb_eq, Z.leb_le.
    tauto. }
  destruct (Js.sort _ upcoming) as [|y rest] eqn:Hs; cbn [firstn hd_error].
  - intros x Hx Hxu.
    assert (upcoming = []) by (apply Permutation_nil; rewrite <- Hs at 1;
                                 apply sort_perm).
    destruct (Z.lt_ge_cases (Exam.exam_date x) (DashboardStats.clock e 1%nat))
      as [Hlt | Hge]; [exact Hlt | exfalso].
    assert (Hmem : In x upcoming) by (apply Hin; tauto).
    rewrite H in Hmem. exact Hmem.
  - assert (Hy : In y upcoming).
    { apply (Permutation_in _ (sort_perm (fun a b => Exam.exam_date a <=? Exam.exam_date b) upcoming)).
      rewrite Hs. left. reflexivity. }
    apply Hin in Hy. destruct Hy as [Hy1 [Hy2 Hy3]].
    repeat split; try assumption.
    intros x Hx Hxu Hxd. apply (sort_head_least Exam.exam_date upcoming y rest Hs).
    apply Hin. tauto.
Qed.

End DisplayFacts.

(** * More on the notification feed *)

Section FeedFacts.
Import Header.

(** The task behind a notification id of one of the two task sources. *)
Lemma overdue_id_source (e : Env) (h : State) (u : string) (t : Task.t) :
  auth_user e = Some u -> NoDup (map Task.id (tasks e)) -> In t (tasks e) ->
  In ("overdue-" ++ Task.id t)%string (ids (notifications (loadNotifications e h))) ->
  In t (overdue_seen e u).
Proof.
  intros Hauth Hnd Ht Hin. rewrite (loadNotifications_ids e h u Hauth) in Hin.
  apply in_app_or in Hin. destruct Hin as [Hin | Hin];
    [apply in_map_iff in Hin; destruct Hin as [b [Hb _]]; discriminate Hb |].
  apply in_app_or in Hin. destruct Hin as [Hin | Hin];
    [| apply in_map_iff in Hin; destruct Hin as [b [Hb _]]; discriminate Hb].
  apply in_map_iff in Hin. destruct Hin as [i [Hi Hin]].
  apply append_inj in Hi. subst i.
  apply in_map_iff in Hin. destruct Hin as [y [Hy Hin]].
  assert (y = t)
    by (eapply unique_key_row; [exact Hnd | eapply overdue_seen_incl, Hin | exact Ht | exact Hy]).
  subst y. exact Hin.
Qed.

Lemma upcoming_id_source (e : Env) (h : State) (u : string) (t : Task.t) :
  auth_user e = Some u -> NoDup (map Task.id (tasks e)) -> In t (tasks e) ->
  In ("upcoming-" ++ Task.id t)%string (ids (notifications (loadNotifications e h))) ->
  In t (upcoming_seen e u).
Proof.
  intros Hauth Hnd Ht Hin. rewrite (loadNotifications_ids e h u Hauth) in Hin.
  apply in_app_or in Hin. destruct Hin as [Hin | Hin];
    [apply in_map_iff in Hin; destruct Hin as [b [Hb _]]; discriminate Hb |].
  apply in_app_or in Hin. destruct Hin as [Hin | Hin];
    [apply in_map_iff in Hin; destruct Hin as [b [Hb _]]; discriminate Hb |].
  apply in_map_iff in Hin. destruct Hin as [i [Hi Hin]].
  apply append_inj in Hi. subst i.
  apply in_map_iff in Hin. destruct Hin as [y [Hy Hin]].
  assert (y = t)
    by (eapply unique_key_row; [exact Hnd | eapply upcoming_seen_incl, Hin | exact Ht | exact Hy]).
  subst y. exact Hin.
Qed.

(** X12: a pass never stores more than fifteen notifications, five at most
    from each query, and the unread count it sets lies between 0 and 15. *)
Theorem at_most_fifteen_notifications (e : Env) (h : State) (u : string) :
  auth_user e = Some u ->
  (List.length (exams_seen e u) <= 5)%nat
  /\ (List.length (overdue_seen e u) <= 5)%nat
  /\ (List.length (upcoming_seen e u) <= 5)%nat
  /\ List.length (notifications (loadNotifications e h))
     = (List.length (exams_seen e u) + List.length (overdue_seen e u)
        + List.length (upcoming_seen e u))%nat
  /\ 0 <= unreadCount (loadNotifications e h) <= 15.
Proof.
  intros Hauth.
  assert (He : (List.length (exams_seen e u) <= 5)%nat).
  { unfold exams_seen, select_exams, Supabase.answer, exam_rows.
    destruct (exams_fail e); cbn [Supabase.rows_or_empty List.length];
      [lia | apply firstn_le_length]. }
  assert (Ho : (List.length (overdue_seen e u) <= 5)%nat).
  { unfold overdue_seen, select_overdue, Supabase.answer, overdue_rows.
    destruct (overdue_fail e); cbn [Supabase.rows_or_empty List.length];
      [lia | apply firstn_le_length]. }
  assert (Hp : (List.length (upcoming_seen e u) <= 5)%nat).
  { unfold upcoming_seen, select_upcoming, Supabase.answer, upcoming_rows.
    destruct (upcoming_fail e); cbn [Supabase.rows_or_empty List.length];
      [lia | apply firstn_le_length]. }
  assert (Hlen : List.length (notifications (loadNotifications e h))
                 = (List.length (exams_seen e u) + List.length (overdue_seen e u)
                    + List.length (upcoming_seen e u))%nat).
  { rewrite (loadNotifications_shape e h u Hauth).
    rewrite !length_app, !stamped_length, length_map. lia. }
  repeat split; try assumption.
  - unfold loadNotifications. rewrite Hauth. cbn. lia.
  - assert (Hc : unreadCount (loadNotifications e h)
                 = Z.of_nat (List.length (notifications (loadNotifications e h))))
      by (unfold loadNotifications; rewrite Hauth; reflexivity).
    rewrite Hc, Hlen. lia.
Qed.

(** X13: with ids unique in the tasks table, a task that is completed,
    belongs to somebody else or has no due date has neither an overdue nor
    an upcoming notification. *)
Theorem completed_tasks_never_notified
  (e : Env) (h : State) (u : string) (t : Task.t) :
  auth_user e = Some u ->
  NoDup (map Task.id (tasks e)) ->
  In t (tasks e) ->
  Task.completed t = true \/ Task.user_id t <> u \/ Task.due_date t = None ->
  ~ In ("overdue-" ++ Task.id t)%string (ids (notifications (loadNotifications e h)))
  /\ ~ In ("upcoming-" ++ Task.id t)%string
        (ids (notifications (loadNotifications e h))).
Proof.
  intros Hauth Hnd Ht Hout. split; intros Hin.
  - apply (overdue_id_source e h u t Hauth Hnd Ht) in Hin.
    apply overdue_seen_spec in Hin. destruct Hin as [_ [Hu [Hc [d [Hd _]]]]].
    destruct Hout as [H | [H | H]]; congruence.
  - apply (upcoming_id_source e h u t Hauth Hnd Ht) in Hin.
    apply upcoming_seen_spec in Hin. destruct Hin as [_ [Hu [Hc [d [Hd _]]]]].
    destruct Hout as [H | [H | H]]; congruence.
Qed.

(** X14: with ids unique in the tasks table and a clock that does not go
    back between the overdue query and the upcoming query, no task is
    notified both as overdue and as upcoming in one pass; an overdue one
    was due before the reading of its query, an upcoming one is due from
    the reading of its query to seven local calendar days after the reading
    taken for that bound. *)
Theorem task_overdue_or_upcoming_not_both
  (e : Env) (h : State) (u : string) (t : Task.t) :
  auth_user e = Some u ->
  NoDup (map Task.id (tasks e)) ->
  In t (tasks e) ->
  clock e 1%nat <= clock e 3%nat ->
  let out := ids (notifications (loadNotifications e h)) in
  (In ("overdue-" ++ Task.id t)%string out ->
     exists d, Task.due_date t = Some d /\ d < clock e 1%nat)
  /\ (In ("upcoming-" ++ Task.id t)%string out ->
       exists d, Task.due_date t = Some d
                 /\ clock e 3%nat <= d
                    <= LocalTime.add_days (zone e) 7 (clock e 2%nat))
  /\ ~ (In ("overdue-" ++ Task.id t)%string out
        /\ In ("upcoming-" ++ Task.id t)%string out).
Proof.
  intros Hauth Hnd Ht Hclock out. subst out.
  assert (Ho : In ("overdue-" ++ Task.id t)%string
                 (ids (notifications (loadNotifications e h))) ->
               exists d, Task.due_date t = Some d /\ d < clock e 1%nat).
  { intros Hin. apply (overdue_id_source e h u t Hauth Hnd Ht) in Hin.
    apply overdue_seen_spec in Hin. tauto. }
  assert (Hp : In ("upcoming-" ++ Task.id t)%string
                 (ids (notifications (loadNotifications e h))) ->
               exists d, Task.due_date t = Some d
                         /\ clock e 3%nat <= d
                    <= LocalTime.add_days (zone e) 7 (clock e 2%nat)).
  { intros Hin. apply (upcoming_id_source e h u t Hauth Hnd Ht) in Hin.
    apply upcoming_seen_spec in Hin. tauto. }
  split; [exact Ho |]. split; [exact Hp |].
  intros [H1 H2]. destruct (Ho H1) as [d [Hd Hlt]]. destruct (Hp H2) as [d' [Hd' Hge]].
  assert (d' = d) by congruence. subst d'. lia.
Qed.

Lemma removeNotification_keeps_order (id : string) (h : State) :
  NoDup (ids (notifications h)) ->
  unreadCount h <= Z.of_nat (List.length (notifications h)) ->
  NoDup (ids (notifications (removeNotification id h)))
  /\ unreadCount (removeNotification id h)
     <= Z.of_nat (List.length (notifications (removeNotification id h))).
Proof.
  intros Hnd Hle. split.
  - cbn [removeNotification notifications]. unfold ids.
    apply unique_key_filter. exact Hnd.
  - destruct (in_dec string_dec id (ids (notifications h))) as [Hin | Hout].
    + destruct (filter_drops_the_one id (notifications h) Hnd Hin)
        as [l1 [n [l2 [Hl [_ Hf]]]]].
      cbn [removeNotification notifications unreadCount]. rewrite Hf.
      rewrite Hl in Hle. rewrite length_app in *. cbn [List.length] in Hle. lia.
    + cbn [removeNotification notifications unreadCount].
      rewrite (filter_other_ids id (notifications h) Hout). lia.
Qed.

(** X15: after a pass over tables with unique ids and any dismissals, by
    ids in the list or not, the unread count never exceeds the number of
    notifications left: the bell shows no dot over an empty list. *)
Theorem unread_count_at_most_list_length
  (e : Env) (h0 : State) (u : string) (dismissed : list string) :
  auth_user e = Some u ->
  NoDup (map Exam.id (exams e)) ->
  NoDup (map Task.id (tasks e)) ->
  let h := fold_left (fun h id => removeNotification id h) dismissed
             (loadNotifications e h0) in
  0 <= unreadCount h <= Z.of_nat (List.length (notifications h))
  /\ (notifications h = [] -> unreadCount h = 0).
Proof.
  intros Hauth He Ht h.
  assert (Hinv : forall l s,
            NoDup (ids (notifications s)) ->
            0 <= unreadCount s <= Z.of_nat (List.length (notifications s)) ->
            0 <= unreadCount (fold_left (fun h id => removeNotification id h) l s)
              <= Z.of_nat (List.length
                   (notifications (fold_left (fun h id => removeNotification id h) l s)))).
  { induction l as [|id l IH]; intros s Hnd Hs; cbn [fold_left]; [exact Hs |].
    destruct (removeNotification_keeps_order id s Hnd (proj2 Hs)) as [Hnd' Hle'].
    apply IH; [exact Hnd' |]. split; [cbn; lia | exact Hle']. }
  assert (Hh : 0 <= unreadCount h <= Z.of_nat (List.length (notifications h))).
  { apply Hinv; [apply (loadNotifications_NoDup e h0 u Hauth He Ht) |].
    unfold loadNotifications. rewrite Hauth. cbn. lia. }
  split; [exact Hh |]. intros Hnil. rewrite Hnil in Hh. cbn in Hh. lia.
Qed.

End FeedFacts.

(** X16: after a toggle the theme is light or dark and differs from the one
    before, the class [dark] is set exactly for the dark theme, and the
    choice is stored: the mount effect run on that state restores it as it
    is. Two toggles from light or dark come back to the start. *)
Theorem theme_toggle_is_persisted (s : Theme.State) :
  let t := Theme.toggleTheme s in
  (Theme.theme t = "light" \/ Theme.theme t = "dark")
  /\ Theme.theme t <> Theme.theme s
  /\ Theme.dark_class t = (Theme.theme t =? "dark")%string
  /\ Theme.stored t = Some (Theme.theme t)
  /\ Theme.mount t = t
  /\ (Theme.theme s = "light" \/ Theme.theme s = "dark" ->
      Theme.theme (Theme.toggleTheme t) = Theme.theme s).
Proof.
  cbv zeta. unfold Theme.toggleTheme, Theme.mount. cbn.
  destruct (String.eqb_spec (Theme.theme s) "light") as [Hl | Hl]; cbn.
  - repeat split; try reflexivity; try (right; reflexivity).
    + rewrite Hl. discriminate.
    + intros _. symmetry. exact Hl.
  - repeat split; try reflexivity; try (left; reflexivity).
    + intros H. apply Hl. symmetry. exact H.
    + intros [H | H]; [contradiction | symmetry; exact H].
Qed.

(** * More on the dashboard schedule *)

Section ScheduleFacts.
Import Dashboard ScheduleView.

Lemma filterM_sound {A} (pred : A -> Clock.M bool) (xs : list A) (k : nat) (x : A) :
  In x (fst (Clock.filterM pred xs k)) -> exists k', fst (pred x k') = true.
Proof.
  revert k. induction xs as [|y xs IH]; intros k; cbn; [tauto |].
  unfold Clock.bind. destruct (pred y k) as [keep k1] eqn:Hp.
  specialize (IH k1). destruct (Clock.filterM pred xs k1) as [rest k2].
  cbn in *. destruct keep; cbn; [intros [<- | H] |]; auto.
  exists k. rewrite Hp. reflexivity.
Qed.

Lemma filterM_length {A} (pred : A -> Clock.M bool) (xs : list A) (k : nat) :
  (List.length (fst (Clock.filterM pred xs k)) <= List.length xs)%nat.
Proof.
  revert k. induction xs as [|y xs IH]; intros k; cbn; [lia |].
  unfold Clock.bind. destruct (pred y k) as [keep k1].
  specialize (IH k1). destruct (Clock.filterM pred xs k1) as [rest k2].
  cbn in *. destruct keep; cbn; lia.
Qed.

Lemma insert_sorted_Sorted {A} (le : A -> A -> bool) (x : A) (l : list A) :
  (forall a b, le a b = true \/ le b a = true) ->
  Sorted.Sorted (fun a b => le a b = true) l ->
  Sorted.Sorted (fun a b => le a b = true) (Js.insert_sorted le x l).
Proof.
  intros Htot. induction 1 as [|y l Hs IH Hhd]; cbn.
  - repeat constructor.
  - destruct (le x y) eqn:Hxy.
    + constructor; [constructor; assumption | constructor; exact Hxy].
    + constructor; [exact IH |].
      assert (Hyx : le y x = true) by (destruct (Htot x y); congruence).
      destruct l as [|z l]; cbn.
      * constructor. exact Hyx.
      * destruct (le x z); constructor; [exact Hyx |].
        inversion Hhd; assumption.
Qed.

Lemma sort_Sorted {A} (le : A -> A -> bool) (l : list A) :
  (forall a b, le a b = true \/ le b a = true) ->
  Sorted.Sorted (fun a b => le a b = true) (Js.sort le l).
Proof.
  intros Htot. induction l as [|x l IH]; cbn.
  - constructor.
  - apply insert_sorted_Sorted; assumption.
Qed.

(** The schedule before it is stored: the kept tasks, then the kept exams,
    sorted by their time text. *)
Lemma schedule_shape (e : Env) (u : string) (k : nat) :
  exists (kept_tasks : list Task.t) (kept_exams : list Exam.t),
    fst (schedule e u k)
    = Js.sort (fun a b => String.leb (ScheduleItem.time a) (ScheduleItem.time b))
        (map (task_item e) kept_tasks ++ map (exam_item e) kept_exams)
    /\ (forall t, In t kept_tasks ->
          In t (Supabase.rows_or_empty (select_tasks e u))
          /\ exists k', fst (due_today_or_overdue e t k') = true)
    /\ (forall x, In x kept_exams ->
          In x (Supabase.rows_or_empty (select_exams e u (clock e (S k)))))
    /\ (List.length kept_exams <= 1)%nat.
Proof.
  unfold schedule. rewrite !bind_run. cbn [Clock.read fst snd].
  rewrite !forEach_pure. unfold Clock.ret. cbn [fst snd app].
  eexists. eexists. split; [reflexivity |]. split; [| split].
  - intros t Ht. split; [apply (filter_rows_incl _ _ _ _ Ht) |].
    unfold filter_rows in Ht. destruct (select_tasks e u); [| contradiction].
    apply (filterM_sound _ _ _ _ Ht).
  - intros x Hx. apply (filter_rows_incl _ _ _ _ Hx).
  - unfold filter_rows, select_exams, Supabase.answer.
    destruct (exams_fail e); [cbn; lia |].
    eapply Nat.le_trans; [apply filterM_length | apply firstn_le_length].
Qed.

(** X17: every task of the schedule is a task of the caller that is not
    completed and has a due date, shown at the local time of day of that
    date, read with the zone offset in force at that very instant (never as
    "No time" and never as completed); every exam of the schedule
    is an exam of the caller dated at or after the reading of the clock; and
    the schedule holds one exam at most. *)
Theorem schedule_holds_pending_tasks_and_one_exam
  (e : Env) (current : list ScheduleItem.t) (u : string) :
  auth_user e = Some u ->
  let items := loadDashboardData e current in
  (forall item, In item items -> is_exam item = false ->
     exists t d, In t (tasks e) /\ item = task_item e t
       /\ Task.user_id t = u /\ Task.completed t = false
       /\ Task.due_date t = Some d
       /\ ScheduleItem.time item = format_HHmm e d
       /\ ScheduleItem.completed item = Some false)
  /\ (forall item, In item items -> is_exam item = true ->
       exists x, In x (exams e) /\ item = exam_item e x
         /\ Exam.user_id x = u /\ clock e 1%nat <= Exam.exam_date x)
  /\ (List.length (filter is_exam items) <= 1)%nat.
Proof.
  intros Hauth items. subst items. unfold loadDashboardData. rewrite Hauth.
  destruct (schedule_shape e u 0) as [T [X [Hs [HT [HX Hlen]]]]]. rewrite Hs.
  assert (Hmem : forall item,
            In item (Js.sort (fun a b => String.leb (ScheduleItem.time a)
                                           (ScheduleItem.time b))
                       (map (task_item e) T ++ map (exam_item e) X)) ->
            (exists t, In t T /\ item = task_item e t)
            \/ (exists x, In x X /\ item = exam_item e x)).
  { intros item Hin. apply (Permutation_in _ (sort_perm _ _)) in Hin.
    apply in_app_or in Hin. destruct Hin as [Hin | Hin];
      apply in_map_iff in Hin; destruct Hin as [y [<- Hy]]; [left | right];
      exists y; tauto. }
  split; [| split].
  - intros item Hin Hkind.
    destruct (Hmem item Hin) as [[t [Ht ->]] | [x [_ ->]]]; [| discriminate Hkind].
    destruct (HT t Ht) as [Hrow [k' Hpred]].
    unfold select_tasks, Supabase.answer in Hrow.
    destruct (tasks_fail e); cbn [Supabase.rows_or_empty] in Hrow; [contradiction |].
    apply filter_In in Hrow. destruct Hrow as [Hin' Hp].
    apply andb_prop in Hp. destruct Hp as [Hu Hc].
    apply String.eqb_eq in Hu. apply negb_true_iff in Hc.
    unfold due_today_or_overdue in Hpred.
    destruct (Task.due_date t) as [d|] eqn:Hd; [| discriminate Hpred].
    exists t, d. repeat split; try assumption.
    + cbn. rewrite Hd. reflexivity.
    + cbn. rewrite Hc. reflexivity.
  - intros item Hin Hkind.
    destruct (Hmem item Hin) as [[t [_ ->]] | [x [Hx ->]]]; [discriminate Hkind |].
    specialize (HX x Hx). unfold select_exams, Supabase.answer in HX.
    destruct (exams_fail e); cbn [Supabase.rows_or_empty] in HX; [contradiction |].
    apply In_firstn in HX. apply (Permutation_in _ (sort_perm _ _)) in HX.
    apply filter_In in HX. destruct HX as [Hin' Hp].
    apply andb_prop in Hp. destruct Hp as [Hu Hd].
    apply String.eqb_eq in Hu. apply Z.leb_le in Hd.
    exists x. repeat split; assumption.
  - rewrite (Permutation_length (filter_reordered is_exam _ _ (sort_perm _ _))).
    rewrite filter_app, length_app.
    assert (H1 : filter is_exam (map (task_item e) T) = []).
    { clear. induction T as [|t T IH]; cbn; [reflexivity | exact IH]. }
    assert (H2 : (List.length (filter is_exam (map (exam_item e) X))
                  <= List.length X)%nat).
    { eapply Nat.le_trans; [apply filter_length_le | rewrite length_map; lia]. }
    rewrite H1. cbn. lia.
Qed.

Lemma clock_text_order (m1 m2 : Z) :
  0 <= m1 < 1440 -> 0 <= m2 < 1440 ->
  (String.leb (clock_text m1) (clock_text m2) = true <-> m1 <= m2).
Proof.
  intros H1 H2.
  assert (Hall :
    let table := map (fun n => (Z.of_nat n, clock_text (Z.of_nat n))) (seq 0 1440) in
    forallb (fun p =>
      forallb (fun q => Bool.eqb (String.leb (snd p) (snd q)) (fst p <=? fst q))
        table) table = true) by (vm_compute; reflexivity).
  cbv zeta in Hall. rewrite forallb_forall in Hall.
  assert (Hrow : forall m, 0 <= m < 1440 ->
            In (m, clock_text m)
              (map (fun n => (Z.of_nat n, clock_text (Z.of_nat n))) (seq 0 1440))).
  { intros m Hm. apply in_map_iff. exists (Z.to_nat m).
    rewrite Z2Nat.id by lia. split; [reflexivity | apply in_seq; lia]. }
  specialize (Hall _ (Hrow m1 H1)). rewrite forallb_forall in Hall.
  specialize (Hall _ (Hrow m2 H2)). cbn [fst snd] in Hall.
  apply Bool.eqb_prop in Hall. rewrite Hall. apply Z.leb_le.
Qed.

Lemma format_HHmm_clock_text (e : Env) (d : Z) :
  format_HHmm e d = clock_text (minute_of_day e d)
  /\ 0 <= minute_of_day e d < 1440.
Proof.
  unfold format_HHmm, clock_text, minute_of_day. cbv zeta.
  set (ms := (LocalTime.local (zone e) d) mod Js.ms_per_day).
  assert (Hms : 0 <= ms < Js.ms_per_day) by (apply Z.mod_pos_bound; reflexivity).
  split.
  - rewrite Z.div_div by lia. reflexivity.
  - split; [apply Z.div_pos; lia |].
    apply Z.div_lt_upper_bound; [lia |]. unfold Js.ms_per_day in Hms. lia.
Qed.

(** X18: the stored schedule is in the order of its time texts, and that
    order is the order of the minute of the local day, each instant read
    with the zone offset in force at it: of two instants, the one earlier
    in its day, whatever the day, comes first. *)
Theorem schedule_is_ordered_by_time_of_day
  (e : Env) (current : list ScheduleItem.t) (u : string) :
  auth_user e = Some u ->
  Sorted.Sorted time_le (loadDashboardData e current)
  /\ (forall d1 d2,
        String.leb (format_HHmm e d1) (format_HHmm e d2) = true
        <-> minute_of_day e d1 <= minute_of_day e d2).
Proof.
  intros Hauth. split.
  - unfold loadDashboardData. rewrite Hauth.
    destruct (schedule_shape e u 0) as [T [X [Hs _]]]. rewrite Hs.
    apply (sort_Sorted (fun a b => String.leb (ScheduleItem.time a) (ScheduleItem.time b))).
    intros a b. apply String.leb_total.
  - intros d1 d2.
    destruct (format_HHmm_clock_text e d1) as [-> H1].
    destruct (format_HHmm_clock_text e d2) as [-> H2].
    apply clock_text_order; assumption.
Qed.

End ScheduleFacts.

(** * The open session and the table *)

Section OpenSession.
Import Pomodoro PomodoroView.

Lemma kept_named (rows rows' : list SessionRow) (sid : string) :
  kept rows rows' -> In sid (map id rows) -> In sid (map id rows').
Proof.
  intros Hk Hin. apply in_map_iff in Hin. destruct Hin as [r [Hr Hin]].
  apply In_nth_error in Hin. destruct Hin as [i Hi].
  destruct (Hk i r Hi) as [r' [Hn' [Hid _]]].
  apply in_map_iff. exists r'. split; [congruence | eapply nth_error_In, Hn'].
Qed.

Lemma completeSession_session (e : Env) (c : Ctl) (w : World) :
  sessionId (fst (completeSession e c w)) = sessionId c
  \/ sessionId (fst (completeSession e c w)) = None.
Proof.
  unfold completeSession.
  destruct (negb (Js.truthy (sessionId c))); [left; reflexivity |].
  destruct (update_error e); [left; reflexivity |].
  right. cbn [fst]. rewrite (proj1 (proj2 (proj2 (loadSessions_fields e _ _)))).
  reflexivity.
Qed.

Lemma tickEffect_session (n : nat) (e : Env) (prev cur : Ctl) (w : World) :
  sessionId (fst (tickEffect n e prev cur w)) = sessionId cur
  \/ sessionId (fst (tickEffect n e prev cur w)) = None.
Proof.
  revert prev cur w. induction n as [|n IH]; intros prev cur w; [left; reflexivity |].
  rewrite tickEffect_S. cbv zeta.
  destruct (deps_changed prev cur); [| left; reflexivity].
  destruct (_ && _); [left; reflexivity |].
  destruct (_ && _); [| left; reflexivity].
  destruct (IH (clearInterval cur) (fst (completeSession e (clearInterval cur) w))
              (snd (completeSession e (clearInterval cur) w))) as [H | H];
    [| right; exact H].
  rewrite H. apply (completeSession_session e (clearInterval cur) w).
Qed.

Lemma handle_session (e : Env) (ev : Event) (c : Ctl) (w : World) (sid : string) :
  sessionId (fst (handle e ev c w)) = Some sid ->
  sessionId c = Some sid
  \/ In sid (map id (pomodoro_sessions (snd (handle e ev c w)))).
Proof.
  assert (Htoggle : sessionId (fst (toggleTimer e c w)) = Some sid ->
                    sessionId c = Some sid
                    \/ In sid (map id (pomodoro_sessions (snd (toggleTimer e c w))))).
  { unfold toggleTimer. destruct (_ && _); [| intros H; left; exact H].
    destruct (auth_user e); [| intros H; left; exact H].
    destruct (insert_result e); [| intros H; left; exact H].
    cbn. intros [= ->]. right. rewrite map_app. apply in_or_app. right. left.
    reflexivity. }
  destruct ev as [| | |code]; cbn [handle fst snd].
  - exact Htoggle.
  - intros H. discriminate H.
  - unfold tick. destruct (interval_live c); intros H; left; exact H.
  - destruct (code =? "Space")%string; [exact Htoggle |].
    destruct (code =? "KeyR")%string; intros H; [discriminate H | left; exact H].
Qed.

Lemma step_session (e : Env) (ev : Event) (s : Ctl * World) :
  (forall sid, sessionId (fst s) = Some sid ->
     In sid (map id (pomodoro_sessions (snd s)))) ->
  forall sid, sessionId (fst (step e ev s)) = Some sid ->
    In sid (map id (pomodoro_sessions (snd (step e ev s)))).
Proof.
  destruct s as [c w]. cbn [fst snd]. intros Hinv sid. unfold step.
  pose proof (handle_session e ev c w sid) as Hh.
  pose proof (proj1 (handle_rows e ev c w)) as Hk.
  destruct (handle e ev c w) as [c1 w1]. cbn [fst snd] in *.
  pose proof (proj1 (tickEffect_rows renders e c c1 w1)) as Hk'.
  intros Hs.
  destruct (tickEffect_session renders e c c1 w1) as [Heq | Hnone];
    [| congruence].
  rewrite Heq in Hs. apply (kept_named _ _ sid Hk').
  destruct (Hh Hs) as [Hc | Hin]; [| exact Hin].
  apply (kept_named _ _ sid Hk), Hinv, Hc.
Qed.

(** X19: in every state reached after the mount, the session id the page
    holds is the id of a row of the table. *)
Theorem open_session_names_a_row
  (evs : list (Env * Event)) (w : World) (sid : string) :
  sessionId (fst (run evs (initial, w))) = Some sid ->
  exists row, In row (pomodoro_sessions (snd (run evs (initial, w))))
              /\ id row = sid.
Proof.
  assert (Hinv : forall l s,
            (forall i, sessionId (fst s) = Some i ->
               In i (map id (pomodoro_sessions (snd s)))) ->
            forall i, sessionId (fst (run l s)) = Some i ->
              In i (map id (pomodoro_sessions (snd (run l s))))).
  { induction l as [|[e ev] l IH]; intros s Hs; cbn [run]; [exact Hs |].
    apply IH, step_session, Hs. }
  intros H. apply (Hinv evs (initial, w)) in H.
  - apply in_map_iff in H. destruct H as [row [Hid Hin]]. exists row. tauto.
  - cbn. intros i Hi. discriminate Hi.
Qed.

End OpenSession.

(** * The tags of a note *)

Section TagFacts.
Import NoteForm.

Lemma split_pieces_clean (sep : N) (s : text) (piece : text) :
  In piece (split sep s) -> ~ In sep piece.
Proof.
  revert piece. induction s as [|u s IH]; intros piece; cbn [split].
  - intros [<- | []] H. exact H.
  - destruct (N.eqb_spec u sep) as [-> | Hne].
    + intros [<- | Hin]; [intros H; exact H | apply IH, Hin].
    + destruct (split sep s) as [|first rest] eqn:Hs.
      * intros [<- | []] [H | []]. congruence.
      * intros [<- | Hin].
        -- intros [H | H]; [congruence |]. apply (IH first); [left; reflexivity | exact H].
        -- apply IH. right. exact Hin.
Qed.

Lemma split_pieces_from_input (sep : N) (s : text) (piece : text) (u : N) :
  In piece (split sep s) -> In u piece -> In u s.
Proof.
  revert piece. induction s as [|v s IH]; intros piece; cbn [split].
  - intros [<- | []] H. exact H.
  - destruct (N.eqb_spec v sep) as [-> | Hne].
    + intros [<- | Hin] Hu; [contradiction | right; eapply IH; eassumption].
    + destruct (split sep s) as [|first rest] eqn:Hs.
      * intros [<- | []] [-> | []]. left. reflexivity.
      * intros [<- | Hin] Hu.
        -- destruct Hu as [-> | Hu]; [left; reflexivity |].
           right. apply (IH first); [left; reflexivity | exact Hu].
        -- right. apply (IH piece); [right; exact Hin | exact Hu].
Qed.

Lemma split_covers_input (sep : N) (s : text) (u : N) :
  In u s -> u = sep \/ exists piece, In piece (split sep s) /\ In u piece.
Proof.
  induction s as [|v s IH]; cbn [split In]; [contradiction |].
  intros Hin. destruct (N.eqb_spec v sep) as [-> | Hne].
  - destruct Hin as [<- | Hin]; [left; reflexivity |].
    destruct (IH Hin) as [H | [piece [Hp Hu]]]; [left; exact H |].
    right. exists piece. split; [right; exact Hp | exact Hu].
  - destruct (split sep s) as [|first rest] eqn:Hs.
    + destruct Hin as [<- | Hin].
      * right. exists [v]. split; left; reflexivity.
      * destruct (IH Hin) as [H | [piece [[] _]]]. left. exact H.
    + destruct Hin as [<- | Hin].
      * right. exists (v :: first). split; left; reflexivity.
      * destruct (IH Hin) as [H | [piece [[<- | Hp] Hu]]]; [left; exact H | |].
        -- right. exists (v :: first). split; [left; reflexivity | right; exact Hu].
        -- right. exists piece. split; [right; exact Hp | exact Hu].
Qed.

(** [trimStart] drops a run of white space and stops at the first other
    code unit. *)
Lemma trimStart_spec (s : text) :
  exists blank, s = blank ++ trimStart s
    /\ Forall (fun u => is_white_space u = true) blank
    /\ (forall u rest, trimStart s = u :: rest -> is_white_space u = false).
Proof.
  induction s as [|v s [blank [Hs [Hb Hhd]]]]; cbn [trimStart].
  - exists []. repeat split; [constructor | intros u rest H; discriminate H].
  - destruct (is_white_space v) eqn:Hv.
    + exists (v :: blank). cbn. rewrite <- Hs. repeat split; [constructor; assumption | exact Hhd].
    + exists []. repeat split; [constructor |]. intros u rest [= <- _]. exact Hv.
Qed.

Lemma trimStart_blank (s : text) :
  trimStart s = [] <-> Forall (fun u => is_white_space u = true) s.
Proof.
  induction s as [|v s IH]; cbn [trimStart].
  - split; [constructor | reflexivity].
  - destruct (is_white_space v) eqn:Hv.
    + rewrite IH. split; [constructor; assumption | intros H; inversion H; assumption].
    + split; [discriminate | intros H; inversion H; congruence].
Qed.

Lemma trim_spec (s : text) :
  (forall u, In u (trim s) -> In u s)
  /\ (forall u rest, trim s = u :: rest -> is_white_space u = false)
  /\ (forall u front, trim s = front ++ [u] -> is_white_space u = false)
  /\ (trim s = [] <-> Forall (fun u => is_white_space u = true) s).
Proof.
  unfold trim, trimEnd.
  destruct (trimStart_spec s) as [blank [Hs [Hb Hhd]]].
  set (t := trimStart s) in *.
  destruct (trimStart_spec (rev t)) as [tail [Ht [Htb Hthd]]].
  assert (Hpre : t = rev (trimStart (rev t)) ++ rev tail).
  { rewrite <- rev_app_distr, <- Ht, rev_involutive. reflexivity. }
  split; [| split; [| split]].
  - intros u Hu. rewrite Hs. apply in_or_app. right.
    rewrite Hpre. apply in_or_app. left. exact Hu.
  - intros u rest Hr. apply (Hhd u (rest ++ rev tail)).
    rewrite Hpre at 1. rewrite Hr. reflexivity.
  - intros u front Hr. apply (Hthd u (rev front)).
    rewrite <- (rev_involutive (trimStart (rev t))), Hr, rev_app_distr. reflexivity.
  - split.
    + intros Hnil. apply trimStart_blank.
      assert (Hrt : trimStart (rev t) = [])
        by (rewrite <- (rev_involutive (trimStart (rev t))), Hnil; reflexivity).
      apply trimStart_blank in Hrt.
      destruct t as [|u rest] eqn:Heq; [exact Heq | exfalso].
      assert (Hu : is_white_space u = true).
      { rewrite Forall_forall in Hrt. apply Hrt. apply -> in_rev. left. reflexivity. }
      rewrite (Hhd u rest eq_refl) in Hu. discriminate Hu.
    + intros Hall. apply trimStart_blank in Hall. subst t. rewrite Hall. reflexivity.
Qed.

(** X20: every tag sent with a new note is non-empty, holds no comma, and
    neither starts nor ends with white space; every code unit of a tag comes
    from the field. No tags are sent ([null]) exactly when the field holds
    nothing but commas and white space. *)
Theorem tags_are_trimmed_and_non_empty (input : text) :
  match parseTags input with
  | Some tags =>
      tags <> []
      /\ forall tag, In tag tags ->
           tag <> [] /\ ~ In comma tag
           /\ (forall u, In u tag -> In u input)
           /\ (forall u rest, tag = u :: rest -> is_white_space u = false)
           /\ (forall u front, tag = front ++ [u] -> is_white_space u = false)
  | None =>
      forall u, In u input -> u = comma \/ is_white_space u = true
  end.
Proof.
  unfold parseTags. cbv zeta.
  set (tags := filter (fun tag => (0 <? List.length tag)%nat)
                 (map trim (split comma input))).
  assert (Htag : forall tag, In tag tags ->
            tag <> [] /\ exists piece, In piece (split comma input) /\ tag = trim piece).
  { intros tag Hin. apply filter_In in Hin. destruct Hin as [Hin Hlen].
    apply in_map_iff in Hin. destruct Hin as [piece [<- Hp]].
    split; [| exists piece; tauto].
    intros Hnil. rewrite Hnil in Hlen. discriminate Hlen. }
  destruct tags as [|first rest] eqn:Htags; cbn [List.length Nat.ltb Nat.leb].
  - intros u Hu.
    destruct (split_covers_input comma input u Hu) as [H | [piece [Hp Hup]]];
      [left; exact H | right].
    assert (Hblank : trim piece = []).
    { destruct (trim piece) as [|v t] eqn:Ht; [reflexivity | exfalso].
      assert (Hin : In (v :: t) tags).
      { apply filter_In. split; [| reflexivity].
        apply in_map_iff. exists piece. tauto. }
      rewrite Htags in Hin. exact Hin. }
    apply (proj2 (proj2 (proj2 (trim_spec piece)))) in Hblank.
    rewrite Forall_forall in Hblank. apply Hblank, Hup.
  - split; [discriminate |]. intros tag Hin.
    destruct (Htag tag Hin) as [Hne [piece [Hp ->]]].
    destruct (trim_spec piece) as [Hsub [Hhd [Hlast _]]].
    split; [exact Hne |]. split; [| split; [| split]].
    + intros Hc. apply (split_pieces_clean comma input piece Hp), Hsub, Hc.
    + intros u Hu. apply (split_pieces_from_input comma input piece u Hp), Hsub, Hu.
    + exact Hhd.
    + exact Hlast.
Qed.

End TagFacts.

(** * The further properties at concrete inputs *)

Lemma no_session_means_stopped_and_full_witness :
  Pomodoro.sessionId
    (fst (Pomodoro.run MoreExamples.start_then_reset
            (Pomodoro.initial, Examples.world0))) = None
  /\ Pomodoro.isRunning
       (fst (Pomodoro.run MoreExamples.start_then_reset
               (Pomodoro.initial, Examples.world0))) = false.
Proof.
  assert (H : Pomodoro.sessionId
                (fst (Pomodoro.run MoreExamples.start_then_reset
                        (Pomodoro.initial, Examples.world0))) = None)
    by reflexivity.
  split; [exact H |].
  exact (proj1 (no_session_means_stopped_and_full MoreExamples.start_then_reset
                  Examples.world0 H)).
Defined.

Lemma last_tick_closes_the_session_witness :
  Pomodoro.update_error Examples.env_ok = None
  /\ Pomodoro.sessionId
       (fst (Pomodoro.step Examples.env_ok Pomodoro.Tick
               (Examples.last_second, Examples.world1))) = None.
Proof.
  split; [reflexivity |].
  assert (Hne : "s1" <> "") by discriminate.
  exact (proj1 (proj2 (proj2
    (last_tick_closes_the_session Examples.env_ok Examples.last_second
       Examples.world1 "s1" eq_refl eq_refl eq_refl eq_refl Hne eq_refl)))).
Defined.

Lemma failed_completion_waits_for_retry_witness :
  Pomodoro.update_error MoreExamples.env_update_fails = Some "offline"
  /\ Pomodoro.timeLeft
       (fst (Pomodoro.step MoreExamples.env_update_fails Pomodoro.Tick
               (Examples.last_second, Examples.world1))) = 0.
Proof.
  split; [reflexivity |].
  assert (Hne : "s1" <> "") by discriminate.
  exact (proj1 (proj2
    (failed_completion_waits_for_retry MoreExamples.env_update_fails
       Examples.env_signed_out Examples.env_ok Examples.last_second Examples.world1
       "s1" "offline" eq_refl eq_refl eq_refl eq_refl Hne eq_refl eq_refl))).
Defined.

Lemma full_countdown_completes_once_witness :
  Pomodoro.Idle Pomodoro.initial
  /\ Pomodoro.completeSession_calls
       (snd (Pomodoro.run
               ((Examples.env_ok, Pomodoro.Toggle)
                  :: PomodoroView.ticks Examples.env_ok
                       (Z.to_nat (Pomodoro.c_duration Pomodoro.initial)))
               (Pomodoro.initial, Examples.world0)))
     = S (Pomodoro.completeSession_calls Examples.world0).
Proof.
  assert (Hidle : Pomodoro.Idle Pomodoro.initial) by (split; reflexivity).
  assert (Hne : "s1" <> "") by discriminate.
  split; [exact Hidle |].
  exact (proj1 (proj2 (proj2 (proj2 (proj2
    (full_countdown_completes_once Examples.env_ok Pomodoro.initial Examples.world0
       "u1" "s1" Hidle eq_refl eq_refl eq_refl eq_refl Hne eq_refl)))))).
Defined.

Lemma pause_holds_the_countdown_witness :
  Pomodoro.isRunning MoreExamples.running_mid = true
  /\ Pomodoro.timeLeft
       (fst (Pomodoro.step Examples.env_insert_fails Pomodoro.Toggle
               (Pomodoro.step Examples.env_signed_out Pomodoro.Toggle
                  (MoreExamples.running_mid, Examples.world1))))
     = Pomodoro.timeLeft MoreExamples.running_mid.
Proof.
  split; [reflexivity |].
  assert (Hne : "s1" <> "") by discriminate.
  exact (proj1 (proj2 (proj2 (proj2 (proj2 (proj2 (proj2 (proj2 (proj2 (proj2
    (pause_holds_the_countdown Examples.env_signed_out Examples.env_insert_fails
       MoreExamples.running_mid Examples.world1 "s1"
       eq_refl eq_refl Hne eq_refl))))))))))).
Defined.

Lemma formatTime_is_MM_SS_witness :
  0 <= 1500 < 6000
  /\ String.length (PomodoroView.formatTime 1500) = 5%nat.
Proof.
  assert (Ha : 0 <= 1500 < 6000) by (split; [discriminate | reflexivity]).
  assert (Hb : 0 <= 90 < 6000) by (split; [discriminate | reflexivity]).
  split; [exact Ha |].
  exact (proj1 (formatTime_is_MM_SS 1500 90 Ha Hb)).
Defined.

Lemma focus_totals_agree_witness :
  Pomodoro.auth_user Examples.env_ok = Some "u1"
  /\ DashboardStats.focusMinutes
       (DashboardStats.loadStats MoreExamples.cards1 DashboardStats.initial)
     = PomodoroView.totalFocus
         (Pomodoro.sessions
            (Pomodoro.loadSessions Examples.env_ok Pomodoro.initial
               MoreExamples.world_done)).
Proof.
  split; [reflexivity |].
  exact (focus_totals_agree Examples.env_ok Pomodoro.initial MoreExamples.world_done
           MoreExamples.cards1 DashboardStats.initial "u1"
           eq_refl eq_refl eq_refl eq_refl eq_refl eq_refl).
Defined.

Lemma sessions_completed_counts_sessions_witness :
  Pomodoro.pomodoro_sessions Examples.world0 = []
  /\ Forall (fun r => Pomodoro.duration r = 25)
       (DashboardStats.sessions MoreExamples.cards).
Proof.
  split; [reflexivity |].
  exact (proj1
    (sessions_completed_counts_sessions MoreExamples.start_only Examples.world0
       MoreExamples.cards DashboardStats.initial "u1"
       eq_refl eq_refl eq_refl eq_refl)).
Defined.

Lemma nextExam_is_the_earliest_witness :
  DashboardStats.auth_user MoreExamples.cards = Some "u1"
  /\ match DashboardStats.nextExam
             (DashboardStats.loadStats MoreExamples.cards DashboardStats.initial) with
     | Some y => Exam.user_id y = "u1"
     | None => False
     end.
Proof.
  split; [reflexivity |].
  pose proof (nextExam_is_the_earliest MoreExamples.cards DashboardStats.initial "u1"
                eq_refl eq_refl) as H.
  destruct (DashboardStats.nextExam
              (DashboardStats.loadStats MoreExamples.cards DashboardStats.initial))
    as [y|] eqn:Hy.
  - exact (proj1 (proj2 H)).
  - discriminate Hy.
Defined.

Lemma at_most_fifteen_notifications_witness :
  Header.auth_user Examples.six_exams = Some "u1"
  /\ 0 <= Header.unreadCount
            (Header.loadNotifications Examples.six_exams Header.initial) <= 15.
Proof.
  split; [reflexivity |].
  exact (proj2 (proj2 (proj2 (proj2
    (at_most_fifteen_notifications Examples.six_exams Header.initial "u1" eq_refl))))).
Defined.

Lemma completed_tasks_never_notified_witness :
  Task.completed MoreExamples.done_task = true
  /\ ~ In "overdue-t3"
        (Header.ids (Header.notifications
           (Header.loadNotifications MoreExamples.feed_with_done Header.initial))).
Proof.
  split; [reflexivity |].
  assert (Ht : NoDup (map Task.id (Header.tasks MoreExamples.feed_with_done)))
    by distinct_ids.
  assert (Hin : In MoreExamples.done_task (Header.tasks MoreExamples.feed_with_done))
    by (right; right; left; reflexivity).
  exact (proj1
    (completed_tasks_never_notified MoreExamples.feed_with_done Header.initial "u1"
       MoreExamples.done_task eq_refl Ht Hin (or_introl eq_refl))).
Defined.

Lemma task_overdue_or_upcoming_not_both_witness :
  Header.clock ZoneExamples.feed_autumn 1%nat
  <= Header.clock ZoneExamples.feed_autumn 3%nat
  /\ LocalTime.add_days ZoneExamples.new_york 7 ZoneExamples.oct31
     = ZoneExamples.oct31 + 169 * Examples.hour
  /\ In "upcoming-8"
       (Header.ids (Header.notifications
          (Header.loadNotifications ZoneExamples.feed_autumn Header.initial)))
  /\ (exists d,
        d = ZoneExamples.oct31 + 168 * Examples.hour + 1800000
        /\ Header.clock ZoneExamples.feed_autumn 3%nat <= d
           <= LocalTime.add_days ZoneExamples.new_york 7 ZoneExamples.oct31)
  /\ ~ (In "overdue-8"
          (Header.ids (Header.notifications
             (Header.loadNotifications ZoneExamples.feed_autumn Header.initial)))
        /\ In "upcoming-8"
             (Header.ids (Header.notifications
                (Header.loadNotifications ZoneExamples.feed_autumn Header.initial)))).
Proof.
  assert (Hclock : Header.clock ZoneExamples.feed_autumn 1%nat
                   <= Header.clock ZoneExamples.feed_autumn 3%nat)
    by discriminate.
  assert (Ht : NoDup (map Task.id (Header.tasks ZoneExamples.feed_autumn)))
    by distinct_ids.
  assert (Hin : In (Examples.task "8"
                      (ZoneExamples.oct31 + 168 * Examples.hour + 1800000))
                  (Header.tasks ZoneExamples.feed_autumn))
    by (right; left; reflexivity).
  assert (Hshown : In "upcoming-8"
                     (Header.ids (Header.notifications
                        (Header.loadNotifications ZoneExamples.feed_autumn
                           Header.initial))))
    by (vm_compute; tauto).
  destruct (task_overdue_or_upcoming_not_both ZoneExamples.feed_autumn
              Header.initial "u1"
              (Examples.task "8"
                 (ZoneExamples.oct31 + 168 * Examples.hour + 1800000))
              eq_refl Ht Hin Hclock) as [_ [Hup Hnot]].
  split; [exact Hclock |]. split; [vm_compute; reflexivity |].
  split; [exact Hshown |]. split; [| exact Hnot].
  destruct (Hup Hshown) as [d [Hd Hwin]].
  exists d. split; [| exact Hwin].
  injection Hd as <-. reflexivity.
Defined.

Lemma unread_count_at_most_list_length_witness :
  Header.auth_user Examples.feed = Some "u1"
  /\ Header.unreadCount
       (fold_left (fun h id => Header.removeNotification id h)
          ["exam-e1"; "exam-e1"; "nothing"]
          (Header.loadNotifications Examples.feed Header.initial))
     <= Z.of_nat (List.length (Header.notifications
          (fold_left (fun h id => Header.removeNotification id h)
             ["exam-e1"; "exam-e1"; "nothing"]
             (Header.loadNotifications Examples.feed Header.initial)))).
Proof.
  split; [reflexivity |].
  assert (He : NoDup (map Exam.id (Header.exams Examples.feed))) by distinct_ids.
  assert (Ht : NoDup (map Task.id (Header.tasks Examples.feed))) by distinct_ids.
  exact (proj2 (proj1
    (unread_count_at_most_list_length Examples.feed Header.initial "u1"
       ["exam-e1"; "exam-e1"; "nothing"] eq_refl He Ht))).
Defined.

Lemma schedule_holds_pending_tasks_and_one_exam_witness :
  Dashboard.auth_user ZoneExamples.day_of_change = Some "u1"
  /\ map ScheduleItem.time
       (Dashboard.loadDashboardData ZoneExamples.day_of_change [])
     = ["09:30"; "10:00"; "10:15"]
  /\ (exists t d,
        In t (Dashboard.tasks ZoneExamples.day_of_change)
        /\ Task.id t = "t1"
        /\ Task.due_date t = Some d
        /\ Dashboard.format_HHmm ZoneExamples.day_of_change d = "10:00")
  /\ (List.length
        (filter ScheduleView.is_exam
           (Dashboard.loadDashboardData ZoneExamples.day_of_change [])) <= 1)%nat.
Proof.
  destruct (schedule_holds_pending_tasks_and_one_exam ZoneExamples.day_of_change
              [] "u1" eq_refl) as [Htasks [_ Hone]].
  split; [reflexivity |]. split; [vm_compute; reflexivity |].
  split; [| exact Hone].
  assert (Hin : In (Dashboard.task_item ZoneExamples.day_of_change
                      (Examples.task "t1" (ZoneExamples.fall_back - 16 * Examples.hour)))
                  (Dashboard.loadDashboardData ZoneExamples.day_of_change []))
    by (vm_compute; tauto).
  destruct (Htasks _ Hin eq_refl) as [t [d [Ht [Hitem [_ [_ [Hd [Htime _]]]]]]]].
  exists t, d. split; [exact Ht |]. split; [| split; [exact Hd |]].
  - change (ScheduleItem.id (Dashboard.task_item ZoneExamples.day_of_change t) = "t1").
    rewrite <- Hitem. reflexivity.
  - rewrite <- Htime. vm_compute. reflexivity.
Defined.

Lemma schedule_is_ordered_by_time_of_day_witness :
  Dashboard.auth_user ZoneExamples.day_of_change = Some "u1"
  /\ Sorted.Sorted ScheduleView.time_le
       (Dashboard.loadDashboardData ZoneExamples.day_of_change [])
  /\ ScheduleView.minute_of_day ZoneExamples.day_of_change
       (ZoneExamples.fall_back - 16 * Examples.hour) = 600
  /\ ScheduleView.minute_of_day ZoneExamples.day_of_change
       (ZoneExamples.fall_back + 33 * Examples.hour + 900000) = 615
  /\ String.leb
       (Dashboard.format_HHmm ZoneExamples.day_of_change
          (ZoneExamples.fall_back - 16 * Examples.hour))
       (Dashboard.format_HHmm ZoneExamples.day_of_change
          (ZoneExamples.fall_back + 33 * Examples.hour + 900000))
     = true.
Proof.
  destruct (schedule_is_ordered_by_time_of_day ZoneExamples.day_of_change [] "u1"
              eq_refl) as [Hsorted Horder].
  split; [reflexivity |]. split; [exact Hsorted |].
  split; [vm_compute; reflexivity |]. split; [vm_compute; reflexivity |].
  apply Horder. vm_compute. discriminate.
Defined.

Lemma open_session_names_a_row_witness :
  Pomodoro.sessionId
    (fst (Pomodoro.run MoreExamples.start_only (Pomodoro.initial, Examples.world0)))
  = Some "s1"
  /\ exists row,
       In row (Pomodoro.pomodoro_sessions
                 (snd (Pomodoro.run MoreExamples.start_only
                         (Pomodoro.initial, Examples.world0))))
       /\ Pomodoro.id row = "s1".
Proof.
  assert (H : Pomodoro.sessionId
                (fst (Pomodoro.run MoreExamples.start_only
                        (Pomodoro.initial, Examples.world0))) = Some "s1")
    by reflexivity.
  split; [exact H |].
  exact (open_session_names_a_row MoreExamples.start_only Examples.world0 "s1" H).
Defined.
